(** * Reward pool: demo distribution arithmetic, holder refresh and cron orchestration

    A shallow embedding of the JavaScript / TypeScript sources of the
    reward-pool repository:

    - [src/app/index.js]           equal-split demo ([AppIndex]),
    - [src/unnamed/part_001]       proportional demo ([DemoApp]),
    - [src/scripts/cron-bot-live.ts] the live cron bot ([CronBotLive]),
    - [src/unnamed/part_003]       the mock cron bot ([CronBotMock]),
    - [src/scripts/withdraw.ts]    the owner-withdraw script ([Withdraw]).

    Definitions come first, theorems after them. *)

From Stdlib Require Import ZArith NArith QArith Qround Qreduction Qabs.
From Stdlib Require Import List String Bool Lia Sorted Permutation.
From Stdlib Require Import Floats.
From Stdlib Require Qcanon.
Import ListNotations.
Local Open Scope Z_scope.

(* ================================================================== *)
(** * JavaScript numbers *)
(* ================================================================== *)

(** A JS [number] is an IEEE-754 binary64 value.  Finite values are kept as
    reduced rationals; every arithmetic operation rounds its exact result to
    the nearest binary64 value, ties to even, with gradual underflow and
    overflow to infinity.  The sign of zero is not tracked (no program below
    divides by a negative zero). *)
Module JSNumber.

Inductive Number : Type :=
| NaN
| Infinity (negative : bool)
| Fin (q : Q).

(** Nearest integer to [n / d] (for [0 < d]), ties to the even one. *)
Definition rne (n d : Z) : Z :=
  let q := n / d in
  match 2 * (n mod d) ?= d with
  | Lt => q
  | Gt => q + 1
  | Eq => if Z.even q then q else q + 1
  end.

(** [(n / d) / 2^s] as a fraction of integers. *)
Definition shift (n d s : Z) : Z * Z :=
  if 0 <? s then (n, d * 2 ^ s) else (n * 2 ^ (- s), d).

(** The exponent [s] of the unit in the last place of [n / d]:
    [2^52 <= (n / d) / 2^s < 2^53], or [-1074] for subnormal values. *)
Definition binade (n d : Z) : Z :=
  let s0 := Z.log2 n - Z.log2 d - 52 in
  let '(n', d') := shift n d s0 in
  Z.max (-1074) (if 2 ^ 52 * d' <=? n' then s0 else s0 - 1).

(** [m * 2^s] as a rational. *)
Definition scale (m s : Z) : Q :=
  if 0 <? s then inject_Z (m * 2 ^ s) else Qmake m (Z.to_pos (2 ^ (- s))).

(** Rounding of a positive fraction [n / d] to 53 significant bits. *)
Definition round_pos (n d : Z) : Q :=
  let s := binade n d in
  let '(n', d') := shift n d s in
  scale (rne n' d') s.

Definition overflow (q : Q) : bool := Qle_bool (inject_Z (2 ^ 1024)) q.

Definition round (q : Q) : Number :=
  let q' := Qred q in
  match Qnum q' with
  | Z0 => Fin 0
  | Zpos n =>
      let r := Qred (round_pos (Zpos n) (Zpos (Qden q'))) in
      if overflow r then Infinity false else Fin r
  | Zneg n =>
      let r := Qred (round_pos (Zpos n) (Zpos (Qden q'))) in
      if overflow r then Infinity true else Fin (Qred (Qopp r))
  end.

(** A numeric literal, or [Number(s)] for a decimal integer string [s]. *)
Definition num (z : Z) : Number := round (inject_Z z).

Definition sign (x : Q) : bool := Qnum x <? 0.

(** [x + y] *)
Definition add (x y : Number) : Number :=
  match x, y with
  | NaN, _ | _, NaN => NaN
  | Infinity s, Infinity t => if Bool.eqb s t then Infinity s else NaN
  | Infinity s, Fin _ | Fin _, Infinity s => Infinity s
  | Fin a, Fin b => round (a + b)
  end.

(** [x * y] *)
Definition mul (x y : Number) : Number :=
  match x, y with
  | NaN, _ | _, NaN => NaN
  | Infinity s, Infinity t => Infinity (xorb s t)
  | Infinity s, Fin b | Fin b, Infinity s =>
      if Qeq_bool b 0 then NaN else Infinity (xorb s (sign b))
  | Fin a, Fin b => round (a * b)
  end.

(** [x / y] *)
Definition div (x y : Number) : Number :=
  match x, y with
  | NaN, _ | _, NaN => NaN
  | Infinity _, Infinity _ => NaN
  | Infinity s, Fin b => Infinity (xorb s (sign b))
  | Fin _, Infinity _ => Fin 0
  | Fin a, Fin b =>
      if Qeq_bool b 0
      then (if Qeq_bool a 0 then NaN else Infinity (sign a))
      else round (a / b)
  end.

(** [x < y] *)
Definition lt (x y : Number) : bool :=
  match x, y with
  | NaN, _ | _, NaN => false
  | Infinity s, Infinity t => s && negb t
  | Infinity s, Fin _ => s
  | Fin _, Infinity t => negb t
  | Fin a, Fin b => negb (Qle_bool b a)
  end.

(** [x <= y] *)
Definition le (x y : Number) : bool :=
  match x, y with
  | NaN, _ | _, NaN => false
  | Infinity s, Infinity t => s || negb t
  | Infinity s, Fin _ => s
  | Fin _, Infinity t => negb t
  | Fin a, Fin b => Qle_bool a b
  end.

(** [Math.floor(x)] *)
Definition floor (x : Number) : Number :=
  match x with
  | Fin q => Fin (inject_Z (Qfloor q))
  | _ => x
  end.

(** [Number.isNaN(x)] *)
Definition isNaN (x : Number) : bool :=
  match x with
  | NaN => true
  | _ => false
  end.

(** [Number.MAX_SAFE_INTEGER + 1]: below it every integer is a binary64
    value. *)
Definition two53 : Z := 2 ^ 53.

(** The value of one of the kernel's binary64 floats. *)
Definition ofPrim (x : float) : Number :=
  match Prim2SF x with
  | S754_zero _ => Fin 0
  | S754_infinity s => Infinity s
  | S754_nan => NaN
  | S754_finite s m e =>
      let v := scale (Zpos m) e in
      Fin (Qred (if s then Qopp v else v))
  end.

End JSNumber.

Import JSNumber.

(* ================================================================== *)
(** * src/app/index.js: equal split *)
(* ================================================================== *)

Module AppIndex.

(** [{ address: '...', balance: ... }] *)
Record Holder : Type := { address : string; balance : Number }.

Definition holder (a : string) (b : Z) : Holder :=
  {| address := a; balance := num b |}.

Definition mockHolders : list Holder :=
  [ holder "H1LD3R1...abc123" 1000000;
    holder "H1LD3R2...def456" 800000;
    holder "H1LD3R3...ghi789" 600000;
    holder "H1LD3R4...jkl012" 400000;
    holder "H1LD3R5...mno345" 350000;
    holder "H1LD3R6...pqr678" 300000;
    holder "H1LD3R7...stu901" 250000;
    holder "H1LD3R8...vwx234" 200000;
    holder "H1LD3R9...yza567" 180000;
    holder "H1LD3R10...bcd890" 160000;
    holder "H1LD3R11...efg123" 140000;
    holder "H1LD3R12...hij456" 120000;
    holder "H1LD3R13...klm789" 100000;
    holder "H1LD3R14...nop012" 90000;
    holder "H1LD3R15...qrs345" 80000;
    holder "H1LD3R16...tuv678" 70000;
    holder "H1LD3R17...wxy901" 60000;
    holder "H1LD3R18...zab234" 50000;
    holder "H1LD3R19...cde567" 40000;
    holder "H1LD3R20...fgh890" 30000 ]%string.

(** [const equalShare = totalSOL / mockHolders.length] *)
Definition equalShare (totalSOL : Number) (holders : list Holder) : Number :=
  div totalSOL (num (Z.of_nat (List.length holders))).

(** The breakdown the function reports: every holder with the equal share. *)
Definition distribution (totalSOL : Number) (holders : list Holder)
  : list (string * Number) :=
  map (fun h => (address h, equalShare totalSOL holders)) holders.

Definition simulateDistribution (totalSOL : Number) : list (string * Number) :=
  distribution totalSOL mockHolders.

End AppIndex.

(* ================================================================== *)
(** * src/unnamed/part_001: proportional split *)
(* ================================================================== *)

Module DemoApp.

Record Holder : Type := { address : string; balance : Number }.

Definition holder (a : string) (b : Z) : Holder :=
  {| address := a; balance := num b |}.

(** Holders given by address and integer balance. *)
Definition holders (l : list (string * Z)) : list Holder :=
  map (fun h => holder (fst h) (snd h)) l.

Definition mockHolders : list Holder :=
  holders
    [ ("H1LD3R1...abc123", 1000000);
      ("H1LD3R2...def456", 800000);
      ("H1LD3R3...ghi789", 600000);
      ("H1LD3R4...jkl012", 400000);
      ("H1LD3R5...mno345", 200000) ]%string.

(** [mockHolders.reduce((sum, holder) => sum + holder.balance, 0)] *)
Definition totalBalance (holders : list Holder) : Number :=
  fold_left (fun sum h => add sum (balance h)) holders (num 0).

(** [Math.floor((totalAmount * holder.balance) / totalBalance)] *)
Definition share (totalAmount totalBalance : Number) (h : Holder) : Number :=
  floor (div (mul totalAmount (balance h)) totalBalance).

Definition distribution (totalAmount : Number) (holders : list Holder)
  : list (string * Number) :=
  map (fun h => (address h, share totalAmount (totalBalance holders) h)) holders.

Definition simulateDistribution (totalAmount : Number) : list (string * Number) :=
  distribution totalAmount mockHolders.

End DemoApp.

(** The sum of a list of integers (to state what the payouts add up to). *)
Definition zsum (l : list Z) : Z := fold_right Z.add 0 l.

(* ================================================================== *)
(** * The ledger seen from the scripts *)
(* ================================================================== *)

Module Ledger.

(** A [PublicKey] is identified with its base58 text, a [BN] with the
    integer it holds. *)
Definition PublicKey : Type := string.
Definition Signature : Type := string.

(** [type HolderInfo = { address: PublicKey; balance: anchor.BN }] *)
Record HolderInfo : Type := { address : PublicKey; balance : N }.

(** One entry of [getMultipleAccountsInfo]: [null], data that
    [AccountLayout.decode] / [new PublicKey] rejects, or a token account. *)
Inductive AccountInfo : Type :=
| Null
| Undecodable
| TokenAccount (owner : PublicKey) (amount : N).

(** The instructions a transaction can carry: those of the reward-pool
    program and opaque ones of other programs (the fee collection that the
    Pump SDK builds). *)
Inductive Instruction : Type :=
| External (program : string)
| InitializePool (owner : PublicKey)
| UpdateTopHolders (holders : list HolderInfo)
| DistributeRewards (holders : list HolderInfo) (remainingAccounts : list PublicKey)
| OwnerWithdraw (amount : Z).

Definition Transaction : Type := list Instruction.

Inductive Rpc : Type :=
| GetCreatorVaultBalance
| GetBalance
| CollectCoinCreatorFeeInstructions
| GetTokenLargestAccounts
| GetMultipleAccountsInfo (keys : list PublicKey).

(** What leaves the process: a query, or a transaction submitted with
    [sendAndConfirm] / [rpc()]. *)
Inductive Request : Type :=
| Read (r : Rpc)
| Send (tx : Transaction).

Inductive Exn : Type := Error (message : string).

Inductive outcome (A : Type) : Type :=
| Ok (a : A)
| Threw (e : Exn).
Arguments Ok {A} a.
Arguments Threw {A} e.

(** The account [program.account.rewardPool.fetch(poolPDA)] returns. *)
Record RewardPool : Type :=
  { owner : PublicKey;
    topHolders : list HolderInfo;
    totalRewards : N;
    totalDistributed : N }.

(** Everything outside the process: the ledger, the RPC nodes and the local
    wallet and IDL files.  Queries read the world; only a submitted
    transaction can change it. *)
Class Substrate : Type :=
  { World : Type;
    isOnCurve : PublicKey -> bool;
    isPublicKey : string -> bool;
    rewardPool : World -> RewardPool;
    getCreatorVaultBalanceBothPrograms : World -> outcome N;
    getBalance : World -> outcome N;
    collectCoinCreatorFeeInstructions : World -> outcome (list string);
    getTokenLargestAccounts : World -> outcome (list PublicKey);
    getMultipleAccountsInfo : World -> list PublicKey -> outcome (list AccountInfo);
    loadProgram : World -> outcome unit;
    sendAndConfirm : Transaction -> World -> outcome Signature * World }.

Section IO.
Context `{Substrate}.

Record State : Type := { world : World; trace : list Request }.

Definition start (w : World) : State := {| world := w; trace := [] |}.

(** An [async] computation: it may throw, and the requests it made before
    stay made. *)
Definition IO (A : Type) : Type := State -> outcome A * State.

Definition ret {A} (a : A) : IO A := fun s => (Ok a, s).

Definition throw {A} (e : Exn) : IO A := fun s => (Threw e, s).

Definition bind {A B} (m : IO A) (k : A -> IO B) : IO B :=
  fun s =>
    match m s with
    | (Ok a, s') => k a s'
    | (Threw e, s') => (Threw e, s')
    end.

Definition lift {A} (r : outcome A) : IO A := fun s => (r, s).

(** A local read (files of the machine the script runs on). *)
Definition local {A} (f : World -> outcome A) : IO A :=
  fun s => (f (world s), s).

Definition read {A} (r : Rpc) (f : World -> outcome A) : IO A :=
  fun s => (f (world s), {| world := world s; trace := trace s ++ [Read r] |}).

Definition send (tx : Transaction) : IO Signature :=
  fun s =>
    let '(r, w) := sendAndConfirm tx (world s) in
    (r, {| world := w; trace := trace s ++ [Send tx] |}).

(** [main().then(() => process.exit(0)).catch(() => process.exit(1))] *)
Definition exit (m : IO unit) (s : State) : Z * State :=
  match m s with
  | (Ok _, s') => (0, s')
  | (Threw _, s') => (1, s')
  end.

End IO.

Declare Scope io_scope.
Delimit Scope io_scope with io.
Notation "x <- m ;; k" := (bind m (fun x => k))
  (at level 100, m at next level, right associativity) : io_scope.

(** ** [Map<string, BN>]: insertion-ordered *)
Module JSMap.

Definition t : Type := list (string * N).

Fixpoint get (m : t) (key : string) : option N :=
  match m with
  | [] => None
  | (k, v) :: m' => if String.eqb k key then Some v else get m' key
  end.

(** [set] on a present key keeps its place; a new key goes last. *)
Fixpoint set (m : t) (key : string) (value : N) : t :=
  match m with
  | [] => [(key, value)]
  | (k, v) :: m' =>
      if String.eqb k key then (k, value) :: m' else (k, v) :: set m' key value
  end.

End JSMap.

(** ** [Array.prototype.sort(compareFn)]: stable *)
Section ArraySort.
Context {A : Type} (compareFn : A -> A -> Z).

(** [x] stood before every element of [l]: it moves behind [y] only when
    [compareFn x y > 0]. *)
Fixpoint insert (x : A) (l : list A) : list A :=
  match l with
  | [] => [x]
  | y :: l' => if 0 <? compareFn x y then y :: insert x l' else x :: y :: l'
  end.

Definition sort (l : list A) : list A := fold_right insert [] l.

End ArraySort.

(** [a.cmp(b)] of bn.js *)
Definition BN_cmp (a b : N) : Z :=
  match N.compare a b with
  | Lt => -1
  | Eq => 0
  | Gt => 1
  end.

(** [(a, b) => b[1].cmp(a[1])] *)
Definition byBalanceDesc (a b : string * N) : Z := BN_cmp (snd b) (snd a).

Section Holders.
Context `{Substrate}.

(** The body of [accountInfos.forEach((info, idx) => { ... })]. *)
Definition visit (holderMap : JSMap.t) (info : AccountInfo) : JSMap.t :=
  match info with
  | Null => holderMap
  | Undecodable => holderMap
  | TokenAccount owner amount =>
      if negb (isOnCurve owner) then holderMap
      else if (amount =? 0)%N then holderMap
      else
        let existing :=
          match JSMap.get holderMap owner with
          | Some b => b
          | None => 0%N
          end in
        JSMap.set holderMap owner (existing + amount)%N
  end.

(** From [const holderMap = new Map()] to the returned array:
    fold the accounts into the map, sort its entries by balance
    (descending), keep the first [limit]. *)
Definition rankHolders (accountInfos : list AccountInfo) (limit : nat)
  : list HolderInfo :=
  map (fun e => {| address := fst e; balance := snd e |})
      (firstn limit
         (sort byBalanceDesc (fold_left visit accountInfos []))).

(** [holders.map(({ address }) => ({ pubkey: address, ... }))] *)
Definition remainingAccounts (holders : list HolderInfo) : list PublicKey :=
  map address holders.

(** *** Vocabulary for the properties of [rankHolders] *)

(** The callback adds [info] to the map: a decoded account with an on-curve
    owner and a non-zero amount. *)
Definition counted (info : AccountInfo) : bool :=
  match info with
  | TokenAccount owner amount => isOnCurve owner && negb (amount =? 0)%N
  | _ => false
  end.

Definition ownedBy (a : PublicKey) (info : AccountInfo) : bool :=
  match info with
  | TokenAccount owner _ => String.eqb owner a
  | _ => false
  end.

(** The sum of the amounts of all the accounts that [a] owns. *)
Fixpoint balanceOf (a : PublicKey) (infos : list AccountInfo) : N :=
  match infos with
  | [] => 0
  | TokenAccount owner amount :: rest =>
      ((if String.eqb owner a then amount else 0) + balanceOf a rest)%N
  | _ :: rest => balanceOf a rest
  end.

(** The position of the first counted account that [a] owns, the length of
    the list when there is none. *)
Fixpoint firstSeen (a : PublicKey) (infos : list AccountInfo) : nat :=
  match infos with
  | [] => 0
  | info :: rest =>
      if counted info && ownedBy a info then 0%nat else S (firstSeen a rest)
  end.

End Holders.

(** *** Vocabulary for traces *)

Definition isDistribute (r : Request) : bool :=
  match r with
  | Send tx =>
      existsb (fun i => match i with DistributeRewards _ _ => true | _ => false end) tx
  | Read _ => false
  end.

Definition isUpdateHolders (r : Request) : bool :=
  match r with
  | Send tx =>
      existsb (fun i => match i with UpdateTopHolders _ => true | _ => false end) tx
  | Read _ => false
  end.

(** Every distribute request of the trace has an update-holders request
    somewhere before it. *)
Fixpoint updateBeforeDistribute (updated : bool) (t : list Request) : bool :=
  match t with
  | [] => true
  | r :: t' =>
      (negb (isDistribute r) || updated)
      && updateBeforeDistribute (updated || isUpdateHolders r) t'
  end.

End Ledger.

Import Ledger.
Local Open Scope io_scope.

(* ================================================================== *)
(** * src/scripts/cron-bot-live.ts *)
(* ================================================================== *)

Module CronBotLive.
Section CronBotLive.
Context `{Substrate}.

Definition LAMPORTS_PER_SOL : Number := num 1000000000.

Definition getPendingCreatorRewards : IO Number :=
  lamports <- read GetCreatorVaultBalance getCreatorVaultBalanceBothPrograms ;;
  ret (div (num (Z.of_N lamports)) LAMPORTS_PER_SOL).

Definition collectCreatorFees : IO Signature :=
  instructions <- read CollectCoinCreatorFeeInstructions
                       collectCoinCreatorFeeInstructions ;;
  send (map External instructions).

Definition fetchTopHolders (limit : nat) : IO (list HolderInfo) :=
  largest <- read GetTokenLargestAccounts getTokenLargestAccounts ;;
  if (List.length largest =? 0)%nat then ret []
  else
    let upperBound := Nat.min (List.length largest) (limit * 2) in
    let tokenAccountPubkeys := firstn upperBound largest in
    accountInfos <- read (GetMultipleAccountsInfo tokenAccountPubkeys)
                         (fun w => getMultipleAccountsInfo w tokenAccountPubkeys) ;;
    ret (rankHolders accountInfos limit).

Definition distributeRewards (holders : list HolderInfo) : IO Signature :=
  if (List.length holders =? 0)%nat
  then throw (Error "No holders available for distribution")
  else send [DistributeRewards holders (remainingAccounts holders)].

Definition main (REWARD_THRESHOLD_SOL : Number) : IO unit :=
  pendingRewards <- getPendingCreatorRewards ;;
  if lt pendingRewards REWARD_THRESHOLD_SOL then ret tt
  else
    claimSignature <- collectCreatorFees ;;
    holders <- fetchTopHolders 20 ;;
    if (List.length holders =? 0)%nat then ret tt
    else
      signature <- distributeRewards holders ;;
      ret tt.

Definition run (REWARD_THRESHOLD_SOL : Number) : State -> Z * State :=
  exit (main REWARD_THRESHOLD_SOL).

End CronBotLive.
End CronBotLive.

(* ================================================================== *)
(** * src/unnamed/part_003: the mock cron bot *)
(* ================================================================== *)

Module CronBotMock.
Section CronBotMock.
Context `{Substrate}.

Definition LAMPORTS_PER_SOL : Number := num 1000000000.

Definition fetchPendingCreatorRewards : IO Number :=
  lamports <- read GetBalance getBalance ;;
  ret (div (num (Z.of_N lamports)) LAMPORTS_PER_SOL).

Definition fetchRealHolderBalances (limit : nat) : IO (list HolderInfo) :=
  largest <- read GetTokenLargestAccounts getTokenLargestAccounts ;;
  if (List.length largest =? 0)%nat then ret []
  else
    let upperBound := Nat.min (List.length largest) (limit * 2) in
    let tokenAccountPubkeys := firstn upperBound largest in
    accountInfos <- read (GetMultipleAccountsInfo tokenAccountPubkeys)
                         (fun w => getMultipleAccountsInfo w tokenAccountPubkeys) ;;
    ret (rankHolders accountInfos limit).

(** The first [min(realHolders.length, FAKE_HOLDER_ADDRESSES.length)]
    balances, each paired with the fake address of the same index. *)
Fixpoint substituteFakeAddresses (FAKE_HOLDER_ADDRESSES : list string)
    (realHolders : list HolderInfo) : list HolderInfo :=
  match realHolders, FAKE_HOLDER_ADDRESSES with
  | h :: realHolders', addr :: fake' =>
      {| address := addr; balance := balance h |}
        :: substituteFakeAddresses fake' realHolders'
  | _, _ => []
  end.

Definition distributeRewards (holders : list HolderInfo) : IO Signature :=
  if (List.length holders =? 0)%nat
  then throw (Error "No holders available for distribution")
  else send [DistributeRewards holders (remainingAccounts holders)].

(** [FAKE_HOLDER_ADDRESSES.slice(0, 20).map((addr, index) => ...)] with
    balance [index + 1]. *)
Fixpoint mockHoldersFrom (index : N) (addrs : list string) : list HolderInfo :=
  match addrs with
  | [] => []
  | addr :: addrs' =>
      {| address := addr; balance := (index + 1)%N |}
        :: mockHoldersFrom (index + 1)%N addrs'
  end.

Definition main (REWARD_THRESHOLD_SOL : Number)
    (FAKE_HOLDER_ADDRESSES : list string) : IO unit :=
  pendingRewards <- fetchPendingCreatorRewards ;;
  if lt pendingRewards REWARD_THRESHOLD_SOL then ret tt
  else
    realHolders <- fetchRealHolderBalances 20 ;;
    if (List.length realHolders =? 0)%nat then ret tt
    else if negb (forallb isPublicKey (firstn 20 FAKE_HOLDER_ADDRESSES))
    then throw (Error "Invalid public key input")
    else
      let mockHolders := mockHoldersFrom 0 (firstn 20 FAKE_HOLDER_ADDRESSES) in
      let holdersForDistribution :=
        substituteFakeAddresses FAKE_HOLDER_ADDRESSES mockHolders in
      signature <- distributeRewards holdersForDistribution ;;
      ret tt.

Definition run (REWARD_THRESHOLD_SOL : Number)
    (FAKE_HOLDER_ADDRESSES : list string) : State -> Z * State :=
  exit (main REWARD_THRESHOLD_SOL FAKE_HOLDER_ADDRESSES).

End CronBotMock.
End CronBotMock.

(* ================================================================== *)
(** * src/scripts/withdraw.ts *)
(* ================================================================== *)

Module Withdraw.
Section Withdraw.
Context `{Substrate}.

(** [Number(s)], the string-to-number conversion of the language. *)
Context (ToNumber : string -> Number).

Definition LAMPORTS_PER_SOL : Number := num 1000000000.

(** [!v] for an environment variable: unset or empty. *)
Definition falsy (v : option string) : bool :=
  match v with
  | None => true
  | Some s => String.eqb s ""
  end.

(** [Math.floor(Number(RAW_AMOUNT_SOL) * LAMPORTS_PER_SOL)] *)
Definition amountLamports (RAW_AMOUNT_SOL : string) : Number :=
  floor (mul (ToNumber RAW_AMOUNT_SOL) LAMPORTS_PER_SOL).

(** [new anchor.BN(x)] for a number (bn.js): the integer part below [2^53],
    an assertion failure from there on, zero for [NaN]. *)
Definition BN_ofNumber (x : Number) : outcome Z :=
  match x with
  | NaN => Ok 0
  | Infinity _ => Threw (Error "Assertion failed")
  | Fin q =>
      let magnitude := Qfloor (Qabs q) in
      if magnitude <? two53
      then Ok (if sign q then - magnitude else magnitude)
      else Threw (Error "Assertion failed")
  end.

Definition main (amount : Number) : IO unit :=
  _ <- local loadProgram ;;
  lamports <- lift (BN_ofNumber amount) ;;
  signature <- send [OwnerWithdraw lamports] ;;
  ret tt.

(** The module body: the checks at load time, then [main()]. *)
Definition script (RPC_URL RAW_AMOUNT_SOL : option string) : IO unit :=
  if falsy RPC_URL
  then throw (Error "SOLANA_RPC_URL environment variable is required")
  else
    match RAW_AMOUNT_SOL with
    | None => throw (Error "WITHDRAW_SOL_AMOUNT environment variable is required")
    | Some raw =>
        if String.eqb raw ""
        then throw (Error "WITHDRAW_SOL_AMOUNT environment variable is required")
        else
          let amount := amountLamports raw in
          if isNaN amount || le amount (num 0)
          then throw (Error "WITHDRAW_SOL_AMOUNT must be a positive number")
          else main amount
    end.

(** An error thrown at load time is uncaught and ends the process with
    status 1, like a rejected [main()]. *)
Definition run (RPC_URL RAW_AMOUNT_SOL : option string) : State -> Z * State :=
  exit (script RPC_URL RAW_AMOUNT_SOL).

End Withdraw.
End Withdraw.

(* ================================================================== *)
(** * A small world to run the scripts in *)
(* ================================================================== *)

(** A toy ledger for concrete runs: pending creator fees, the token
    accounts of the mint, the pool account and the vault.  Every
    transaction is accepted. *)
Module Demo.
Local Open Scope string_scope.

Record Chain : Type :=
  { pendingFees : N;
    vault : N;
    tokenAccounts : list (PublicKey * AccountInfo);
    pool : RewardPool }.

Definition accountInfo (w : Chain) (key : PublicKey) : AccountInfo :=
  match find (fun e => String.eqb (fst e) key) (tokenAccounts w) with
  | Some e => snd e
  | None => Null
  end.

Definition execute (w : Chain) (i : Instruction) : Chain :=
  match i with
  | External _ =>
      {| pendingFees := 0; vault := vault w + pendingFees w;
         tokenAccounts := tokenAccounts w; pool := pool w |}
  | InitializePool o =>
      {| pendingFees := pendingFees w; vault := vault w;
         tokenAccounts := tokenAccounts w;
         pool := {| owner := o; topHolders := []; totalRewards := 0;
                    totalDistributed := 0 |} |}
  | UpdateTopHolders hs =>
      {| pendingFees := pendingFees w; vault := vault w;
         tokenAccounts := tokenAccounts w;
         pool := {| owner := owner (pool w); topHolders := hs;
                    totalRewards := totalRewards (pool w);
                    totalDistributed := totalDistributed (pool w) |} |}
  | DistributeRewards hs _ =>
      {| pendingFees := pendingFees w; vault := 0;
         tokenAccounts := tokenAccounts w;
         pool := {| owner := owner (pool w); topHolders := hs;
                    totalRewards := totalRewards (pool w);
                    totalDistributed := totalDistributed (pool w) + vault w |} |}
  | OwnerWithdraw z =>
      {| pendingFees := pendingFees w; vault := vault w - Z.to_N z;
         tokenAccounts := tokenAccounts w; pool := pool w |}
  end%N.

Definition substrate : Substrate :=
  {| World := Chain;
     isOnCurve := fun a => negb (String.prefix "pda" a);
     isPublicKey := fun s => negb (String.eqb s "");
     rewardPool := pool;
     getCreatorVaultBalanceBothPrograms := fun w => Ok (pendingFees w);
     getBalance := fun w => Ok (vault w);
     collectCoinCreatorFeeInstructions := fun _ => Ok ["pump"];
     getTokenLargestAccounts := fun w => Ok (map fst (tokenAccounts w));
     getMultipleAccountsInfo := fun w keys => Ok (map (accountInfo w) keys);
     loadProgram := fun _ => Ok tt;
     sendAndConfirm := fun tx w => (Ok "signature", fold_left execute tx w) |}.

Definition emptyPool : RewardPool :=
  {| owner := "owner"; topHolders := []; totalRewards := 0; totalDistributed := 0 |}.

(** Two SOL of pending fees; alice holds two token accounts, bob one; one
    account belongs to a program-derived owner and one is empty. *)
Definition busy : Chain :=
  {| pendingFees := 2000000000;
     vault := 0;
     tokenAccounts :=
       [ ("t1", TokenAccount "alice" 40); ("t2", TokenAccount "pda-pool" 900);
         ("t3", TokenAccount "bob" 70); ("t4", TokenAccount "carol" 0);
         ("t5", Null); ("t6", TokenAccount "alice" 30) ];
     pool := emptyPool |}.

(** As [busy], but no account can be paid. *)
Definition barren : Chain :=
  {| pendingFees := 2000000000;
     vault := 0;
     tokenAccounts :=
       [ ("t2", TokenAccount "pda-pool" 900); ("t4", TokenAccount "carol" 0);
         ("t5", Null) ];
     pool := emptyPool |}.

(** The world after the fee claim. *)
Definition claimed (w : Chain) : Chain := execute w (External "pump").

(** [Number(s)] on the few strings the examples use. *)
Definition toNumber (s : string) : Number :=
  if String.eqb s "1.5" then div (num 3) (num 2)
  else if String.eqb s "0" then num 0
  else if String.eqb s "-2" then num (-2)
  else if String.eqb s "Infinity" then Infinity false
  else NaN.

End Demo.

(* ================================================================== *)
(** * Further vocabulary and worlds *)
(* ================================================================== *)

(** The sum of a list of token amounts. *)
Definition nsum (l : list N) : N := fold_right N.add 0%N l.

Section Counted.
Context `{Substrate}.

(** What an account adds to the holder map: its amount when the callback
    counts it, nothing otherwise. *)
Definition countedAmount (info : AccountInfo) : N :=
  match info with
  | TokenAccount _ amount => if counted info then amount else 0%N
  | _ => 0%N
  end.

End Counted.

(** A world like [Demo.substrate] whose ledger rejects every transaction. *)
Module DemoRejecting.
Local Open Scope string_scope.

Definition substrate : Substrate :=
  {| World := Demo.Chain;
     isOnCurve := fun a => negb (String.prefix "pda" a);
     isPublicKey := fun s => negb (String.eqb s "");
     rewardPool := Demo.pool;
     getCreatorVaultBalanceBothPrograms := fun w => Ok (Demo.pendingFees w);
     getBalance := fun w => Ok (Demo.vault w);
     collectCoinCreatorFeeInstructions := fun _ => Ok ["pump"];
     getTokenLargestAccounts := fun w => Ok (map fst (Demo.tokenAccounts w));
     getMultipleAccountsInfo := fun w keys => Ok (map (Demo.accountInfo w) keys);
     loadProgram := fun _ => Ok tt;
     sendAndConfirm :=
       fun _ w => (Threw (Error "Transaction simulation failed"), w) |}.

End DemoRejecting.


(* ================================================================== *)
(** * The holder refresh of the demo applications *)
(* ================================================================== *)

(** [x - y] *)
Definition sub (x y : Number) : Number :=
  match x, y with
  | NaN, _ | _, NaN => NaN
  | Infinity s, Infinity t => if Bool.eqb s t then NaN else Infinity s
  | Infinity s, Fin _ => Infinity s
  | Fin _, Infinity t => Infinity (negb t)
  | Fin a, Fin b => round (a - b)
  end.

(** What [Array.prototype.sort] reads off the number a comparator returns:
    its sign, with [NaN] taken as [+0]. *)
Definition comparison (v : Number) : Z :=
  match v with
  | NaN => 0
  | Infinity negative => if negative then -1 else 1
  | Fin q => Z.sgn (Qnum q)
  end.

Section NumberRanking.
Context {A : Type} (bal : A -> Number).

(** A balance that is a non-negative integer below [2^53]. *)
Definition safeBalance (h : A) : Prop :=
  exists z, 0 <= z < two53 /\ bal h = num z.

(** [x] may stand before [y]: [y]'s balance is at most [x]'s. *)
Definition ranked (x y : A) : Prop := le (bal y) (bal x) = true.

End NumberRanking.

(** src/app/index.js, [updateTopHolders]. *)
Module AppIndexHolders.
Import AppIndex.

(** [(a, b) => b.balance - a.balance] *)
Definition byBalance (a b : Holder) : Z :=
  comparison (sub (balance b) (balance a)).

(** [holders.sort(...).slice(0, 20)]: the array returned, and the caller's
    array after the call ([sort] works in place). *)
Definition updateTopHolders (holders : list Holder) : list Holder * list Holder :=
  let sorted := sort byBalance holders in
  (firstn 20 sorted, sorted).

End AppIndexHolders.

(** src/unnamed/part_001, [updateTopHolders]. *)
Module DemoAppHolders.
Import DemoApp.

(** [(a, b) => b.balance - a.balance] *)
Definition byBalance (a b : Holder) : Z :=
  comparison (sub (balance b) (balance a)).

(** [holders.sort(...).slice(0, 10)]: the array returned, and the caller's
    array after the call. *)
Definition updateTopHolders (holders : list Holder) : list Holder * list Holder :=
  let sorted := sort byBalance holders in
  (firstn 10 sorted, sorted).

End DemoAppHolders.

(* ================================================================== *)
(** * Wallet scripts: requests, console lines and [try]/[catch] *)
(* ================================================================== *)

(** The wallet scripts talk to a cluster and print what they did.  A run
    is followed through the events it leaves behind: the requests it made
    and the console lines that report an outcome. *)
Module Script.
Section Script.
Context {W E : Type}.

Record State : Type := { chain : W; events : list E }.

Definition begin (w : W) : State := {| chain := w; events := [] |}.

Definition Async (A : Type) : Type := State -> outcome A * State.

Definition ret {A} (a : A) : Async A := fun s => (Ok a, s).

Definition throw {A} (e : Exn) : Async A := fun s => (Threw e, s).

Definition bind {A B} (m : Async A) (k : A -> Async B) : Async B :=
  fun s =>
    match m s with
    | (Ok a, s') => k a s'
    | (Threw e, s') => (Threw e, s')
    end.

(** [try { m } catch (error) { handler(error) }] *)
Definition tryCatch {A} (m : Async A) (handler : Exn -> Async A) : Async A :=
  fun s =>
    match m s with
    | (Ok a, s') => (Ok a, s')
    | (Threw e, s') => handler e s'
    end.

(** A computation of the script itself, which may throw. *)
Definition lift {A} (r : outcome A) : Async A := fun s => (r, s).

(** Something read on the machine of the script: no event. *)
Definition local {A} (f : W -> outcome A) : Async A :=
  fun s => (f (chain s), s).

(** A request that reads the cluster. *)
Definition query {A} (request : E) (f : W -> outcome A) : Async A :=
  fun s => (f (chain s), {| chain := chain s; events := events s ++ [request] |}).

(** A request that may change the cluster. *)
Definition submit {A} (request : E) (f : W -> outcome A * W) : Async A :=
  fun s =>
    let '(r, w) := f (chain s) in
    (r, {| chain := w; events := events s ++ [request] |}).

(** A step that changes the machine or the cluster and always answers. *)
Definition submit' {A} (f : W -> A * W) : Async A :=
  fun s =>
    let '(a, w) := f (chain s) in
    (Ok a, {| chain := w; events := events s |}).

(** [console.log(line)] *)
Definition log (line : E) : Async unit :=
  fun s => (Ok tt, {| chain := chain s; events := events s ++ [line] |}).

(** [main().then(() => process.exit(0)).catch(() => process.exit(1))] *)
Definition exit (m : Async unit) (s : State) : Z * State :=
  match m s with
  | (Ok _, s') => (0, s')
  | (Threw _, s') => (1, s')
  end.

End Script.
End Script.

Declare Scope script_scope.
Delimit Scope script_scope with script.
Notation "x <- m ;; k" := (Script.bind m (fun x => k))
  (at level 100, m at next level, right associativity) : script_scope.

(** [Number.isFinite(x)] *)
Definition isFinite (x : Number) : bool :=
  match x with
  | Fin _ => true
  | _ => false
  end.

(** [Number.isInteger(x)] *)
Definition isInteger (x : Number) : bool :=
  match x with
  | Fin q => Qeq_bool q (inject_Z (Qfloor q))
  | _ => false
  end.

(** [BigInt(x)] for a number: the integer it is, a [RangeError] when it is
    not an integer (the message also shows the number). *)
Definition BigInt (x : Number) : outcome Z :=
  match x with
  | Fin q =>
      if Qeq_bool q (inject_Z (Qfloor q)) then Ok (Qfloor q)
      else Threw (Error "The number cannot be converted to a BigInt because it is not an integer")
  | _ => Threw (Error "The number cannot be converted to a BigInt because it is not an integer")
  end.

(** The first check of [new Connection(endpoint, commitment)]:
    [/^https?:/.test(endpoint)]. *)
Definition assertEndpointUrl (endpoint : string) : outcome unit :=
  if String.prefix "http:" endpoint || String.prefix "https:" endpoint
  then Ok tt
  else Threw (Error "Endpoint URL must start with `http:` or `https:`.").

(* ================================================================== *)
(** * src/unnamed/part_003: sweeping the holder wallets into the vault *)
(* ================================================================== *)

Module HolderSweep.

(** [SystemProgram.transfer({ fromPubkey, toPubkey, lamports })] *)
Record Transfer : Type :=
  { fromPubkey : PublicKey; toPubkey : PublicKey; lamports : Number }.

(** What [confirmTransaction] resolves to: the transaction's own error, if
    it failed on the ledger. *)
Record SignatureResult : Type := { err : option string }.

Inductive Event : Type :=
| GetBalance (key : PublicKey)
| GetLatestBlockhash
| SendTransaction (t : Transfer)
| ConfirmTransaction (signature : Signature)
| Skipping
| Sent (transferLamports : Number) (signature : Signature)
| TransferFailed (error : Exn)
| TotalSent (totalTransferredLamports : Number).

(** The machine and the cluster the script runs against.  [connect] is
    what [new Connection(endpoint, commitment)] does with an endpoint that
    passed its first check. *)
Class Cluster : Type :=
  { World : Type;
    connect : string -> outcome unit;
    deriveVaultAddress : World -> outcome PublicKey;
    loadKeypair : World -> string -> outcome PublicKey;
    getBalance : World -> PublicKey -> outcome N;
    getLatestBlockhash : World -> outcome string;
    sendTransaction : Transfer -> World -> outcome Signature * World;
    confirmTransaction : Signature -> World -> outcome SignatureResult * World }.

Section HolderSweep.
Context `{Cluster}.
Local Open Scope script_scope.

Definition Async : Type -> Type := @Script.Async World Event.

(** [process.env.SOLANA_RPC_URL ?? process.env.SOLANA_DEVNET_RPC_URL ??
    process.env.SOLANA_MAINNET_RPC_URL] *)
Definition rpcUrl (SOLANA_RPC_URL SOLANA_DEVNET_RPC_URL SOLANA_MAINNET_RPC_URL
                    : option string) : option string :=
  match SOLANA_RPC_URL with
  | Some url => Some url
  | None =>
      match SOLANA_DEVNET_RPC_URL with
      | Some url => Some url
      | None => SOLANA_MAINNET_RPC_URL
      end
  end.

(** [new Connection(endpoint, commitment)] *)
Definition Connection (endpoint : string) : outcome unit :=
  match assertEndpointUrl endpoint with
  | Ok _ => connect endpoint
  | Threw e => Threw e
  end.

(** [SystemProgram.transfer({ fromPubkey, toPubkey, lamports })]: the amount
    goes through [BigInt], which refuses a number that is not an integer. *)
Definition transfer (fromPubkey toPubkey : PublicKey) (lamports : Number)
  : outcome Transfer :=
  match BigInt lamports with
  | Ok _ =>
      Ok {| fromPubkey := fromPubkey; toPubkey := toPubkey;
            lamports := lamports |}
  | Threw e => Threw e
  end.

(** The body of the [try] block for one holder file: the lamports sent, or
    nothing when the wallet is skipped. *)
Definition sweep (vaultPubkey : PublicKey) (feeBufferLamports : Number)
    (holderFile : string) : Async (option Number) :=
  keypair <- Script.local (fun w => loadKeypair w holderFile) ;;
  lamports <- Script.query (GetBalance keypair) (fun w => getBalance w keypair) ;;
  let balance := num (Z.of_N lamports) in
  if le balance feeBufferLamports
  then (_ <- Script.log Skipping ;; Script.ret None)
  else
    let transferLamports := sub balance feeBufferLamports in
    blockhash <- Script.query GetLatestBlockhash getLatestBlockhash ;;
    transaction <- Script.lift (transfer keypair vaultPubkey transferLamports) ;;
    signature <- Script.submit (SendTransaction transaction)
                               (sendTransaction transaction) ;;
    _ <- Script.submit (ConfirmTransaction signature)
                       (confirmTransaction signature) ;;
    _ <- Script.log (Sent transferLamports signature) ;;
    Script.ret (Some transferLamports).

(** One turn of [for (const holderFile of holderFiles)], with the running
    total. *)
Definition turn (vaultPubkey : PublicKey) (feeBufferLamports : Number)
    (totalTransferredLamports : Number) (holderFile : string) : Async Number :=
  Script.tryCatch
    (sent <- sweep vaultPubkey feeBufferLamports holderFile ;;
     match sent with
     | Some transferLamports =>
         Script.ret (add totalTransferredLamports transferLamports)
     | None => Script.ret totalTransferredLamports
     end)
    (fun error =>
       _ <- Script.log (TransferFailed error) ;;
       Script.ret totalTransferredLamports).

Fixpoint turns (vaultPubkey : PublicKey) (feeBufferLamports : Number)
    (totalTransferredLamports : Number) (holderFiles : list string)
  : Async Number :=
  match holderFiles with
  | [] => Script.ret totalTransferredLamports
  | holderFile :: rest =>
      total <- turn vaultPubkey feeBufferLamports totalTransferredLamports
                    holderFile ;;
      turns vaultPubkey feeBufferLamports total rest
  end.

Definition main (url : string) (holderFiles : list string)
    (feeBufferLamports : Number) : Async unit :=
  vaultPubkey <- Script.local deriveVaultAddress ;;
  connection <- Script.lift (Connection url) ;;
  totalTransferredLamports <-
    turns vaultPubkey feeBufferLamports (num 0) holderFiles ;;
  Script.log (TotalSent totalTransferredLamports).

(** The module body: the checks at load time, then [main()].  [url] is
    [rpcUrl] of the environment, [holderFiles] the sorted names of the
    matching files; the second message also names the prefix and the
    directory. *)
Definition script (url : option string) (holderFiles : list string)
    (feeBufferLamports : Number) : Async unit :=
  if Withdraw.falsy url
  then Script.throw (Error "Set SOLANA_RPC_URL (or SOLANA_DEVNET_RPC_URL / SOLANA_MAINNET_RPC_URL)")
  else if (List.length holderFiles =? 0)%nat
  then Script.throw (Error "No holder keypairs found")
  else if negb (isFinite feeBufferLamports) || lt feeBufferLamports (num 0)
  then Script.throw (Error "HOLDER_FEE_BUFFER_LAMPORTS must be a non-negative number")
  else
    match url with
    | Some endpoint => main endpoint holderFiles feeBufferLamports
    | None => Script.throw (Error "Set SOLANA_RPC_URL (or SOLANA_DEVNET_RPC_URL / SOLANA_MAINNET_RPC_URL)")
    end.

Definition run (url : option string) (holderFiles : list string)
    (feeBufferLamports : Number) : Script.State -> Z * Script.State :=
  Script.exit (script url holderFiles feeBufferLamports).

(** The turn for [holderFile] from the world [w] goes all the way: the
    keypair loads, the balance read is above the buffer, the blockhash
    arrives, the transfer [transaction] of the difference is built, sent
    with the answer [signature], and the confirmation request returns,
    leaving the world [w']. *)
Definition confirmedTransfer (vaultPubkey : PublicKey)
    (feeBufferLamports : Number) (w : World) (holderFile : string)
    (transaction : Transfer) (signature : Signature) (w' : World) : Prop :=
  exists keypair balance blockhash w1 result,
    loadKeypair w holderFile = Ok keypair
    /\ getBalance w keypair = Ok balance
    /\ le (num (Z.of_N balance)) feeBufferLamports = false
    /\ getLatestBlockhash w = Ok blockhash
    /\ transfer keypair vaultPubkey
                (sub (num (Z.of_N balance)) feeBufferLamports)
       = Ok transaction
    /\ sendTransaction transaction w = (Ok signature, w1)
    /\ confirmTransaction signature w1 = (Ok result, w').

(** The amounts of the transfers the console reports as sent. *)
Fixpoint sentAmounts (events : list Event) : list Number :=
  match events with
  | [] => []
  | Sent transferLamports _ :: rest => transferLamports :: sentAmounts rest
  | _ :: rest => sentAmounts rest
  end.

End HolderSweep.
End HolderSweep.

(** A small cluster to run the sweep in: wallets named after their files,
    lamport balances by key.  A transfer costs its sender 5000 lamports on
    top of the amount; with [rejecting] set, transactions are accepted for
    processing but fail on the ledger, which the confirmation reports. *)
Module SweepDemo.
Import HolderSweep.
Local Open Scope string_scope.

Record Chain : Type :=
  { balances : list (PublicKey * N); rejecting : bool }.

Fixpoint balanceOf (l : list (PublicKey * N)) (key : PublicKey) : N :=
  match l with
  | [] => 0%N
  | (k, b) :: l' => if String.eqb k key then b else balanceOf l' key
  end.

Definition wholeLamports (x : Number) : N :=
  match x with
  | Fin q => Z.to_N (Qfloor q)
  | _ => 0%N
  end.

Definition transfer (t : Transfer) (l : list (PublicKey * N)) : list (PublicKey * N) :=
  let amount := wholeLamports (lamports t) in
  (fromPubkey t, (balanceOf l (fromPubkey t) - amount - 5000)%N)
    :: (toPubkey t, (balanceOf l (toPubkey t) + amount)%N) :: l.

Definition cluster : Cluster :=
  {| World := Chain;
     connect := fun _ => Ok tt;
     deriveVaultAddress := fun _ => Ok "vault";
     loadKeypair := fun _ file =>
       if String.eqb file "broken.json"
       then Threw (Error "Unexpected end of JSON input")
       else Ok file;
     getBalance := fun w key => Ok (balanceOf (balances w) key);
     getLatestBlockhash := fun _ => Ok "blockhash";
     sendTransaction := fun t w =>
       (Ok "signature",
        if rejecting w then w
        else {| balances := transfer t (balances w); rejecting := false |});
     confirmTransaction := fun _ w =>
       (Ok {| err := if rejecting w then Some "custom program error" else None |},
        w) |}.

Definition wallets : Chain :=
  {| balances := [("holder1.json", 80000%N); ("holder2.json", 5000%N);
                  ("holder3.json", 12000%N)];
     rejecting := false |}.

Definition failing : Chain :=
  {| balances := balances wallets; rejecting := true |}.

End SweepDemo.

(* ================================================================== *)
(** * src/unnamed/part_001: the distribution demo script *)
(* ================================================================== *)

(** [x === y] on numbers *)
Definition strictEq (x y : Number) : bool :=
  match x, y with
  | Infinity s, Infinity t => Bool.eqb s t
  | Fin a, Fin b => Qeq_bool a b
  | _, _ => false
  end.

(** [x >= y] *)
Definition ge (x y : Number) : bool := le y x.

(** [haystack.includes(needle)] *)
Definition includes (haystack needle : string) : bool :=
  match String.index 0 needle haystack with
  | Some _ => true
  | None => false
  end.

Module DistributionDemo.

(** [{ address: kp.publicKey, balance: new anchor.BN(...) }] *)
Record HolderInfo : Type := { address : PublicKey; balance : Z }.

(** The pool account as far as the script reads it. *)
Record PoolAccount : Type := { owner : PublicKey }.

Inductive Instruction : Type :=
| InitializePool (owner : PublicKey)
| Transfer (fromPubkey toPubkey : PublicKey) (lamports : Number)
| UpdateTopHolders (holders : list HolderInfo)
| DistributeRewards (remainingAccounts : list PublicKey).

Inductive Event : Type :=
| FetchPool (pool : PublicKey)
| GetBalance (key : PublicKey)
| Send (instruction : Instruction).

(** The instructions sent, in order. *)
Fixpoint sent (events : list Event) : list Instruction :=
  match events with
  | [] => []
  | Send instruction :: rest => instruction :: sent rest
  | _ :: rest => sent rest
  end.

(** The machine and the cluster the script runs against.  [connect] is what
    [new Connection(endpoint, commitment)] does with an endpoint that passed
    its first check; [readIdl] is the
    [address] field of the parsed IDL file; [generate] is
    [Keypair.generate()], which draws on the machine's randomness; [rpc]
    sends a transaction of one instruction and waits for its
    confirmation. *)
Class Devnet : Type :=
  { World : Type;
    connect : string -> outcome unit;
    readIdl : World -> outcome (option string);
    homedir : World -> string;
    existsSync : World -> string -> bool;
    loadKeypairFromFile : World -> string -> outcome PublicKey;
    isPublicKey : string -> bool;
    newProgram : World -> outcome unit;
    findProgramAddress : string -> string -> PublicKey;
    fetchPool : World -> PublicKey -> outcome PoolAccount;
    getBalance : World -> PublicKey -> outcome N;
    generate : World -> PublicKey * World;
    rpc : Instruction -> World -> outcome Signature * World }.

Section DistributionDemo.
Context `{Devnet}.
Local Open Scope script_scope.
Local Open Scope string_scope.

(** The environment: [SOLANA_RPC_URL], [PROGRAM_ID], [ANCHOR_WALLET], and
    the three numbers [parseInt(FAKE_HOLDER_COUNT || '5', 10)],
    [parseFloat(HOLDER_FUND_SOL || HOLDER_AIRDROP_SOL || '0.01')] and
    [parseFloat(VAULT_TOP_UP_SOL || '0.2')]. *)
Context (SOLANA_RPC_URL PROGRAM_ID ANCHOR_WALLET : option string).
Context (HOLDER_COUNT HOLDER_FUND_SOL VAULT_TOP_UP_SOL : Number).

Definition Async : Type -> Type := @Script.Async World Event.

Definition LAMPORTS_PER_SOL : Number := num 1000000000.

(** [process.env.SOLANA_RPC_URL || 'https://api.devnet.solana.com'] *)
Definition DEFAULT_RPC : string :=
  match SOLANA_RPC_URL with
  | Some url => if String.eqb url "" then "https://api.devnet.solana.com" else url
  | None => "https://api.devnet.solana.com"
  end.

(** [new Connection(endpoint, commitment)] *)
Definition Connection (endpoint : string) : outcome unit :=
  match assertEndpointUrl endpoint with
  | Ok _ => connect endpoint
  | Threw e => Threw e
  end.

(** [SystemProgram.transfer({ fromPubkey, toPubkey, lamports })]: the amount
    goes through [BigInt], which refuses a number that is not an integer. *)
Definition transfer (fromPubkey toPubkey : PublicKey) (lamports : Number)
  : outcome Instruction :=
  match BigInt lamports with
  | Ok _ => Ok (Transfer fromPubkey toPubkey lamports)
  | Threw e => Threw e
  end.

(** [process.env.PROGRAM_ID || null] *)
Definition PROGRAM_ID_OVERRIDE : option string :=
  if Withdraw.falsy PROGRAM_ID then None else PROGRAM_ID.

(** The IDL, as far as the script reads it: its [address]. *)
Definition loadIdl : Async string :=
  parsed <- Script.local readIdl ;;
  let address :=
    match PROGRAM_ID_OVERRIDE with
    | Some id => Some id
    | None => parsed
    end in
  match address with
  | Some id =>
      if String.eqb id ""
      then Script.throw (Error "Program ID not found in IDL. Set PROGRAM_ID env var.")
      else Script.ret id
  | None => Script.throw (Error "Program ID not found in IDL. Set PROGRAM_ID env var.")
  end.

Definition resolveWalletPath : Async string :=
  fun s =>
    if negb (Withdraw.falsy ANCHOR_WALLET)
    then match ANCHOR_WALLET with
         | Some p => Script.ret p s
         | None => Script.ret "" s
         end
    else
      let defaultPath :=
        homedir (Script.chain s) ++ "/.config/solana/devnet-keypair.json" in
      if existsSync (Script.chain s) defaultPath then Script.ret defaultPath s
      else
        let legacyPath := homedir (Script.chain s) ++ "/.config/solana/id.json" in
        if existsSync (Script.chain s) legacyPath then Script.ret legacyPath s
        else Script.throw
               (Error "No wallet found. Set ANCHOR_WALLET env var pointing to a keypair file.")
               s.

Definition message (e : Exn) : string :=
  match e with
  | Error m => m
  end.

Definition fetch (poolPDA : PublicKey) : Async PoolAccount :=
  Script.query (FetchPool poolPDA) (fun w => fetchPool w poolPDA).

Definition send (instruction : Instruction) : Async Signature :=
  Script.submit (Send instruction) (rpc instruction).

Definition ensurePool (poolPDA vaultPDA ownerPubkey : PublicKey)
  : Async PoolAccount :=
  Script.tryCatch (fetch poolPDA)
    (fun error =>
       if negb (includes (message error) "Account does not exist")
       then Script.throw error
       else
         _ <- send (InitializePool ownerPubkey) ;;
         fetch poolPDA).

Definition seedVaultIfNeeded (wallet vaultPDA : PublicKey) : Async unit :=
  lamports <- Script.query (GetBalance vaultPDA) (fun w => getBalance w vaultPDA) ;;
  let currentLamports := num (Z.of_N lamports) in
  let requiredLamports := floor (mul VAULT_TOP_UP_SOL LAMPORTS_PER_SOL) in
  if strictEq requiredLamports (num 0) || ge currentLamports requiredLamports
  then Script.ret tt
  else
    let lamportsToSend := sub requiredLamports currentLamports in
    instruction <- Script.lift (transfer wallet vaultPDA lamportsToSend) ;;
    _ <- send instruction ;;
    Script.ret tt.

(** [fakeHolders.map((kp, index) => ...)], from [index] on. *)
Fixpoint buildHolderInfosFrom (index : nat) (fakeHolders : list PublicKey)
  : outcome (list HolderInfo) :=
  match fakeHolders with
  | [] => Ok []
  | kp :: rest =>
      match Withdraw.BN_ofNumber
              (sub (num 1000) (mul (num (Z.of_nat index)) (num 50))) with
      | Threw e => Threw e
      | Ok b =>
          match buildHolderInfosFrom (S index) rest with
          | Threw e => Threw e
          | Ok infos => Ok ({| address := kp; balance := b |} :: infos)
          end
      end
  end.

Definition buildHolderInfos (fakeHolders : list PublicKey)
  : outcome (list HolderInfo) :=
  buildHolderInfosFrom 0 fakeHolders.

Definition fundAccount (wallet recipient : PublicKey) (lamports : Number)
  : Async unit :=
  if le lamports (num 0)
  then Script.throw (Error "HOLDER_FUND_SOL must be greater than 0.")
  else
    instruction <- Script.lift (transfer wallet recipient lamports) ;;
    _ <- send instruction ;;
    Script.ret tt.

(** A script that may run for ever: [None] when the turns allowed do not
    bring it to an end. *)
Definition Unbounded (A : Type) : Type :=
  @Script.State World Event -> option (outcome A * @Script.State World Event).

Definition ended {A} (m : Async A) : Unbounded A := fun s => Some (m s).

Definition andThen {A B} (m : Unbounded A) (k : A -> Unbounded B) : Unbounded B :=
  fun s =>
    match m s with
    | None => None
    | Some (Ok a, s') => k a s'
    | Some (Threw e, s') => Some (Threw e, s')
    end.

(** [for (let i = 0; i < HOLDER_COUNT; i += 1) { ... }], from the counter
    [i] on, with the holders made so far. *)
Fixpoint fundHolders (turns : nat) (wallet : PublicKey)
    (lamportsPerHolder : Number) (i : Number) (holders : list PublicKey)
  : Unbounded (list PublicKey) :=
  if lt i HOLDER_COUNT
  then
    match turns with
    | O => fun _ => None
    | S turns' =>
        andThen
          (ended
             (kp <- Script.submit' generate ;;
              _ <- fundAccount wallet kp lamportsPerHolder ;;
              _ <- Script.query (GetBalance kp) (fun w => getBalance w kp) ;;
              Script.ret kp))
          (fun kp =>
             fundHolders turns' wallet lamportsPerHolder (add i (num 1))
                         (holders ++ [kp]))
    end
  else ended (Script.ret holders).

(** The second message also names the wallet and the amount needed. *)
Definition createFakeHolders (turns : nat) (wallet : PublicKey)
  : Unbounded (list PublicKey) :=
  let lamportsPerHolder := floor (mul HOLDER_FUND_SOL LAMPORTS_PER_SOL) in
  let feeBuffer := mul HOLDER_COUNT (num 5000) in
  let totalLamportsNeeded := add (mul lamportsPerHolder HOLDER_COUNT) feeBuffer in
  andThen
    (ended (Script.query (GetBalance wallet) (fun w => getBalance w wallet)))
    (fun lamports =>
       let providerBalance := num (Z.of_N lamports) in
       if strictEq lamportsPerHolder (num 0)
       then ended (Script.throw
                     (Error "Set HOLDER_FUND_SOL to the amount of SOL each fake holder should receive."))
       else if lt providerBalance totalLamportsNeeded
       then ended (Script.throw (Error "Provider wallet needs more SOL to fund holders."))
       else fundHolders turns wallet lamportsPerHolder (num 0) []).

(** The funding loop went through [holders], one after the other, from the
    world [w] to the world [w']: each key was generated, paid by a
    confirmed transfer of [lamportsPerHolder] from the wallet, and its
    balance read. *)
Fixpoint fundedFrom (wallet : PublicKey) (lamportsPerHolder : Number)
    (w : World) (holders : list PublicKey) (w' : World) : Prop :=
  match holders with
  | [] => w' = w
  | kp :: rest =>
      exists w1 signature w2 lamports,
        generate w = (kp, w1)
        /\ rpc (Transfer wallet kp lamportsPerHolder) w1 = (Ok signature, w2)
        /\ getBalance w2 kp = Ok lamports
        /\ fundedFrom wallet lamportsPerHolder w2 rest w'
  end.

(** [for (let i = 0; i < fakeHolders.length; i += 1)]: the balances shown
    at the end. *)
Fixpoint showBalances (fakeHolders : list PublicKey) : Async unit :=
  match fakeHolders with
  | [] => Script.ret tt
  | pubkey :: rest =>
      _ <- Script.query (GetBalance pubkey) (fun w => getBalance w pubkey) ;;
      showBalances rest
  end.

(** [main], up to the check that the wallet owns the pool: the wallet and
    the two program addresses. *)
Definition openPool : Async (PublicKey * PublicKey * PublicKey) :=
  idl <- loadIdl ;;
  connection <- Script.lift (Connection DEFAULT_RPC) ;;
  walletPath <- resolveWalletPath ;;
  wallet <- Script.local (fun w => loadKeypairFromFile w walletPath) ;;
  if negb (isPublicKey idl)
  then Script.throw (Error "Invalid public key input")
  else
    _ <- Script.local newProgram ;;
    let poolPDA := findProgramAddress "pool" idl in
    let vaultPDA := findProgramAddress "vault" idl in
    poolAccount <- ensurePool poolPDA vaultPDA wallet ;;
    if negb (String.eqb (owner poolAccount) wallet)
    then Script.throw
           (Error "The local wallet is not the pool owner. Use the pool owner keypair to run this demo.")
    else Script.ret (wallet, poolPDA, vaultPDA).

(** [main], once the fake holders exist. *)
Definition updateAndDistribute (wallet poolPDA vaultPDA : PublicKey)
    (fakeHolders : list PublicKey) : Async unit :=
  holderInfos <- Script.local (fun _ => buildHolderInfos fakeHolders) ;;
  _ <- send (UpdateTopHolders holderInfos) ;;
  _ <- seedVaultIfNeeded wallet vaultPDA ;;
  _ <- send (DistributeRewards (map address holderInfos)) ;;
  updatedPool <- fetch poolPDA ;;
  showBalances fakeHolders.

Definition main (turns : nat) : Unbounded unit :=
  andThen (ended openPool)
    (fun '(wallet, poolPDA, vaultPDA) =>
       andThen (createFakeHolders turns wallet)
         (fun fakeHolders =>
            ended (updateAndDistribute wallet poolPDA vaultPDA fakeHolders))).

(** [main().catch(() => process.exit(1))] *)
Definition run (turns : nat) (s : @Script.State World Event)
  : option (Z * @Script.State World Event) :=
  match main turns s with
  | None => None
  | Some (Ok _, s') => Some (0, s')
  | Some (Threw _, s') => Some (1, s')
  end.

End DistributionDemo.
End DistributionDemo.

(** A small devnet for the demo script: the pool account once it exists,
    lamport balances by key, and the number of keypairs drawn so far.
    Every transaction is accepted. *)
Module DemoDevnet.
Import DistributionDemo.
Local Open Scope string_scope.

Record Chain : Type :=
  { poolOwner : option PublicKey;
    balances : list (PublicKey * N);
    drawn : nat }.

Definition credit (key : PublicKey) (x : Number) (l : list (PublicKey * N))
  : list (PublicKey * N) :=
  (key, (SweepDemo.balanceOf l key + SweepDemo.wholeLamports x)%N) :: l.

Definition debit (key : PublicKey) (x : Number) (l : list (PublicKey * N))
  : list (PublicKey * N) :=
  (key, (SweepDemo.balanceOf l key - SweepDemo.wholeLamports x - 5000)%N) :: l.

Definition execute (w : Chain) (instruction : Instruction) : Chain :=
  match instruction with
  | InitializePool o =>
      {| poolOwner := Some o; balances := balances w; drawn := drawn w |}
  | Transfer f t x =>
      {| poolOwner := poolOwner w;
         balances := credit t x (debit f x (balances w));
         drawn := drawn w |}
  | UpdateTopHolders _ => w
  | DistributeRewards _ => w
  end.

(** The keypairs drawn are ["A"], ["B"], ["C"], ... *)
Definition keyOf (n : nat) : PublicKey :=
  String (Ascii.ascii_of_nat (65 + n)) "".

Definition devnet : Devnet :=
  {| World := Chain;
     connect := fun _ => Ok tt;
     readIdl := fun _ => Ok (Some "program");
     homedir := fun _ => "/home/demo";
     existsSync := fun _ p => String.eqb p "/home/demo/.config/solana/id.json";
     loadKeypairFromFile := fun _ _ => Ok "wallet";
     isPublicKey := fun s => negb (String.eqb s "");
     newProgram := fun _ => Ok tt;
     findProgramAddress := fun seed id => seed ++ ":" ++ id;
     fetchPool := fun w _ =>
       match poolOwner w with
       | Some o => Ok {| owner := o |}
       | None => Threw (Error "Account does not exist or has no data")
       end;
     getBalance := fun w key => Ok (SweepDemo.balanceOf (balances w) key);
     generate := fun w =>
       (keyOf (drawn w),
        {| poolOwner := poolOwner w; balances := balances w;
           drawn := S (drawn w) |});
     rpc := fun instruction w => (Ok "signature", execute w instruction) |}.

(** No pool yet; the wallet holds one SOL. *)
Definition fresh : Chain :=
  {| poolOwner := None; balances := [("wallet", 1000000000%N)]; drawn := 0 |}.

(** Two holders, 0.01 SOL each, and a vault target of 0.2 SOL. *)
Definition holderFundSol : Number := div (num 1) (num 100).
Definition vaultTopUpSol : Number := div (num 1) (num 5).

(** Where the funding of two holders leaves a run from [fresh]. *)
Definition afterFunding : @Script.State Chain Event :=
  match createFakeHolders (H := devnet) (num 2) holderFundSol 2 "wallet"
          (Script.begin fresh) with
  | Some (_, s') => s'
  | None => Script.begin fresh
  end.

(** Where a whole run from [fresh] ends. *)
Definition afterRun : @Script.State Chain Event :=
  match main (H := devnet) None None None (num 2) holderFundSol vaultTopUpSol 2
          (Script.begin fresh) with
  | Some (_, s') => s'
  | None => Script.begin fresh
  end.

End DemoDevnet.
(* ================================================================== *)
(** * Theorems *)
(* ================================================================== *)

(** ** Rounding is exact on safe integers *)

Section Rounding.

Lemma rne_divisible (k d : Z) : 0 < d -> rne (k * d) d = k.
Proof.
  intros Hd. unfold rne.
  rewrite Z.mod_mul, Z.div_mul by lia.
  destruct (Z.compare_spec (2 * 0) d); lia.
Qed.

(** [rne] picks one of the two neighbouring integers, the upper one only
    when the remainder is at least half the divisor. *)
Lemma rne_cases (n d : Z) :
  0 < d ->
  rne n d = n / d \/ (rne n d = n / d + 1 /\ d <= 2 * (n mod d)).
Proof.
  intros Hd. unfold rne.
  destruct (Z.compare_spec (2 * (n mod d)) d).
  - destruct (Z.even (n / d)); [left | right]; split; lia.
  - now left.
  - right; split; lia.
Qed.

(** The significand of a quotient below [2^53], scaled by [K], floors back
    to the integer quotient as soon as the divisor is below [2 * K]. *)
Lemma rne_floor_scaled (n d K : Z) :
  0 <= n -> 0 < d -> 0 < K -> d < 2 * K ->
  rne (n * K) d / K = n / d.
Proof.
  intros Hn Hd HK HdK.
  pose proof (Z.div_mod n d ltac:(lia)) as En.
  pose proof (Z.mod_pos_bound n d Hd) as Br.
  pose proof (Z.div_mod (n * K) d ltac:(lia)) as EnK.
  pose proof (Z.mod_pos_bound (n * K) d Hd) as BrK.
  pose proof (rne_cases (n * K) d Hd) as Hm.
  set (q := n / d) in *. set (r := n mod d) in *.
  set (Q' := n * K / d) in *. set (R' := (n * K) mod d) in *.
  assert (Hlow : q * K <= Q') by nia.
  assert (Hup : Q' <= q * K + K - 1) by nia.
  symmetry. apply Z.div_unique with (r := rne (n * K) d - q * K).
  - left.
    destruct Hm as [E | [E Hhalf]]; rewrite E.
    + lia.
    + split; [lia |].
      assert (Q' < q * K + K - 1 \/ Q' = q * K + K - 1) as [C | C] by lia;
        [lia |].
      exfalso.
      assert (R' = d - (d - r) * K) by nia.
      assert (1 <= d - r) by lia.
      nia.
  - lia.
Qed.

Lemma log2_bounds (n : Z) :
  0 < n -> n < two53 -> 0 <= Z.log2 n <= 52.
Proof.
  intros Hn Hb. split; [apply Z.log2_nonneg |].
  assert (Z.log2 n < 53); [| lia].
  apply Z.log2_lt_pow2; [lia | exact Hb].
Qed.

(** For a quotient of safe integers the last place sits at or below the
    units, above the subnormal range, and the significand has its full
    53 bits. *)
Lemma binade_safe (n d : Z) :
  0 < n -> n < two53 -> 0 < d -> d < two53 ->
  binade n d <= 0 /\ 2 ^ 52 * d <= n * 2 ^ (- binade n d).
Proof.
  intros Hn Hnb Hd Hdb.
  pose proof (log2_bounds n Hn Hnb) as Ln.
  pose proof (log2_bounds d Hd Hdb) as Ld.
  pose proof (Z.log2_spec n Hn) as Sn.
  pose proof (Z.log2_spec d Hd) as Sd.
  unfold binade, shift.
  set (ln := Z.log2 n) in *. set (ld := Z.log2 d) in *.
  assert (Hs0 : (0 <? ln - ld - 52) = false) by (apply Z.ltb_ge; lia).
  rewrite Hs0.
  destruct (Z.leb_spec (2 ^ 52 * d) (n * 2 ^ (- (ln - ld - 52)))) as [T | T].
  - rewrite Z.max_r by lia. split; [lia | exact T].
  - rewrite Z.max_r by lia. split; [lia |].
    replace (- (ln - ld - 52 - 1)) with (53 + ld - ln) by lia.
    assert (E : 2 ^ ln * 2 ^ (53 + ld - ln) = 2 ^ 52 * 2 ^ (ld + 1)).
    { rewrite <- !Z.pow_add_r by lia. f_equal. lia. }
    assert (0 < 2 ^ (53 + ld - ln)) by (apply Z.pow_pos_nonneg; lia).
    nia.
Qed.

Lemma round_pos_floor (n d : Z) :
  0 < n -> n < two53 -> 0 < d -> d < two53 ->
  Qfloor (round_pos n d) = n / d.
Proof.
  intros Hn Hnb Hd Hdb.
  destruct (binade_safe n d Hn Hnb Hd Hdb) as [Hs Hsig].
  unfold round_pos, shift, scale.
  assert (Hlt : (0 <? binade n d) = false) by (apply Z.ltb_ge; lia).
  rewrite Hlt.
  set (K := 2 ^ (- binade n d)) in *.
  assert (HK : 0 < K) by (apply Z.pow_pos_nonneg; lia).
  unfold Qfloor. rewrite Z2Pos.id by exact HK.
  apply rne_floor_scaled; try lia.
  unfold two53 in *. nia.
Qed.

Lemma round_Qeq (p q : Q) : p == q -> round p = round q.
Proof.
  intros E. unfold round. now rewrite (Qred_complete _ _ E).
Qed.

Lemma Qred_inject_Z (z : Z) : Qred (inject_Z z) = inject_Z z.
Proof.
  apply Stdlib.QArith.Qcanon.Qred_identity. simpl. apply Z.gcd_1_r.
Qed.

Lemma two53_lt_huge : two53 < 2 ^ 1024.
Proof. unfold two53. apply Z.pow_lt_mono_r; lia. Qed.

Lemma overflow_below_floor (q : Q) :
  Qfloor q < two53 -> overflow q = false.
Proof.
  intros Hq. unfold overflow.
  destruct (Qle_bool (inject_Z (2 ^ 1024)) q) eqn:E; [| reflexivity].
  exfalso. apply Qle_bool_iff in E.
  apply Qfloor_resp_le in E. rewrite Qfloor_Z in E.
  pose proof two53_lt_huge. lia.
Qed.

Lemma round_pos_int (z : Z) :
  0 < z -> z < two53 -> round_pos z 1 == inject_Z z.
Proof.
  intros Hz Hb.
  destruct (binade_safe z 1 Hz Hb) as [Hs _]; [lia | reflexivity |].
  unfold round_pos, shift, scale.
  assert (Hlt : (0 <? binade z 1) = false) by (apply Z.ltb_ge; lia).
  rewrite Hlt.
  set (K := 2 ^ (- binade z 1)).
  assert (HK : 0 < K) by (apply Z.pow_pos_nonneg; lia).
  rewrite <- (Z.mul_1_r (z * K)) at 1. rewrite rne_divisible by lia.
  unfold Qeq; simpl. rewrite Z2Pos.id by exact HK. lia.
Qed.

(** Every integer of magnitude below [2^53] is a number. *)
Lemma num_exact (z : Z) : 0 <= z -> z < two53 -> num z = Fin (inject_Z z).
Proof.
  intros Hz Hb. unfold num, round. rewrite Qred_inject_Z. simpl Qnum.
  destruct z as [| p | p]; [reflexivity | | lia].
  simpl Qden.
  rewrite (Qred_complete _ _ (round_pos_int (Zpos p) ltac:(lia) Hb)), Qred_inject_Z.
  rewrite overflow_below_floor; [reflexivity |].
  now rewrite Qfloor_Z.
Qed.

Lemma mul_exact (a b : Z) :
  0 <= a * b -> a * b < two53 ->
  mul (Fin (inject_Z a)) (Fin (inject_Z b)) = Fin (inject_Z (a * b)).
Proof.
  intros H0 Hb. simpl.
  rewrite (round_Qeq _ (inject_Z (a * b))) by (now rewrite inject_Z_mult).
  now apply num_exact.
Qed.

Lemma add_exact (a b : Z) :
  0 <= a + b -> a + b < two53 ->
  add (Fin (inject_Z a)) (Fin (inject_Z b)) = Fin (inject_Z (a + b)).
Proof.
  intros H0 Hb. simpl.
  rewrite (round_Qeq _ (inject_Z (a + b))) by (now rewrite inject_Z_plus).
  now apply num_exact.
Qed.

(** Reducing a non-negative fraction does not enlarge its terms. *)
Lemma Qred_bounds (n : Z) (d : positive) :
  0 <= n ->
  0 <= Qnum (Qred (n # d)) <= n /\ Zpos (Qden (Qred (n # d))) <= Zpos d.
Proof.
  intros Hn. unfold Qred.
  generalize (Z.ggcd_correct_divisors n (Zpos d)) (Z.gcd_nonneg n (Zpos d)).
  rewrite <- Z.ggcd_gcd.
  destruct (Z.ggcd n (Zpos d)) as (g, (aa, bb)); simpl.
  intros [En Ed] Hg.
  pose proof (Pos2Z.is_pos d) as Hpos.
  assert (0 < g) by (destruct (Z.eq_dec g 0); [subst g; lia | lia]).
  assert (0 < bb) by nia.
  rewrite Z2Pos.id by assumption.
  split; nia.
Qed.

(** [Math.floor(a / b)] is the integer quotient for safe integers: the
    rounding of the division never reaches the next integer. *)
Lemma floor_div_exact (a b : Z) :
  0 <= a -> a < two53 -> 0 < b -> b < two53 ->
  floor (div (Fin (inject_Z a)) (Fin (inject_Z b))) = Fin (inject_Z (a / b)).
Proof.
  intros Ha Hab Hb Hbb.
  destruct b as [| p | p]; try lia.
  unfold div.
  assert (Enz : Qeq_bool (inject_Z (Zpos p)) 0 = false).
  { destruct (Qeq_bool (inject_Z (Zpos p)) 0) eqn:E; [| reflexivity].
    apply Qeq_bool_iff in E. unfold Qeq in E; simpl in E. lia. }
  rewrite Enz.
  rewrite (round_Qeq _ (a # p)) by (unfold Qeq; simpl; lia).
  unfold round.
  destruct (Qred_bounds a p Ha) as [[Hn0 Hn] Hd].
  pose proof (Qred_correct (a # p)) as Eq.
  set (q' := Qred (a # p)) in *.
  assert (Hfl : Qfloor q' = a / Zpos p)
    by (rewrite (Qfloor_comp _ _ Eq); reflexivity).
  destruct q' as [n' d']; simpl in Hn0, Hn, Hd; simpl Qnum; simpl Qden.
  unfold Qfloor in Hfl.
  destruct n' as [| n' | n']; [| | lia].
  - simpl. rewrite <- Hfl. reflexivity.
  - set (r := round_pos (Zpos n') (Zpos d')).
    assert (Hr : Qfloor (Qred r) = a / Zpos p).
    { rewrite (Qfloor_comp _ _ (Qred_correct r)). unfold r.
      rewrite round_pos_floor by lia. exact Hfl. }
    assert (a / Zpos p <= a) by (apply Z.div_le_upper_bound; nia).
    rewrite overflow_below_floor by lia.
    simpl. now rewrite Hr.
Qed.

End Rounding.

(** ** The model against the kernel's binary64 arithmetic *)

Example kernel_div_1000000007_20 :
  ofPrim (1000000007 / 20)%float = div (num 1000000007) (num 20).
Proof. vm_compute. reflexivity. Qed.

Example kernel_mul_beyond_2_53 :
  ofPrim (576460752309 * 1000000)%float = mul (num 576460752309) (num 1000000).
Proof. vm_compute. reflexivity. Qed.

Example kernel_div_1_20 :
  ofPrim (1 / 20)%float = div (num 1) (num 20).
Proof. vm_compute. reflexivity. Qed.

Example kernel_shares_576460752309 :
  map (fun b => ofPrim (576460752309 * b / 3000000)%float)
      [1000000; 800000; 600000; 400000; 200000]%float
  = map (fun b => div (mul (num 576460752309) (num b)) (num 3000000))
        [1000000; 800000; 600000; 400000; 200000].
Proof. vm_compute. reflexivity. Qed.

Example kernel_shares_8445015560859869 :
  map (fun b => ofPrim (8445015560859869 * b / 3000000)%float)
      [1000000; 800000; 600000; 400000; 200000]%float
  = map (fun b => div (mul (num 8445015560859869) (num b)) (num 3000000))
        [1000000; 800000; 600000; 400000; 200000].
Proof. vm_compute. reflexivity. Qed.

Example kernel_lamports_of_0_29 :
  ofPrim (0x1.28f5c28f5c28fp-2 * 1000000000)%float
  = mul (ofPrim 0x1.28f5c28f5c28fp-2%float) (num 1000000000).
Proof. vm_compute. reflexivity. Qed.

Example kernel_subnormal_tie :
  ofPrim (0x1p-1074 * 3 / 2)%float
  = div (mul (ofPrim 0x1p-1074%float) (num 3)) (num 2).
Proof. vm_compute. reflexivity. Qed.

Example kernel_overflow :
  ofPrim (0x1.fffffffffffffp1023 * 2)%float
  = mul (ofPrim 0x1.fffffffffffffp1023%float) (num 2).
Proof. vm_compute. reflexivity. Qed.

(** ** Equal split (src/app/index.js) *)

Section EqualSplit.
Import AppIndex.

Lemma div_multiple_exact (n k : Z) :
  0 < n -> n < two53 -> 0 <= k -> n * k < two53 ->
  div (num (n * k)) (num n) = Fin (inject_Z k).
Proof.
  intros Hn Hnb Hk Hb.
  rewrite (num_exact (n * k)), (num_exact n) by nia.
  unfold div.
  assert (Enz : Qeq_bool (inject_Z n) 0 = false).
  { destruct (Qeq_bool (inject_Z n) 0) eqn:E; [| reflexivity].
    apply Qeq_bool_iff in E. unfold Qeq in E; simpl in E. lia. }
  rewrite Enz.
  rewrite (round_Qeq _ (inject_Z k)).
  - apply num_exact; nia.
  - rewrite inject_Z_mult. field.
    intros E. unfold Qeq in E; simpl in E. lia.
Qed.

Lemma distribution_shares (totalSOL : Number) (holders : list Holder) :
  map snd (distribution totalSOL holders)
  = repeat (equalShare totalSOL holders) (List.length holders).
Proof.
  unfold distribution. generalize (equalShare totalSOL holders) as s.
  intros s. induction holders as [| h hs IH]; simpl; [reflexivity | now rewrite IH].
Qed.

End EqualSplit.

(** ** Proportional split (src/unnamed/part_001) *)

Section Proportional.
Import DemoApp.

Lemma zsum_nonneg (l : list Z) : Forall (fun b => 0 <= b) l -> 0 <= zsum l.
Proof. induction 1; simpl; lia. Qed.

Lemma zsum_bound (l : list Z) (b : Z) :
  Forall (fun b => 0 <= b) l -> In b l -> b <= zsum l.
Proof.
  induction 1 as [| x l Hx Hl IH]; simpl; [contradiction |].
  pose proof (zsum_nonneg l Hl).
  intros [-> | Hin]; [lia | specialize (IH Hin); lia].
Qed.

(** The running sum of [reduce] is exact while it stays a safe integer. *)
Lemma fold_add_exact (bs : list (string * Z)) (acc : Z) :
  0 <= acc ->
  Forall (fun b => 0 <= b) (map snd bs) ->
  acc + zsum (map snd bs) < two53 ->
  fold_left (fun sum h => add sum (balance h)) (holders bs) (Fin (inject_Z acc))
  = Fin (inject_Z (acc + zsum (map snd bs))).
Proof.
  unfold holders.
  revert acc. induction bs as [| [a b] bs IH]; intros acc Hacc Hnn Hb;
    cbn [map fold_left zsum fold_right fst snd holder balance] in *.
  - now rewrite Z.add_0_r.
  - inversion Hnn as [| ? ? Hb0 Hnn']; subst.
    pose proof (zsum_nonneg _ Hnn'). unfold zsum in *.
    rewrite (num_exact b) by lia.
    rewrite add_exact by lia.
    rewrite IH by (try assumption; lia).
    f_equal. f_equal. lia.
Qed.

Lemma totalBalance_exact (bs : list (string * Z)) :
  Forall (fun b => 0 <= b) (map snd bs) ->
  zsum (map snd bs) < two53 ->
  totalBalance (holders bs) = Fin (inject_Z (zsum (map snd bs))).
Proof.
  intros Hnn Hb. unfold totalBalance.
  rewrite (num_exact 0) by (unfold two53; lia).
  now rewrite fold_add_exact.
Qed.

Lemma share_exact (T W : Z) (h : string * Z) :
  0 <= T -> T < two53 -> 0 <= snd h -> snd h < two53 ->
  T * snd h < two53 -> 0 < W -> W < two53 ->
  share (num T) (Fin (inject_Z W)) (holder (fst h) (snd h))
  = Fin (inject_Z (T * snd h / W)).
Proof.
  intros. unfold share, holder; cbn [balance].
  rewrite (num_exact T), (num_exact (snd h)) by lia.
  rewrite mul_exact by nia.
  apply floor_div_exact; nia.
Qed.

(** Floors and remainders of the products add up to the whole. *)
Lemma floors_plus_remainders (T W : Z) (bs : list Z) :
  0 < W ->
  W * zsum (map (fun b => T * b / W) bs) + zsum (map (fun b => (T * b) mod W) bs)
  = T * zsum bs.
Proof.
  intros HW. induction bs as [| b bs IH]; simpl; [lia |].
  pose proof (Z.div_mod (T * b) W ltac:(lia)). lia.
Qed.

Lemma remainders_zero (T W : Z) (bs : list Z) :
  0 < W ->
  zsum (map (fun b => (T * b) mod W) bs) = 0
  <-> Forall (fun b => (W | T * b)) bs.
Proof.
  intros HW. induction bs as [| b bs IH]; simpl.
  - split; [constructor | reflexivity].
  - pose proof (Z.mod_pos_bound (T * b) W HW).
    assert (0 <= zsum (map (fun b => (T * b) mod W) bs)).
    { apply zsum_nonneg. apply Forall_forall. intros x Hx.
      apply in_map_iff in Hx as (y & <- & _).
      apply Z.mod_pos_bound; lia. }
    split.
    + intros E. constructor.
      * apply Z.mod_divide; lia.
      * apply IH. lia.
    + intros Hall. inversion Hall as [| ? ? Hd Hall']; subst.
      apply Z.mod_divide in Hd; [| lia].
      apply IH in Hall'. lia.
Qed.

End Proportional.

Section DistributionClaims.

Lemma round_not_NaN (q : Q) : isNaN (round q) = false.
Proof.
  unfold round. destruct (Qnum (Qred q)); [reflexivity | |];
    match goal with |- context [overflow ?r] => destruct (overflow r) end;
    reflexivity.
Qed.

Lemma positive_member (l : list Z) :
  Forall (fun b => 0 <= b) l -> 0 < zsum l -> exists b, In b l /\ 0 < b.
Proof.
  induction 1 as [| x l Hx Hl IH]; simpl; [lia |].
  intros Hs. destruct (Z.eq_dec x 0) as [-> | Hx0].
  - destruct (IH ltac:(lia)) as (b & Hin & Hb). exists b. auto.
  - exists x. split; [now left | lia].
Qed.

(** C1 (amended).  The equal split reports one payout per holder, each the
    double-precision quotient [totalSOL / holderCount]: the quotient is not
    floored and no remainder is kept.  The demo runs it on its twenty mock
    holders.  When the total is a non-negative safe integer [n * k] for [n]
    holders, every payout is exactly [k], the floor of the quotient, and the
    payouts add up to the total. *)
Theorem equal_split_unfloored (totalSOL : Number) (hs : list AppIndex.Holder) :
  let n := Z.of_nat (List.length hs) in
  List.length (AppIndex.distribution totalSOL hs) = List.length hs
  /\ Forall (fun p => snd p = div totalSOL (num n)) (AppIndex.distribution totalSOL hs)
  /\ AppIndex.simulateDistribution totalSOL
     = AppIndex.distribution totalSOL AppIndex.mockHolders
  /\ List.length AppIndex.mockHolders = 20%nat
  /\ (forall k : Z,
        0 < n -> n < two53 -> 0 <= k -> n * k < two53 ->
        map snd (AppIndex.distribution (num (n * k)) hs)
        = repeat (Fin (inject_Z k)) (List.length hs)
        /\ k = n * k / n
        /\ zsum (repeat k (List.length hs)) = n * k).
Proof.
  intros n. split; [| split; [| split; [| split]]].
  - unfold AppIndex.distribution. apply length_map.
  - unfold AppIndex.distribution. apply Forall_forall. intros p Hp.
    apply in_map_iff in Hp as (h & <- & _). reflexivity.
  - reflexivity.
  - reflexivity.
  - intros k Hn Hnb Hk Hb. split; [| split].
    + rewrite distribution_shares. unfold AppIndex.equalShare. fold n.
      now rewrite div_multiple_exact.
    + rewrite Z.mul_comm, Z.div_mul; lia.
    + subst n. clear. induction (List.length hs) as [| m IH]; [reflexivity |].
      cbn [repeat zsum fold_right]. fold (zsum (repeat k m)). rewrite IH. lia.
Qed.

(** C1 fails as stated: for [totalAmount = 1_000_000_007] the spec expects
    twenty payouts of [50_000_000] and a remainder of [7]; the code reports
    [50000000.35] for every holder.  For the demo's own call with
    [1.0] SOL it reports [0.05], not [floor(1 / 20) = 0]. *)
Lemma equal_split_not_floor :
  (Forall (fun p => snd p = Fin (6710886446976205 # 134217728))
          (AppIndex.simulateDistribution (num 1000000007))
   /\ 1000000007 / 20 = 50000000
   /\ ~ (6710886446976205 # 134217728 == inject_Z 50000000))
  /\ (Forall (fun p => snd p = Fin (3602879701896397 # 72057594037927936))
             (AppIndex.simulateDistribution (num 1))
      /\ 1 / 20 = 0
      /\ ~ (3602879701896397 # 72057594037927936 == inject_Z 0)).
Proof.
  split; (split; [| split]).
  - vm_compute. repeat constructor.
  - reflexivity.
  - unfold Qeq; simpl; lia.
  - vm_compute. repeat constructor.
  - reflexivity.
  - unfold Qeq; simpl; lia.
Qed.

(** C2 (amended).  For non-negative integer inputs whose weight sum is
    positive and whose intermediate values stay safe integers (weight sum
    and every product [totalAmount * balance_i] below [2^53]), each payout
    is exactly [floor(totalAmount * balance_i / weightSum)]; the payouts add
    up to at most [totalAmount], and to exactly [totalAmount] iff every
    product is divisible by the weight sum. *)
Theorem proportional_shares_safe (T : Z) (hs : list (string * Z)) :
  let W := zsum (map snd hs) in
  let payouts := map (fun b => T * b / W) (map snd hs) in
  0 <= T ->
  Forall (fun b => 0 <= b /\ T * b < two53) (map snd hs) ->
  0 < W -> W < two53 ->
  DemoApp.distribution (num T) (DemoApp.holders hs)
  = map (fun h => (fst h, Fin (inject_Z (T * snd h / W)))) hs
  /\ zsum payouts <= T
  /\ (zsum payouts = T <-> Forall (fun b => (W | T * b)) (map snd hs)).
Proof.
  intros W payouts HT Hall HW HWb.
  assert (Hnn : Forall (fun b => 0 <= b) (map snd hs))
    by (eapply Forall_impl; [| exact Hall]; cbv beta; intros; tauto).
  assert (HTb : T < two53).
  { destruct (positive_member _ Hnn HW) as (b & Hin & Hb).
    rewrite Forall_forall in Hall. specialize (Hall b Hin). nia. }
  pose proof (floors_plus_remainders T W (map snd hs) HW) as Hsum.
  fold payouts in Hsum. fold W in Hsum.
  pose proof (remainders_zero T W (map snd hs) HW) as Hrem.
  assert (Hrnn : 0 <= zsum (map (fun b => (T * b) mod W) (map snd hs))).
  { apply zsum_nonneg. apply Forall_forall. intros x Hx.
    apply in_map_iff in Hx as (y & <- & _). apply Z.mod_pos_bound; lia. }
  split; [| split].
  - unfold DemoApp.distribution.
    rewrite totalBalance_exact by assumption. fold W.
    unfold DemoApp.holders. rewrite map_map.
    apply map_ext_in. intros h Hh. cbn [DemoApp.address DemoApp.holder].
    f_equal.
    assert (Hb : 0 <= snd h /\ T * snd h < two53).
    { rewrite Forall_forall in Hall. apply Hall. now apply in_map. }
    assert (snd h <= W) by (apply zsum_bound; [assumption | now apply in_map]).
    apply share_exact; lia.
  - nia.
  - rewrite <- Hrem. split; intros E; nia.
Qed.

Lemma proportional_shares_safe_witness :
  DemoApp.simulateDistribution (num 1000)
  = [ ("H1LD3R1...abc123", Fin (inject_Z 333));
      ("H1LD3R2...def456", Fin (inject_Z 266));
      ("H1LD3R3...ghi789", Fin (inject_Z 200));
      ("H1LD3R4...jkl012", Fin (inject_Z 133));
      ("H1LD3R5...mno345", Fin (inject_Z 66)) ]%string
  /\ 333 + 266 + 200 + 133 + 66 <= 1000.
Proof.
  pose proof (proportional_shares_safe 1000
    [ ("H1LD3R1...abc123", 1000000); ("H1LD3R2...def456", 800000);
      ("H1LD3R3...ghi789", 600000); ("H1LD3R4...jkl012", 400000);
      ("H1LD3R5...mno345", 200000) ]%string) as P.
  cbv zeta in P.
  destruct P as (E & Hle & _).
  - lia.
  - repeat constructor; vm_compute; congruence.
  - reflexivity.
  - reflexivity.
  - split; [exact E | exact Hle].
Defined.

(** C2 fails as stated beyond the safe integers: for
    [totalAmount = 8445015560859869] (below [2^53]) every mock holder is
    paid one unit more than the floor of its exact share, and the payouts
    add up to [totalAmount + 1]. *)
Lemma proportional_overpays :
  let T := 8445015560859869 in
  0 < zsum [1000000; 800000; 600000; 400000; 200000]
  /\ map snd (DemoApp.simulateDistribution (num T))
     = map (fun p => Fin (inject_Z p))
           [2815005186953290; 2252004149562632; 1689003112171974;
            1126002074781316; 563001037390658]
  /\ map (fun b => T * b / 3000000) [1000000; 800000; 600000; 400000; 200000]
     = [2815005186953289; 2252004149562631; 1689003112171973;
        1126002074781315; 563001037390657]
  /\ zsum [2815005186953290; 2252004149562632; 1689003112171974;
           1126002074781316; 563001037390658] = T + 1.
Proof.
  cbv zeta. repeat split; vm_compute; reflexivity.
Qed.

(** C3 (amended).  The intermediate product [totalAmount * balance_i] is a
    double-precision multiplication with no overflow check: it never
    signals a failure, and it is the exact product when that product of
    non-negative safe integers is itself below [2^53]. *)
Theorem share_product_unchecked (x y : Q) (T b : Z) :
  0 <= T -> T < two53 -> 0 <= b -> b < two53 -> T * b < two53 ->
  isNaN (mul (Fin x) (Fin y)) = false
  /\ mul (num T) (num b) = Fin (inject_Z (T * b)).
Proof.
  intros HT HTb Hb Hbb Hp.
  split.
  - apply round_not_NaN.
  - rewrite (num_exact T), (num_exact b) by assumption.
    apply mul_exact; [nia | assumption].
Qed.

Lemma share_product_unchecked_witness :
  isNaN (mul (Fin (inject_Z 576460752309)) (Fin (inject_Z 1000000))) = false
  /\ mul (num 1000) (num 1000000) = Fin (inject_Z 1000000000).
Proof.
  apply (share_product_unchecked (inject_Z 576460752309) (inject_Z 1000000)
           1000 1000000); unfold two53; lia.
Defined.

(** C3 fails as stated: for [totalAmount = 576460752309] the product with
    the first mock balance exceeds [2^53] and is silently rounded (to
    [576460752308999936] instead of [576460752309000000]); no failure is
    raised and the first holder is paid [192153584102], one unit less than
    the exact share [192153584103]. *)
Lemma share_product_silently_rounded :
  let T := 576460752309 in
  two53 < T * 1000000
  /\ mul (num T) (num 1000000) = Fin (inject_Z 576460752308999936)
  /\ T * 1000000 = 576460752309000000
  /\ map snd (DemoApp.simulateDistribution (num T))
     = map (fun p => Fin (inject_Z p))
           [192153584102; 153722867282; 115292150461; 76861433641; 38430716820]
  /\ T * 1000000 / 3000000 = 192153584103.
Proof.
  cbv zeta. repeat split; vm_compute; reflexivity.
Qed.

End DistributionClaims.

(** ** The insertion-ordered map *)

Section MapFacts.

Lemma get_None (m : JSMap.t) (k : string) :
  JSMap.get m k = None <-> ~ In k (map fst m).
Proof.
  induction m as [| [k' v'] m IH]; simpl; [tauto |].
  destruct (String.eqb_spec k' k) as [-> | Hne].
  - split; [discriminate | intros Hn; exfalso; apply Hn; now left].
  - rewrite IH. tauto.
Qed.

Lemma get_Some (m : JSMap.t) (k : string) (v : N) :
  NoDup (map fst m) -> JSMap.get m k = Some v <-> In (k, v) m.
Proof.
  induction m as [| [k' v'] m IH]; simpl; intros Hnd.
  - split; [discriminate | contradiction].
  - inversion Hnd as [| ? ? Hnotin Hnd']; subst.
    destruct (String.eqb_spec k' k) as [-> | Hne].
    + split.
      * intros [= ->]. now left.
      * intros [[= ->] | Hin]; [reflexivity |].
        exfalso. apply Hnotin. now apply (in_map fst) in Hin.
    + rewrite (IH Hnd'). split; [now right |].
      intros [[= -> _] | Hin]; [contradiction | assumption].
Qed.

Lemma set_present (m : JSMap.t) (k : string) (v : N) :
  In k (map fst m) -> map fst (JSMap.set m k v) = map fst m.
Proof.
  induction m as [| [k' v'] m IH]; simpl; [contradiction |].
  destruct (String.eqb_spec k' k) as [-> | Hne]; [reflexivity |].
  intros [E | Hin]; [contradiction |]. simpl. now rewrite IH.
Qed.

Lemma set_absent (m : JSMap.t) (k : string) (v : N) :
  ~ In k (map fst m) -> JSMap.set m k v = m ++ [(k, v)].
Proof.
  induction m as [| [k' v'] m IH]; simpl; [reflexivity |].
  intros Hn. destruct (String.eqb_spec k' k) as [-> | Hne]; [tauto |].
  rewrite IH by tauto. reflexivity.
Qed.

Lemma In_set (m : JSMap.t) (k : string) (v : N) (a : string) (b : N) :
  NoDup (map fst m) ->
  In (a, b) (JSMap.set m k v) <-> (a = k /\ b = v) \/ (a <> k /\ In (a, b) m).
Proof.
  induction m as [| [k' v'] m IH]; simpl; intros Hnd.
  - split.
    + intros [[= <- <-] | []]. now left.
    + intros [[-> ->] | [_ []]]. now left.
  - inversion Hnd as [| ? ? Hnotin Hnd']; subst.
    destruct (String.eqb_spec k' k) as [-> | Hne]; simpl.
    + split.
      * intros [[= <- <-] | Hin]; [now left |].
        right. split; [| now right].
        intros ->. apply Hnotin. now apply (in_map fst) in Hin.
      * intros [[-> ->] | [Hne [[= <- _] | Hin]]];
          [now left | contradiction | now right].
    + rewrite (IH Hnd'). split.
      * intros [[= <- <-] | [[-> ->] | [Hak Hin]]].
        -- right. split; [congruence | now left].
        -- now left.
        -- right. split; [assumption | now right].
      * intros [[-> ->] | [Hak [[= <- <-] | Hin]]].
        -- right. now left.
        -- now left.
        -- right. right. split; assumption.
Qed.

End MapFacts.

(** ** The stable sort *)

Section SortFacts.
Context {A : Type} (compareFn : A -> A -> Z).

Lemma insert_perm (x : A) (l : list A) : Permutation (insert compareFn x l) (x :: l).
Proof.
  induction l as [| y l IH]; simpl; [reflexivity |].
  destruct (0 <? compareFn x y); [| reflexivity].
  rewrite IH. apply perm_swap.
Qed.

Lemma sort_perm (l : list A) : Permutation (sort compareFn l) l.
Proof.
  induction l as [| x l IH]; simpl; [reflexivity |].
  rewrite insert_perm. now constructor.
Qed.

(** Inserting in front of a list ranked by [R], where [R] refines the
    comparator by the original order [P]. *)
Lemma insert_sorted (P R : A -> A -> Prop) (x : A) (l : list A) :
  (forall y, compareFn x y > 0 -> R y x) ->
  (forall y, In y l -> compareFn x y <= 0 -> P x y -> R x y) ->
  (forall y z, R y z -> compareFn x y <= 0 -> compareFn x z <= 0) ->
  StronglySorted R l -> Forall (P x) l ->
  StronglySorted R (insert compareFn x l).
Proof.
  intros Hgt Hle Hmono Hs HP.
  induction Hs as [| y l Hs IH Hy]; simpl.
  - repeat constructor.
  - inversion HP as [| ? ? HPy HPl]; subst.
    destruct (Z.ltb_spec 0 (compareFn x y)) as [Hc | Hc].
    + constructor.
      * apply IH; [| assumption].
        intros z Hz. apply Hle. now right.
      * apply (Permutation_Forall (Permutation_sym (insert_perm x l))).
        constructor; [apply Hgt; lia | assumption].
    + constructor; [now constructor |].
      constructor; [apply Hle; [now left | lia | assumption] |].
      rewrite Forall_forall in Hy, HPl |- *. intros z Hz.
      apply Hle; [now right | | now apply HPl].
      apply (Hmono y z); [now apply Hy | lia].
Qed.

End SortFacts.

(** ** Folding the accounts into the map *)

Section RankFacts.
Context `{Substrate}.

Lemma balanceOf_snoc (a : PublicKey) (l : list AccountInfo) (x : AccountInfo) :
  balanceOf a (l ++ [x])
  = (balanceOf a l
     + match x with
       | TokenAccount o amt => if String.eqb o a then amt else 0
       | _ => 0
       end)%N.
Proof.
  induction l as [| y l IH]; simpl.
  - destruct x; lia.
  - destruct y; rewrite IH; lia.
Qed.

Lemma firstSeen_le (a : PublicKey) (l : list AccountInfo) :
  (firstSeen a l <= List.length l)%nat.
Proof.
  induction l as [| y l IH]; simpl; [lia |].
  destruct (counted y && ownedBy a y); lia.
Qed.

Lemma firstSeen_snoc (a : PublicKey) (l : list AccountInfo) (x : AccountInfo) :
  firstSeen a (l ++ [x])
  = if (firstSeen a l <? List.length l)%nat then firstSeen a l
    else if counted x && ownedBy a x then List.length l
    else S (List.length l).
Proof.
  induction l as [| y l IH]; simpl.
  - destruct (counted x && ownedBy a x); reflexivity.
  - destruct (counted y && ownedBy a y); [reflexivity |].
    rewrite IH. change (S (firstSeen a l) <? S (List.length l))%nat
      with (firstSeen a l <? List.length l)%nat.
    destruct (firstSeen a l <? List.length l)%nat; [reflexivity |].
    destruct (counted x && ownedBy a x); reflexivity.
Qed.

Lemma StronglySorted_snoc {A} (R : A -> A -> Prop) (l : list A) (e : A) :
  StronglySorted R l -> Forall (fun y => R y e) l -> StronglySorted R (l ++ [e]).
Proof.
  induction 1 as [| y l Hs IH Hy]; simpl; intros Hall.
  - repeat constructor.
  - inversion Hall; subst. constructor; [now apply IH |].
    apply Forall_app. split; [assumption | now constructor].
Qed.

Lemma StronglySorted_weaken {A} (R R' : A -> A -> Prop) (l : list A) :
  (forall x y, In x l -> In y l -> R x y -> R' x y) ->
  StronglySorted R l -> StronglySorted R' l.
Proof.
  intros Himp Hs. induction Hs as [| y l Hs IH Hy]; constructor.
  - apply IH. intros x z Hx Hz. apply Himp; now right.
  - rewrite Forall_forall in Hy |- *. intros z Hz.
    apply Himp; [now left | now right | now apply Hy].
Qed.

Lemma StronglySorted_firstn {A} (R : A -> A -> Prop) (n : nat) (l : list A) :
  StronglySorted R l -> StronglySorted R (firstn n l).
Proof.
  intros Hs. revert n. induction Hs as [| y l Hs IH Hy]; intros [| n]; simpl;
    try constructor.
  - apply IH.
  - rewrite Forall_forall in Hy |- *. intros z Hz. apply Hy.
    rewrite <- (firstn_skipn n l). apply in_or_app. now left.
Qed.

Lemma StronglySorted_map {A B} (R : B -> B -> Prop) (f : A -> B) (l : list A) :
  StronglySorted (fun x y => R (f x) (f y)) l -> StronglySorted R (map f l).
Proof.
  induction 1 as [| y l Hs IH Hy]; simpl; constructor; [assumption |].
  rewrite Forall_forall in Hy |- *. intros z Hz.
  apply in_map_iff in Hz as (w & <- & Hw). now apply Hy.
Qed.

Lemma NoDup_firstn {A} (n : nat) (l : list A) : NoDup l -> NoDup (firstn n l).
Proof.
  intros Hnd. rewrite <- (firstn_skipn n l) in Hnd.
  now apply NoDup_app_remove_r in Hnd.
Qed.

Lemma In_firstn {A} (n : nat) (l : list A) (x : A) : In x (firstn n l) -> In x l.
Proof.
  intros Hin. rewrite <- (firstn_skipn n l). apply in_or_app. now left.
Qed.

(** The keys of the map after one more account. *)
Lemma visit_keys (m : JSMap.t) (x : AccountInfo) :
  map fst (visit m x)
  = match x with
    | TokenAccount o _ =>
        if counted x
        then if in_dec string_dec o (map fst m) then map fst m else map fst m ++ [o]
        else map fst m
    | _ => map fst m
    end.
Proof.
  destruct x as [| | o amt]; simpl; try reflexivity.
  destruct (isOnCurve o); simpl; [| reflexivity].
  destruct (amt =? 0)%N; simpl; [reflexivity |].
  destruct (in_dec string_dec o (map fst m)) as [Hin | Hnin].
  - now apply set_present.
  - rewrite set_absent by assumption. rewrite map_app. reflexivity.
Qed.

(** The keys are the owners seen so far, in the order they were first
    seen. *)
Lemma fold_visit_keys (infos : list AccountInfo) :
  let m := fold_left visit infos [] in
  NoDup (map fst m)
  /\ (forall a, In a (map fst m) <-> (firstSeen a infos < List.length infos)%nat)
  /\ StronglySorted (fun a a' => (firstSeen a infos < firstSeen a' infos)%nat)
                    (map fst m).
Proof.
  induction infos as [| x l IH] using rev_ind; cbv zeta.
  - simpl. split; [constructor | split; [| constructor]].
    intros a. split; [contradiction | lia].
  - cbv zeta in IH. destruct IH as (Hnd & Hkeys & Hsorted).
    rewrite fold_left_app. cbn [fold_left].
    set (m := fold_left visit l []) in *.
    rewrite visit_keys, length_app. cbn [List.length].
    assert (Hold : forall a, In a (map fst m) ->
                     firstSeen a (l ++ [x]) = firstSeen a l).
    { intros a Ha. apply Hkeys in Ha. rewrite firstSeen_snoc.
      apply Nat.ltb_lt in Ha. now rewrite Ha. }
    assert (Hnew : forall a, ~ In a (map fst m) ->
                     firstSeen a (l ++ [x])
                     = if counted x && ownedBy a x then List.length l
                       else S (List.length l)).
    { intros a Ha. rewrite firstSeen_snoc.
      destruct (Nat.ltb_spec (firstSeen a l) (List.length l)) as [Hlt | Hge];
        [exfalso; apply Ha; now apply Hkeys | reflexivity]. }
    assert (Hsame : NoDup (map fst m)
              /\ (forall a, ~ (counted x && ownedBy a x = true /\ ~ In a (map fst m)) ->
                    In a (map fst m)
                    <-> (firstSeen a (l ++ [x]) < List.length l + 1)%nat)
              /\ StronglySorted
                   (fun a a' => (firstSeen a (l ++ [x]) < firstSeen a' (l ++ [x]))%nat)
                   (map fst m)).
    { split; [assumption | split].
      - intros a Hno. split.
        + intros Ha. rewrite (Hold a Ha). apply Hkeys in Ha. lia.
        + intros Hlt. destruct (in_dec string_dec a (map fst m)) as [Ha | Ha];
            [assumption | exfalso].
          rewrite (Hnew a Ha) in Hlt.
          destruct (counted x && ownedBy a x) eqn:E; [apply Hno; tauto | lia].
      - eapply StronglySorted_weaken; [| exact Hsorted].
        intros a a' Ha Ha' Hlt. cbv beta. now rewrite (Hold a Ha), (Hold a' Ha'). }
    destruct Hsame as (_ & Hk' & Hs').
    destruct x as [| | o amt];
      try (split; [assumption | split; [| assumption]];
           intros a; apply Hk'; simpl; intros [? _]; discriminate).
    destruct (counted (TokenAccount o amt)) eqn:Hc;
      [| split; [assumption | split; [| assumption]];
         intros a; apply Hk'; try rewrite Hc; simpl; intros [? _]; discriminate].
    destruct (in_dec string_dec o (map fst m)) as [Hin | Hnin].
    + split; [assumption | split; [| assumption]].
      intros a. apply Hk'. intros [Ho Ha]. try rewrite Hc in Ho. simpl in Ho.
      apply String.eqb_eq in Ho. subst a. contradiction.
    + split; [| split].
      * apply NoDup_app; [assumption | repeat constructor; intros [] | ].
        intros a Ha [<- | []]. contradiction.
      * intros a. rewrite in_app_iff. simpl.
        destruct (string_dec o a) as [<- | Hne].
        -- rewrite (Hnew o Hnin). try rewrite Hc. simpl. rewrite String.eqb_refl.
           split; [lia | tauto].
        -- rewrite <- Hk'.
           ++ tauto.
           ++ try rewrite Hc. simpl. intros [Ho _].
              apply String.eqb_eq in Ho. contradiction.
      * apply StronglySorted_snoc; [assumption |].
        apply Forall_forall. intros a Ha. cbv beta.
        rewrite (Hold a Ha), (Hnew o Hnin). try rewrite Hc. simpl.
        rewrite String.eqb_refl.
        apply Hkeys in Ha. exact Ha.
Qed.

(** An owner is in the map iff it is on the curve and holds something; its
    entry is the sum of all its accounts. *)
Lemma fold_visit_entries (infos : list AccountInfo) (a : PublicKey) (b : N) :
  In (a, b) (fold_left visit infos [])
  <-> isOnCurve a = true /\ b = balanceOf a infos /\ b <> 0%N.
Proof.
  revert a b. induction infos as [| x l IH] using rev_ind; intros a b.
  - simpl. split; [contradiction | intros (_ & -> & Hb); now apply Hb].
  - destruct (fold_visit_keys l) as (Hnd & _ & _). cbv zeta in Hnd.
    rewrite fold_left_app, balanceOf_snoc. cbn [fold_left].
    set (m := fold_left visit l []) in *.
    destruct x as [| | o amt]; cbn [visit];
      try (rewrite IH, N.add_0_r; tauto).
    destruct (isOnCurve o) eqn:Ho; cbn [negb].
    + destruct (N.eqb_spec amt 0) as [-> | Hamt].
      * rewrite IH. destruct (String.eqb o a); rewrite N.add_0_r; tauto.
      * assert (Hex : match JSMap.get m o with Some e => e | None => 0%N end
                      = balanceOf o l).
        { destruct (JSMap.get m o) as [e |] eqn:G.
          - apply get_Some in G; [| assumption]. apply IH in G. tauto.
          - apply get_None in G.
            destruct (N.eq_dec (balanceOf o l) 0) as [E | E]; [now rewrite E |].
            exfalso. apply G.
            apply (in_map fst m (o, balanceOf o l)). apply IH. tauto. }
        rewrite Hex, In_set by assumption. rewrite IH.
        destruct (String.eqb_spec o a) as [<- | Hne].
        -- split.
           ++ intros [[_ ->] | [Hne _]]; [| contradiction].
              repeat split; [assumption | lia].
           ++ intros (_ & -> & _). left. split; reflexivity.
        -- rewrite N.add_0_r. split.
           ++ intros [[-> _] | [_ Hin]]; [contradiction | assumption].
           ++ intros Hin. right. split; [congruence | assumption].
    + rewrite IH. destruct (String.eqb_spec o a) as [<- | Hne].
      * split; intros (Ha & _); congruence.
      * rewrite N.add_0_r. tauto.
Qed.

End RankFacts.

(** ** Ranking the holders (C4, C9) *)

Section RankClaims.
Context `{Substrate}.

Lemma BN_cmp_gt (a b : N) : BN_cmp a b > 0 <-> (b < a)%N.
Proof.
  unfold BN_cmp. destruct (N.compare_spec a b); split; intros; try lia.
Qed.

Lemma BN_cmp_le (a b : N) : BN_cmp a b <= 0 <-> (a <= b)%N.
Proof.
  unfold BN_cmp. destruct (N.compare_spec a b); split; intros; try lia.
Qed.

Lemma StronglySorted_map_inv {A B} (R : B -> B -> Prop) (f : A -> B) (l : list A) :
  StronglySorted R (map f l) -> StronglySorted (fun x y => R (f x) (f y)) l.
Proof.
  induction l as [| x l IH]; simpl; intros Hs; [constructor |].
  apply StronglySorted_inv in Hs as [Hs Hx]. constructor; [now apply IH |].
  rewrite Forall_forall in Hx |- *. intros y Hy. apply Hx. now apply in_map.
Qed.

(** The stable sort ranks by balance, and entries of equal balance keep
    the order [P] they had. *)
Lemma sort_ranks (P : string * N -> string * N -> Prop) (l : list (string * N)) :
  StronglySorted P l ->
  StronglySorted
    (fun e e' => (snd e' < snd e)%N \/ (snd e = snd e' /\ P e e'))
    (sort byBalanceDesc l).
Proof.
  induction 1 as [| x l Hs IH Hx]; simpl; [constructor |].
  apply insert_sorted with (P := P).
  - intros y Hy. unfold byBalanceDesc in Hy. apply BN_cmp_gt in Hy. now left.
  - intros y _ Hy HP. unfold byBalanceDesc in Hy. apply BN_cmp_le in Hy.
    destruct (N.eq_dec (snd x) (snd y)) as [E | E]; [right; tauto | left; lia].
  - intros y z HR Hy. unfold byBalanceDesc in *.
    apply BN_cmp_le in Hy. apply BN_cmp_le.
    destruct HR as [Hlt | [E _]]; lia.
  - exact IH.
  - apply (Permutation_Forall (Permutation_sym (sort_perm byBalanceDesc l))).
    exact Hx.
Qed.

Lemma fold_visit_length (infos : list AccountInfo) :
  (List.length (fold_left visit infos []) <= List.length infos)%nat.
Proof.
  induction infos as [| x l IH] using rev_ind; [simpl; lia |].
  rewrite fold_left_app, length_app. cbn [fold_left List.length].
  rewrite <- (length_map fst (visit _ x)), visit_keys.
  rewrite <- (length_map fst) in IH.
  destruct x; try lia.
  destruct (counted _); [| lia].
  destruct (in_dec _ _ _); [lia |].
  rewrite length_app. simpl. lia.
Qed.

Lemma rankHolders_unfold (infos : list AccountInfo) (limit : nat) :
  rankHolders infos limit
  = map (fun e => {| address := fst e; balance := snd e |})
        (firstn limit (sort byBalanceDesc (fold_left visit infos []))).
Proof. reflexivity. Qed.

(** C4.  For every candidate list and every limit, the ranking holds only
    on-curve owners with a non-zero balance, one entry per owner, whose
    balance is the sum of the amounts of all the accounts of that owner,
    and it has at most [limit] entries.  When the limit does not cut
    (it is at least the number of candidates), every on-curve owner that
    holds something is there. *)
Theorem rankHolders_filters_merges_truncates
    (infos : list AccountInfo) (limit : nat) :
  let out := rankHolders infos limit in
  (List.length out <= limit)%nat
  /\ NoDup (map address out)
  /\ Forall (fun h => isOnCurve (address h) = true
                      /\ balance h <> 0%N
                      /\ balance h = balanceOf (address h) infos) out
  /\ (forall a,
        (List.length infos <= limit)%nat ->
        isOnCurve a = true -> balanceOf a infos <> 0%N ->
        In {| address := a; balance := balanceOf a infos |} out).
Proof.
  cbv zeta. rewrite rankHolders_unfold.
  set (m := fold_left visit infos []).
  pose proof (sort_perm byBalanceDesc m) as Hperm.
  destruct (fold_visit_keys infos) as (Hnd & _ & _). fold m in Hnd.
  split; [| split; [| split]].
  - rewrite length_map. apply firstn_le_length.
  - rewrite map_map. cbn [address].
    rewrite <- firstn_map. apply NoDup_firstn.
    apply (Permutation_NoDup (Permutation_sym (Permutation_map fst Hperm))).
    exact Hnd.
  - apply Forall_forall. intros h Hh.
    apply in_map_iff in Hh as ([a b] & <- & Hin). cbn [address balance fst snd].
    apply In_firstn in Hin.
    apply (Permutation_in _ Hperm) in Hin.
    apply fold_visit_entries in Hin. tauto.
  - intros a Hlim Ha Hb.
    apply in_map_iff. exists (a, balanceOf a infos). split; [reflexivity |].
    rewrite firstn_all2.
    + apply (Permutation_in _ (Permutation_sym Hperm)).
      apply fold_visit_entries. tauto.
    + rewrite (Permutation_length Hperm).
      pose proof (fold_visit_length infos) as Hlen. fold m in Hlen. lia.
Qed.

(** Two lists without repetition that hold the same elements, both ranked
    by a relation that never holds both ways, are the same list. *)
Lemma StronglySorted_unique {A} (R : A -> A -> Prop) (l : list A) :
  (forall x y, R x y -> R y x -> False) ->
  forall l' : list A,
    NoDup l -> NoDup l' -> (forall x, In x l <-> In x l') ->
    StronglySorted R l -> StronglySorted R l' -> l = l'.
Proof.
  intros Hasym. induction l as [| x t IH]; intros l' Hnd Hnd' Hsame Hs Hs'.
  - destruct l' as [| y t']; [reflexivity |].
    exfalso. apply (proj2 (Hsame y)). now left.
  - destruct l' as [| y t'].
    { exfalso. apply (proj1 (Hsame x)). now left. }
    apply StronglySorted_inv in Hs as [Hs Hx].
    apply StronglySorted_inv in Hs' as [Hs' Hy].
    rewrite Forall_forall in Hx, Hy.
    inversion Hnd as [| ? ? Hxt Hndt]; subst.
    inversion Hnd' as [| ? ? Hyt Hndt']; subst.
    assert (E : x = y).
    { destruct (proj1 (Hsame x) (or_introl eq_refl)) as [E | Hin]; [now symmetry |].
      destruct (proj2 (Hsame y) (or_introl eq_refl)) as [E | Hin']; [exact E |].
      exfalso. apply (Hasym x y); [now apply Hx | now apply Hy]. }
    subst y. f_equal.
    apply IH; try assumption.
    intros z. split; intros Hz.
    + destruct (proj1 (Hsame z) (or_intror Hz)) as [E | Hin]; [| exact Hin].
      subst z. contradiction.
    + destruct (proj2 (Hsame z) (or_intror Hz)) as [E | Hin]; [| exact Hin].
      subst z. contradiction.
Qed.

(** C9.  For every candidate list there is exactly one list that holds
    every on-curve owner of a non-zero balance once, with the sum of the
    amounts of the owner's accounts, in descending order of balance with
    entries of equal balance in the order in which their owners were first
    seen among the counted candidates; the ranking is the first [limit]
    entries of that list, and so is itself in that order. *)
Theorem rankHolders_sorted_stable (infos : list AccountInfo) (limit : nat) :
  let before (h h' : HolderInfo) :=
    (balance h' < balance h)%N
    \/ (balance h = balance h'
        /\ (firstSeen (address h) infos < firstSeen (address h') infos)%nat) in
  let complete (ranking : list HolderInfo) :=
    NoDup (map address ranking)
    /\ (forall h, In h ranking
                  <-> (isOnCurve (address h) = true
                       /\ balance h = balanceOf (address h) infos
                       /\ balance h <> 0%N))
    /\ StronglySorted before ranking in
  (exists ranking,
      complete ranking /\ rankHolders infos limit = firstn limit ranking)
  /\ (forall ranking,
        complete ranking -> rankHolders infos limit = firstn limit ranking)
  /\ StronglySorted before (rankHolders infos limit).
Proof.
  intros before complete.
  set (mk := fun e : string * N => {| address := fst e; balance := snd e |}).
  set (m := fold_left visit infos []).
  set (ranking0 := map mk (sort byBalanceDesc m)).
  assert (Hout : rankHolders infos limit = firstn limit ranking0).
  { rewrite rankHolders_unfold. unfold ranking0. now rewrite firstn_map. }
  pose proof (sort_perm byBalanceDesc m) as Hperm.
  destruct (fold_visit_keys infos) as (Hnd & _ & Hseen).
  cbv zeta in Hnd, Hseen. fold m in Hnd, Hseen.
  assert (Hsorted : StronglySorted before ranking0).
  { unfold ranking0. apply StronglySorted_map. unfold before, mk.
    cbn [address balance].
    apply (sort_ranks
             (fun e e' => (firstSeen (fst e) infos < firstSeen (fst e') infos)%nat)).
    now apply StronglySorted_map_inv in Hseen. }
  assert (Hcomplete : complete ranking0).
  { split; [| split; [| exact Hsorted]].
    - unfold ranking0. rewrite map_map. unfold mk. cbn [address].
      apply (Permutation_NoDup (Permutation_sym (Permutation_map fst Hperm))).
      exact Hnd.
    - intros [a b]. cbn [address balance]. unfold ranking0.
      rewrite <- (fold_visit_entries infos a b). fold m. split.
      + intros Hin. apply in_map_iff in Hin as ([a' b'] & E & Hin).
        unfold mk in E. cbn [fst snd] in E. injection E as -> ->.
        apply (Permutation_in _ Hperm), Hin.
      + intros Hin. apply in_map_iff. exists (a, b). split; [reflexivity |].
        apply (Permutation_in _ (Permutation_sym Hperm)), Hin. }
  split; [now exists ranking0 | split].
  - intros ranking (Hnd' & Hin' & Hs').
    destruct Hcomplete as (Hnd0 & Hin0 & _).
    rewrite Hout. f_equal. symmetry.
    apply (StronglySorted_unique before); try assumption.
    + unfold before. intros x y [Hxy | [Exy Hxy]] [Hyx | [Eyx Hyx]]; lia.
    + now apply NoDup_map_inv in Hnd'.
    + now apply NoDup_map_inv in Hnd0.
    + intros h. now rewrite Hin', Hin0.
  - rewrite Hout. now apply StronglySorted_firstn.
Qed.

End RankClaims.

(** ** The cron bots (C5, C6, C7, C8) *)

Section CronClaims.
Context `{Substrate}.

Ltac run_io :=
  unfold CronBotLive.run, CronBotMock.run, exit,
    CronBotLive.main, CronBotMock.main,
    CronBotLive.getPendingCreatorRewards, CronBotMock.fetchPendingCreatorRewards,
    CronBotLive.collectCreatorFees,
    CronBotLive.fetchTopHolders, CronBotMock.fetchRealHolderBalances,
    CronBotLive.distributeRewards, CronBotMock.distributeRewards,
    bind, read, send, ret, throw, lift, local;
  cbn [world trace].

(** C5.  When the pending fee balance that the bot reads is below the
    threshold, the run ends with exit status 0 after that single query: no
    claim, no holder query and no transaction are made, and the world is
    left as it was.  This holds for the live bot and for the mock bot. *)
Theorem below_threshold_exits_cleanly (threshold : Number) (s : State) :
  (forall lamports,
      getCreatorVaultBalanceBothPrograms (world s) = Ok lamports ->
      lt (div (num (Z.of_N lamports)) CronBotLive.LAMPORTS_PER_SOL) threshold = true ->
      CronBotLive.run threshold s
      = (0, {| world := world s;
               trace := trace s ++ [Read GetCreatorVaultBalance] |}))
  /\ (forall lamports fake,
         getBalance (world s) = Ok lamports ->
         lt (div (num (Z.of_N lamports)) CronBotMock.LAMPORTS_PER_SOL) threshold = true ->
         CronBotMock.run threshold fake s
         = (0, {| world := world s; trace := trace s ++ [Read GetBalance] |})).
Proof.
  split.
  - intros lamports Hbal Hlt. run_io. rewrite Hbal, Hlt. reflexivity.
  - intros lamports fake Hbal Hlt. run_io. rewrite Hbal, Hlt. reflexivity.
Qed.

(** C7.  Distributing to an empty holder list throws before anything is
    submitted: the trace and the world, hence the pool's counters, are
    those of before the call.  With at least one holder the request is
    submitted. *)
Theorem distributeRewards_empty_throws (s : State) :
  CronBotLive.distributeRewards [] s
  = (Threw (Error "No holders available for distribution"), s)
  /\ CronBotMock.distributeRewards [] s
     = (Threw (Error "No holders available for distribution"), s)
  /\ (let s' := snd (CronBotLive.distributeRewards [] s) in
      trace s' = trace s
      /\ totalRewards (rewardPool (world s')) = totalRewards (rewardPool (world s))
      /\ totalDistributed (rewardPool (world s'))
         = totalDistributed (rewardPool (world s)))
  /\ (forall h hs,
         trace (snd (CronBotLive.distributeRewards (h :: hs) s))
         = trace s ++ [Send [DistributeRewards (h :: hs) (remainingAccounts (h :: hs))]]).
Proof.
  repeat split.
  intros h hs. run_io. cbn [List.length Nat.eqb].
  match goal with |- context [sendAndConfirm ?tx ?w] =>
    destruct (sendAndConfirm tx w) end.
  reflexivity.
Qed.

Lemma fetchTopHolders_unfold (limit : nat) (s : State) :
  CronBotLive.fetchTopHolders limit s
  = let s1 := {| world := world s;
                 trace := trace s ++ [Read GetTokenLargestAccounts] |} in
    match getTokenLargestAccounts (world s) with
    | Threw e => (Threw e, s1)
    | Ok largest =>
        if (List.length largest =? 0)%nat then (Ok [], s1)
        else
          let keys := firstn (Nat.min (List.length largest) (limit * 2)) largest in
          let s2 := {| world := world s;
                       trace := trace s1 ++ [Read (GetMultipleAccountsInfo keys)] |} in
          match getMultipleAccountsInfo (world s) keys with
          | Ok infos => (Ok (rankHolders infos limit), s2)
          | Threw e => (Threw e, s2)
          end
    end.
Proof.
  run_io. destruct (getTokenLargestAccounts (world s)) as [largest | e];
    [| reflexivity].
  destruct (List.length largest =? 0)%nat; [reflexivity |].
  cbn [world trace].
  destruct (getMultipleAccountsInfo _ _); reflexivity.
Qed.

Lemma external_not_update (ixs : list string) :
  existsb (fun i => match i with UpdateTopHolders _ => true | _ => false end)
          (map External ixs) = false.
Proof. induction ixs; simpl; auto. Qed.

Lemma length_zero_iff {A} (l : list A) : (List.length l =? 0)%nat = true <-> l = [].
Proof. destruct l; simpl; split; congruence. Qed.

(** C6 (amended).  In a cycle of the live bot where the threshold is met and
    every call succeeds, the requests are, in this order: the pending-fee
    query, the claim of the creator fees, the two holder queries, and one
    distribute request that carries the refreshed holder list.  No
    update-holders request is submitted. *)
Theorem live_cycle_order (threshold : Number) (w w1 : World) (lamports : N)
    (ixs : list string) (sig : Signature) (largest : list PublicKey)
    (infos : list AccountInfo) :
  let keys := firstn (Nat.min (List.length largest) (20 * 2)) largest in
  let holders := rankHolders infos 20 in
  getCreatorVaultBalanceBothPrograms w = Ok lamports ->
  lt (div (num (Z.of_N lamports)) CronBotLive.LAMPORTS_PER_SOL) threshold = false ->
  collectCoinCreatorFeeInstructions w = Ok ixs ->
  sendAndConfirm (map External ixs) w = (Ok sig, w1) ->
  getTokenLargestAccounts w1 = Ok largest ->
  largest <> [] ->
  getMultipleAccountsInfo w1 keys = Ok infos ->
  holders <> [] ->
  let t := trace (snd (CronBotLive.run threshold (start w))) in
  t = [ Read GetCreatorVaultBalance;
        Read CollectCoinCreatorFeeInstructions;
        Send (map External ixs);
        Read GetTokenLargestAccounts;
        Read (GetMultipleAccountsInfo keys);
        Send [DistributeRewards holders (remainingAccounts holders)] ]
  /\ existsb isUpdateHolders t = false.
Proof.
  intros keys holders Hbal Hth Hix Hclaim Hlargest Hne Hinfos Hholders.
  assert (Hl : (List.length largest =? 0)%nat = false).
  { destruct (List.length largest =? 0)%nat eqn:E; [| reflexivity].
    apply length_zero_iff in E. contradiction. }
  assert (Hh : (List.length holders =? 0)%nat = false).
  { destruct (List.length holders =? 0)%nat eqn:E; [| reflexivity].
    apply length_zero_iff in E. contradiction. }
  assert (Et : trace (snd (CronBotLive.run threshold (start w)))
               = [ Read GetCreatorVaultBalance;
                   Read CollectCoinCreatorFeeInstructions;
                   Send (map External ixs);
                   Read GetTokenLargestAccounts;
                   Read (GetMultipleAccountsInfo keys);
                   Send [DistributeRewards holders (remainingAccounts holders)] ]).
  { run_io. unfold start. cbn [world trace app].
    rewrite Hbal. cbn [world trace app].
    rewrite Hth. cbn [world trace app].
    rewrite Hix. cbn [world trace app].
    rewrite Hclaim. cbn [world trace app].
    rewrite Hlargest, Hl. cbn [world trace app].
    fold keys. rewrite Hinfos. cbn [world trace app].
    fold holders. rewrite Hh.
    match goal with |- context [sendAndConfirm ?tx ?w] =>
      destruct (sendAndConfirm tx w) as [[? | ?] ?] end; reflexivity. }
  cbv zeta. rewrite Et. split; [reflexivity |].
  cbn [existsb isUpdateHolders orb]. now rewrite external_not_update.
Qed.

(** Whatever the calls answer, no run of the live bot submits an
    update-holders request. *)
Lemma live_never_updates_holders (threshold : Number) (s : State) :
  existsb isUpdateHolders (trace s) = false ->
  existsb isUpdateHolders (trace (snd (CronBotLive.run threshold s))) = false.
Proof.
  intros Hs. run_io.
  repeat
    (cbn [world trace fst snd];
     match goal with
     | |- context [match ?f (world s) with Ok _ => _ | Threw _ => _ end] =>
         destruct (f (world s))
     | |- context [match getMultipleAccountsInfo ?w ?k with _ => _ end] =>
         destruct (getMultipleAccountsInfo w k)
     | |- context [match getTokenLargestAccounts ?w with _ => _ end] =>
         destruct (getTokenLargestAccounts w)
     | |- context [let '(_, _) := sendAndConfirm ?tx ?w in _] =>
         destruct (sendAndConfirm tx w) as [[? | ?] ?]
     | |- context [if ?b then _ else _] => destruct b
     end);
    cbn [world trace fst snd];
    rewrite ?existsb_app, ?Hs; cbn [existsb isUpdateHolders orb];
    rewrite ?external_not_update; reflexivity.
Qed.

(** C6 fails as stated: a cycle of the live bot with the threshold met and
    payable holders submits its distribute request without any
    update-holders request before it. *)
Lemma live_cycle_skips_update :
  let run := CronBotLive.run (H := Demo.substrate) (num 1)
               (start (H := Demo.substrate) Demo.busy) in
  let t := trace (snd run) in
  lt (div (num 2000000000) CronBotLive.LAMPORTS_PER_SOL) (num 1) = false
  /\ fst run = 0
  /\ existsb isDistribute t = true
  /\ existsb isUpdateHolders t = false
  /\ updateBeforeDistribute false t = false.
Proof. vm_compute. repeat split. Qed.

Lemma visit_uncounted (m : JSMap.t) (x : AccountInfo) :
  counted x = false -> visit m x = m.
Proof.
  destruct x as [| | o amt]; simpl; try reflexivity.
  destruct (isOnCurve o); simpl; [| reflexivity].
  destruct (amt =? 0)%N; simpl; [reflexivity | discriminate].
Qed.

Lemma rankHolders_none (infos : list AccountInfo) (limit : nat) :
  Forall (fun i => counted i = false) infos -> rankHolders infos limit = [].
Proof.
  intros Hall. unfold rankHolders.
  assert (E : fold_left visit infos [] = []).
  { generalize (@nil (string * N)) as m.
    induction Hall as [| x l Hx Hl IH]; intros m; simpl; [reflexivity |].
    now rewrite visit_uncounted. }
  rewrite E. simpl. now rewrite firstn_nil.
Qed.

(** C8 (amended).  When no candidate is counted, the ranking is the empty
    list: the holder query returns it without throwing.  The live bot, which
    has claimed the fees by then, submits nothing more and ends with exit
    status 0; the world is the one the claim left. *)
Theorem empty_ranking_ends_quietly (threshold : Number) (w w1 : World)
    (lamports : N) (ixs : list string) (sig : Signature)
    (largest : list PublicKey) (infos : list AccountInfo) :
  let keys := firstn (Nat.min (List.length largest) (20 * 2)) largest in
  let claimed :=
    {| world := w1;
       trace := [ Read GetCreatorVaultBalance;
                  Read CollectCoinCreatorFeeInstructions;
                  Send (map External ixs) ] |} in
  getCreatorVaultBalanceBothPrograms w = Ok lamports ->
  lt (div (num (Z.of_N lamports)) CronBotLive.LAMPORTS_PER_SOL) threshold = false ->
  collectCoinCreatorFeeInstructions w = Ok ixs ->
  sendAndConfirm (map External ixs) w = (Ok sig, w1) ->
  getTokenLargestAccounts w1 = Ok largest ->
  getMultipleAccountsInfo w1 keys = Ok infos ->
  Forall (fun i => counted i = false) infos ->
  rankHolders infos 20 = []
  /\ fst (CronBotLive.fetchTopHolders 20 claimed) = Ok []
  /\ CronBotLive.run threshold (start w)
     = (0, {| world := w1;
              trace := trace claimed
                       ++ Read GetTokenLargestAccounts
                       :: (if (List.length largest =? 0)%nat then []
                           else [Read (GetMultipleAccountsInfo keys)]) |}).
Proof.
  intros keys claimed Hbal Hth Hix Hclaim Hlargest Hinfos Hnone.
  pose proof (rankHolders_none infos 20 Hnone) as Hrank.
  split; [exact Hrank | split].
  - rewrite fetchTopHolders_unfold. unfold claimed. cbn [world trace].
    rewrite Hlargest.
    destruct (List.length largest =? 0)%nat; [reflexivity |].
    cbv zeta. fold keys. rewrite Hinfos, Hrank. reflexivity.
  - run_io. unfold start, claimed. cbn [world trace app].
    rewrite Hbal. cbn [world trace app].
    rewrite Hth. cbn [world trace app].
    rewrite Hix. cbn [world trace app].
    rewrite Hclaim. cbn [world trace app].
    rewrite Hlargest.
    destruct (List.length largest =? 0)%nat; cbn [world trace app];
      [reflexivity |].
    fold keys. rewrite Hinfos, Hrank. reflexivity.
Qed.

End CronClaims.

Section CronExamples.
Import Demo.
Local Open Scope string_scope.

Lemma live_cycle_order_witness :
  trace (snd (CronBotLive.run (H := substrate) (num 1) (start (H := substrate) busy)))
  = [ Read GetCreatorVaultBalance;
      Read CollectCoinCreatorFeeInstructions;
      Send [External "pump"];
      Read GetTokenLargestAccounts;
      Read (GetMultipleAccountsInfo ["t1"; "t2"; "t3"; "t4"; "t5"; "t6"]);
      Send [DistributeRewards
              [ {| address := "alice"; balance := 70 |};
                {| address := "bob"; balance := 70 |} ]
              ["alice"; "bob"]] ]
  /\ existsb isUpdateHolders
       (trace (snd (CronBotLive.run (H := substrate) (num 1)
                      (start (H := substrate) busy)))) = false.
Proof.
  pose proof (live_cycle_order (H := substrate) (num 1) busy (claimed busy)
                2000000000 ["pump"] "signature"
                ["t1"; "t2"; "t3"; "t4"; "t5"; "t6"]
                (map snd (tokenAccounts busy))) as P.
  cbv zeta in P.
  destruct P as [E1 E2];
    [ reflexivity | vm_compute; reflexivity | reflexivity | reflexivity
    | reflexivity | discriminate | reflexivity | vm_compute; discriminate | ].
  split; [exact E1 | exact E2].
Defined.

Lemma empty_ranking_ends_quietly_witness :
  CronBotLive.run (H := substrate) (num 1) (start (H := substrate) barren)
  = (0, @Build_State substrate (claimed barren)
          [ Read GetCreatorVaultBalance;
            Read CollectCoinCreatorFeeInstructions;
            Send [External "pump"];
            Read GetTokenLargestAccounts;
            Read (GetMultipleAccountsInfo ["t2"; "t4"; "t5"]) ]).
Proof.
  pose proof (empty_ranking_ends_quietly (H := substrate) (num 1) barren
                (claimed barren) 2000000000 ["pump"] "signature"
                ["t2"; "t4"; "t5"] (map snd (tokenAccounts barren))) as P.
  cbv zeta in P.
  destruct P as (_ & _ & E);
    [ reflexivity | vm_compute; reflexivity | reflexivity | reflexivity
    | reflexivity | reflexivity | repeat constructor | ].
  exact E.
Defined.

(** Two SOL pending against a threshold of three: both bots stop after
    their balance query. *)
Example below_threshold_demo :
  CronBotLive.run (H := substrate) (num 3) (start (H := substrate) busy)
  = (0, @Build_State substrate busy [Read GetCreatorVaultBalance])
  /\ CronBotMock.run (H := substrate) (num 3) ["a"; "b"]
                     (@Build_State substrate (claimed busy) [])
     = (0, @Build_State substrate (claimed busy) [Read GetBalance]).
Proof. split; vm_compute; reflexivity. Qed.

(** C8 fails as stated: with no payable candidate the holder query returns
    the empty list; it does not throw. *)
Lemma holder_query_returns_empty_list :
  Forall (fun i => counted (H := substrate) i = false)
         (map snd (tokenAccounts barren))
  /\ fst (CronBotLive.fetchTopHolders (H := substrate) 20
            (start (H := substrate) barren)) = Ok []
  /\ forall e,
       fst (CronBotLive.fetchTopHolders (H := substrate) 20
              (start (H := substrate) barren)) <> Threw e.
Proof.
  split; [repeat constructor | split; [reflexivity | intros e; discriminate]].
Qed.

End CronExamples.

(** ** The withdraw script (C10) *)

Section WithdrawClaims.
Context `{Substrate} (ToNumber : string -> Number).

Lemma floor_cases (x : Number) :
  floor x = NaN \/ (exists sg, floor x = Infinity sg)
  \/ exists k, floor x = Fin (inject_Z k).
Proof.
  destruct x as [| sg | q]; simpl; eauto.
Qed.

Lemma num_zero : num 0 = Fin 0.
Proof. reflexivity. Qed.

Lemma BN_ofNumber_integer (k : Z) :
  0 < k ->
  Withdraw.BN_ofNumber (Fin (inject_Z k))
  = if k <? two53 then Ok k else Threw (Error "Assertion failed").
Proof.
  intros Hk. unfold Withdraw.BN_ofNumber.
  assert (E : Qfloor (Qabs (inject_Z k)) = k).
  { unfold Qabs, inject_Z. cbn [Qnum Qden]. unfold Qfloor.
    rewrite Z.abs_eq by lia. apply Z.div_1_r. }
  rewrite E. unfold sign, inject_Z. cbn [Qnum].
  destruct (Z.ltb_spec k 0); [lia | reflexivity].
Qed.

(** C10.  The script computes the lamport amount as
    [Math.floor(Number(raw) * 1_000_000_000)].  For every input that is
    missing (unset or empty), not a number, or whose lamport amount is at
    most zero, the script throws while it loads: it ends with status 1 and
    has made no request.  Whatever the input, the only request a run can
    make is one owner-withdraw transaction whose amount is that lamport
    amount, a positive integer below [2^53]. *)
Theorem withdraw_refuses_bad_amounts (RPC_URL RAW : option string) (s : State) :
  (forall raw,
      Withdraw.amountLamports ToNumber raw
      = floor (mul (ToNumber raw) (num 1000000000)))
  /\ (RAW = None \/ RAW = Some ""%string
      \/ (exists raw, RAW = Some raw
            /\ (isNaN (ToNumber raw) = true
                \/ le (Withdraw.amountLamports ToNumber raw) (num 0) = true)) ->
      (exists e, Withdraw.script ToNumber RPC_URL RAW s = (Threw e, s))
      /\ Withdraw.run ToNumber RPC_URL RAW s = (1, s))
  /\ (exists new,
        trace (snd (Withdraw.run ToNumber RPC_URL RAW s)) = trace s ++ new
        /\ forall r, In r new ->
             exists raw z,
               RAW = Some raw /\ r = Send [OwnerWithdraw z]
               /\ 0 < z < two53
               /\ Withdraw.amountLamports ToNumber raw = Fin (inject_Z z)).
Proof.
  split; [reflexivity | split].
  - intros Hbad. unfold Withdraw.run, exit, Withdraw.script, throw.
    destruct (Withdraw.falsy RPC_URL); [split; eauto |].
    destruct Hbad as [-> | [-> | (raw & -> & Hraw)]].
    + split; eauto.
    + cbn [String.eqb]. split; eauto.
    + destruct (String.eqb raw ""); [split; eauto |].
      assert (G : isNaN (Withdraw.amountLamports ToNumber raw)
                  || le (Withdraw.amountLamports ToNumber raw) (num 0) = true).
      { destruct Hraw as [Hnan | Hle]; [| rewrite Hle; apply orb_true_r].
        unfold Withdraw.amountLamports.
        destruct (ToNumber raw); try discriminate. reflexivity. }
      cbv zeta. rewrite G. split; eauto.
  - unfold Withdraw.run, exit, Withdraw.script, throw.
    assert (Hnone : exists new, trace s = trace s ++ new
                /\ forall r, In r new ->
                     exists raw z,
                       RAW = Some raw /\ r = Send [OwnerWithdraw z]
                       /\ 0 < z < two53
                       /\ Withdraw.amountLamports ToNumber raw = Fin (inject_Z z)).
    { exists []. split; [now rewrite app_nil_r | contradiction]. }
    destruct (Withdraw.falsy RPC_URL); [cbn [snd]; exact Hnone |].
    destruct RAW as [raw |]; [| cbn [snd]; exact Hnone].
    destruct (String.eqb raw ""); [cbn [snd]; exact Hnone |].
    cbv zeta.
    destruct (isNaN (Withdraw.amountLamports ToNumber raw)
              || le (Withdraw.amountLamports ToNumber raw) (num 0)) eqn:G;
      [cbn [snd]; exact Hnone |].
    apply orb_false_iff in G as [Gnan Gle].
    unfold Withdraw.main, bind, local, lift, send, ret.
    destruct (loadProgram (world s)); [| cbn [snd]; exact Hnone].
    destruct (floor_cases (mul (ToNumber raw) Withdraw.LAMPORTS_PER_SOL))
      as [E | [[sg E] | [k E]]];
      fold (Withdraw.amountLamports ToNumber raw) in E;
      rewrite E in *.
    + discriminate.
    + cbn [Withdraw.BN_ofNumber]. cbn [snd]; exact Hnone.
    + rewrite num_zero in Gle. cbn [le] in Gle.
      assert (Hk : 0 < k).
      { destruct (Z.ltb_spec 0 k); [assumption | exfalso].
        assert (Qle_bool (inject_Z k) 0 = true); [| congruence].
        apply Qle_bool_iff. unfold Qle; simpl. lia. }
      rewrite BN_ofNumber_integer by assumption.
      destruct (Z.ltb_spec k two53); [| cbn [snd]; exact Hnone].
      cbn [world trace].
      destruct (sendAndConfirm [OwnerWithdraw k] (world s)) as [[sig | e] w'];
        cbn [snd trace];
        (exists [Send [OwnerWithdraw k]]; split; [reflexivity |];
         intros r [<- | []]; exists raw, k; repeat split; assumption).
Qed.

End WithdrawClaims.

Section WithdrawExamples.
Import Demo.
Local Open Scope string_scope.

Lemma withdraw_refuses_bad_amounts_witness :
  Withdraw.run (H := substrate) toNumber (Some "rpc") (Some "-2")
               (start (H := substrate) busy)
  = (1, start (H := substrate) busy)
  /\ Withdraw.run (H := substrate) toNumber (Some "rpc") (Some "abc")
                  (start (H := substrate) busy)
     = (1, start (H := substrate) busy)
  /\ Withdraw.run (H := substrate) toNumber (Some "rpc") None
                  (start (H := substrate) busy)
     = (1, start (H := substrate) busy).
Proof.
  split; [| split].
  - apply (withdraw_refuses_bad_amounts (H := substrate) toNumber
             (Some "rpc") (Some "-2") (start (H := substrate) busy)).
    right. right. exists "-2". split; [reflexivity |]. right.
    vm_compute. reflexivity.
  - apply (withdraw_refuses_bad_amounts (H := substrate) toNumber
             (Some "rpc") (Some "abc") (start (H := substrate) busy)).
    right. right. exists "abc". split; [reflexivity |]. left. reflexivity.
  - apply (withdraw_refuses_bad_amounts (H := substrate) toNumber
             (Some "rpc") None (start (H := substrate) busy)).
    now left.
Defined.

(** A well-formed amount goes through: [1.5] SOL is withdrawn as
    [1_500_000_000] lamports. *)
Example withdraw_one_and_a_half :
  trace (snd (Withdraw.run (H := substrate) toNumber (Some "rpc") (Some "1.5")
                (start (H := substrate) busy)))
  = [Send [OwnerWithdraw 1500000000]].
Proof. vm_compute. reflexivity. Qed.

(** An infinite amount passes the load-time check, and fails in the big
    number constructor before anything is sent. *)
Example withdraw_infinity :
  Withdraw.run (H := substrate) toNumber (Some "rpc") (Some "Infinity")
               (start (H := substrate) busy)
  = (1, start (H := substrate) busy).
Proof. vm_compute. reflexivity. Qed.

End WithdrawExamples.

(* ================================================================== *)
(** * Further properties of the scripts *)
(* ================================================================== *)

(** ** The ranking *)

Section RankingMore.
Context `{Substrate}.

Lemma StronglySorted_cross {A} (R : A -> A -> Prop) (l1 l2 : list A) (x y : A) :
  StronglySorted R (l1 ++ l2) -> In x l1 -> In y l2 -> R x y.
Proof.
  induction l1 as [| z l1 IH]; simpl; intros Hs Hx Hy; [contradiction |].
  apply StronglySorted_inv in Hs as [Hs Hz].
  destruct Hx as [-> | Hx]; [| now apply IH].
  rewrite Forall_forall in Hz. apply Hz. apply in_or_app. now right.
Qed.

Lemma ranked_entries_sorted (infos : list AccountInfo) :
  StronglySorted (fun e e' : string * N => (snd e' <= snd e)%N)
                 (sort byBalanceDesc (fold_left visit infos [])).
Proof.
  destruct (fold_visit_keys infos) as (_ & _ & Hs). cbv zeta in Hs.
  apply StronglySorted_map_inv in Hs.
  apply sort_ranks in Hs.
  eapply StronglySorted_weaken; [| exact Hs].
  cbv beta. intros x y _ _ [Hlt | [E _]]; lia.
Qed.

(** The shape of every ranking: at most [limit] entries, one per owner, all
    on the curve and holding something. *)
Lemma rankHolders_payable (infos : list AccountInfo) (limit : nat) :
  (List.length (rankHolders infos limit) <= limit)%nat
  /\ NoDup (map address (rankHolders infos limit))
  /\ Forall (fun h => isOnCurve (address h) = true /\ balance h <> 0%N)
            (rankHolders infos limit).
Proof.
  rewrite rankHolders_unfold.
  set (m := fold_left visit infos []).
  pose proof (sort_perm byBalanceDesc m) as Hperm.
  destruct (fold_visit_keys infos) as (Hnd & _ & _). fold m in Hnd.
  split; [| split].
  - rewrite length_map. apply firstn_le_length.
  - rewrite map_map. cbn [address]. rewrite <- firstn_map.
    apply NoDup_firstn.
    apply (Permutation_NoDup (Permutation_sym (Permutation_map fst Hperm))).
    exact Hnd.
  - apply Forall_forall. intros h Hh.
    apply in_map_iff in Hh as ([a b] & <- & Hin). cbn [address balance fst snd].
    apply In_firstn in Hin. apply (Permutation_in _ Hperm) in Hin.
    apply fold_visit_entries in Hin. tauto.
Qed.

(** X1.  The ranking keeps the top: when an on-curve owner that holds
    something is missing from the ranking, the ranking is full ([limit]
    entries) and every entry in it holds at least as much as that owner. *)
Theorem rankHolders_keeps_the_top
    (infos : list AccountInfo) (limit : nat) (a : PublicKey) :
  isOnCurve a = true ->
  balanceOf a infos <> 0%N ->
  ~ In a (map address (rankHolders infos limit)) ->
  List.length (rankHolders infos limit) = limit
  /\ Forall (fun h => (balanceOf a infos <= balance h)%N) (rankHolders infos limit).
Proof.
  intros Ha Hb Hout. rewrite rankHolders_unfold in *.
  set (m := fold_left visit infos []) in *.
  set (S := sort byBalanceDesc m) in *.
  assert (Hin : In (a, balanceOf a infos) S).
  { apply (Permutation_in _ (Permutation_sym (sort_perm byBalanceDesc m))).
    apply fold_visit_entries. tauto. }
  assert (Hcut : In (a, balanceOf a infos) (skipn limit S)).
  { rewrite <- (firstn_skipn limit S) in Hin.
    apply in_app_or in Hin as [Hin | Hin]; [| assumption].
    exfalso. apply Hout. rewrite map_map. cbn [address].
    now apply (in_map fst) in Hin. }
  split.
  - rewrite length_map. apply firstn_length_le.
    destruct (Nat.le_gt_cases limit (List.length S)) as [Hle | Hgt];
      [assumption |].
    rewrite skipn_all2 in Hcut by lia. contradiction.
  - apply Forall_forall. intros h Hh.
    apply in_map_iff in Hh as (e & <- & He). cbn [balance].
    pose proof (ranked_entries_sorted infos) as Hs.
    fold m in Hs. fold S in Hs. rewrite <- (firstn_skipn limit S) in Hs.
    apply (StronglySorted_cross _ _ _ e (a, balanceOf a infos) Hs He Hcut).
Qed.

Lemma nsum_app (l1 l2 : list N) : nsum (l1 ++ l2) = (nsum l1 + nsum l2)%N.
Proof. induction l1 as [| x l1 IH]; simpl; [reflexivity | rewrite IH; lia]. Qed.

Lemma nsum_perm (l1 l2 : list N) : Permutation l1 l2 -> nsum l1 = nsum l2.
Proof. induction 1; simpl; lia. Qed.

Lemma nsum_set (m : JSMap.t) (k : string) (v : N) :
  nsum (map snd (JSMap.set m k
                   (match JSMap.get m k with Some b => b | None => 0 end + v)%N))
  = (nsum (map snd m) + v)%N.
Proof.
  induction m as [| [k' v'] m IH]; simpl; [lia |].
  destruct (String.eqb k' k); simpl; [lia | rewrite IH; lia].
Qed.

Lemma nsum_visit (m : JSMap.t) (x : AccountInfo) :
  nsum (map snd (visit m x)) = (nsum (map snd m) + countedAmount x)%N.
Proof.
  destruct x as [| | o amt]; simpl; try lia.
  destruct (isOnCurve o); simpl; [| lia].
  destruct (amt =? 0)%N; simpl; [lia |].
  apply nsum_set.
Qed.

Lemma nsum_fold_visit (infos : list AccountInfo) :
  nsum (map snd (fold_left visit infos [])) = nsum (map countedAmount infos).
Proof.
  induction infos as [| x l IH] using rev_ind; [reflexivity |].
  rewrite fold_left_app, map_app, nsum_app. cbn [fold_left].
  rewrite nsum_visit, IH. simpl. lia.
Qed.

(** X2.  The ranking invents no balance: its balances add up to at most the
    amounts of the counted accounts, and to exactly those when the limit
    does not cut. *)
Theorem rankHolders_conserves_amounts (infos : list AccountInfo) (limit : nat) :
  (nsum (map balance (rankHolders infos limit))
   <= nsum (map countedAmount infos))%N
  /\ ((List.length infos <= limit)%nat ->
      nsum (map balance (rankHolders infos limit))
      = nsum (map countedAmount infos)).
Proof.
  rewrite rankHolders_unfold, map_map. cbn [balance].
  change (fun x : PublicKey * N => snd x) with (@snd string N).
  set (m := fold_left visit infos []).
  set (S := sort byBalanceDesc m).
  assert (Htotal : nsum (map snd S) = nsum (map countedAmount infos)).
  { rewrite <- nsum_fold_visit. apply nsum_perm. apply Permutation_map.
    apply sort_perm. }
  split.
  - rewrite <- Htotal.
    assert (Hsplit : nsum (map snd S)
                     = (nsum (map snd (firstn limit S))
                        + nsum (map snd (skipn limit S)))%N)
      by (now rewrite <- nsum_app, <- map_app, firstn_skipn).
    rewrite Hsplit. apply N.le_add_r.
  - intros Hlim. rewrite firstn_all2; [exact Htotal |].
    unfold S. rewrite (Permutation_length (sort_perm byBalanceDesc m)).
    pose proof (fold_visit_length infos) as Hlen. fold m in Hlen. lia.
Qed.

End RankingMore.

Lemma rankHolders_keeps_the_top_witness :
  List.length (rankHolders (H := Demo.substrate)
                 (map snd (Demo.tokenAccounts Demo.busy)) 1) = 1%nat
  /\ Forall (fun h => (70 <= balance h)%N)
            (rankHolders (H := Demo.substrate)
               (map snd (Demo.tokenAccounts Demo.busy)) 1).
Proof.
  apply (rankHolders_keeps_the_top (H := Demo.substrate)
           (map snd (Demo.tokenAccounts Demo.busy)) 1 "bob"%string).
  - reflexivity.
  - vm_compute. discriminate.
  - vm_compute. intros [E | []]. discriminate.
Defined.

(** A tie at the cut: alice and bob both hold 70, alice was seen first, and
    a ranking of one keeps alice. *)
Example rankHolders_tie_at_the_cut :
  rankHolders (H := Demo.substrate) (map snd (Demo.tokenAccounts Demo.busy)) 1
  = [ {| address := "alice"%string; balance := 70 |} ].
Proof. vm_compute. reflexivity. Qed.

(** ** The cron bots *)

Ltac unfold_io :=
  unfold CronBotLive.run, CronBotMock.run, exit,
    CronBotLive.main, CronBotMock.main,
    CronBotLive.getPendingCreatorRewards, CronBotMock.fetchPendingCreatorRewards,
    CronBotLive.collectCreatorFees,
    CronBotLive.fetchTopHolders, CronBotMock.fetchRealHolderBalances,
    CronBotLive.distributeRewards, CronBotMock.distributeRewards,
    bind, read, send, ret, throw, lift, local;
  cbn [world trace app fst snd].

Section CronMore.
Context `{Substrate}.

Lemma firstn_min_length {A} (n : nat) (l : list A) :
  firstn (Nat.min (List.length l) n) l = firstn n l.
Proof.
  destruct (Nat.le_gt_cases n (List.length l)) as [Hle | Hgt].
  - now rewrite Nat.min_r.
  - rewrite Nat.min_l by lia. rewrite !firstn_all2; [reflexivity | lia | lia].
Qed.

(** X3.  The holder query of both bots is read-only and bounded: it leaves
    the world as it is, makes at most two queries and no transaction, never
    asks for more than [2 * limit] accounts, and what it returns has at most
    [limit] holders, with distinct addresses, all on the curve and holding
    something. *)
Theorem fetchTopHolders_contract (limit : nat) (s : State) :
  let r := fst (CronBotLive.fetchTopHolders limit s) in
  let s' := snd (CronBotLive.fetchTopHolders limit s) in
  CronBotMock.fetchRealHolderBalances limit s = CronBotLive.fetchTopHolders limit s
  /\ world s' = world s
  /\ (exists reads,
        trace s' = trace s ++ map Read reads
        /\ (List.length reads <= 2)%nat
        /\ forall keys, In (GetMultipleAccountsInfo keys) reads ->
                        (List.length keys <= 2 * limit)%nat)
  /\ (forall holders, r = Ok holders ->
        (List.length holders <= limit)%nat
        /\ NoDup (map address holders)
        /\ Forall (fun h => isOnCurve (address h) = true /\ balance h <> 0%N)
                  holders).
Proof.
  cbv zeta. split; [reflexivity |].
  rewrite fetchTopHolders_unfold. cbv zeta.
  assert (Hone : exists reads,
             trace s ++ [Read GetTokenLargestAccounts] = trace s ++ map Read reads
             /\ (List.length reads <= 2)%nat
             /\ forall keys, In (GetMultipleAccountsInfo keys) reads ->
                             (List.length keys <= 2 * limit)%nat).
  { exists [GetTokenLargestAccounts]. split; [reflexivity | split; [simpl; lia |]].
    intros keys [E | []]. discriminate. }
  destruct (getTokenLargestAccounts (world s)) as [largest | e]; cbn [fst snd world trace].
  2: { split; [reflexivity | split; [exact Hone | discriminate]]. }
  destruct (List.length largest =? 0)%nat.
  { cbn [fst snd world trace]. split; [reflexivity | split; [exact Hone |]].
    intros holders [= <-]. repeat split; [simpl; lia | constructor | constructor]. }
  set (keys := firstn (Nat.min (List.length largest) (limit * 2)) largest).
  assert (Htwo : exists reads,
             (trace s ++ [Read GetTokenLargestAccounts])
               ++ [Read (GetMultipleAccountsInfo keys)]
             = trace s ++ map Read reads
             /\ (List.length reads <= 2)%nat
             /\ forall ks, In (GetMultipleAccountsInfo ks) reads ->
                           (List.length ks <= 2 * limit)%nat).
  { exists [GetTokenLargestAccounts; GetMultipleAccountsInfo keys].
    split; [now rewrite <- app_assoc | split; [simpl; lia |]].
    intros ks [E | [[= <-] | []]]; [discriminate |].
    unfold keys. rewrite firstn_min_length.
    pose proof (firstn_le_length (limit * 2) largest). lia. }
  destruct (getMultipleAccountsInfo (world s) keys) as [infos | e];
    cbn [fst snd world trace].
  - split; [reflexivity | split; [exact Htwo |]].
    intros holders [= <-]. apply rankHolders_payable.
  - split; [reflexivity | split; [exact Htwo | discriminate]].
Qed.

Lemma external_never_distributes (ixs : list string) :
  existsb (fun i => match i with DistributeRewards _ _ => true | _ => false end)
          (map External ixs) = false.
Proof. induction ixs; simpl; auto. Qed.

(** A run of the live bot that distributes went through every step. *)
Lemma live_trace_with_distribute (threshold : Number) (w : World) :
  existsb isDistribute (trace (snd (CronBotLive.run threshold (start w)))) = true ->
  exists lamports ixs sig w1 largest infos,
    getCreatorVaultBalanceBothPrograms w = Ok lamports
    /\ lt (div (num (Z.of_N lamports)) CronBotLive.LAMPORTS_PER_SOL) threshold = false
    /\ collectCoinCreatorFeeInstructions w = Ok ixs
    /\ sendAndConfirm (map External ixs) w = (Ok sig, w1)
    /\ getTokenLargestAccounts w1 = Ok largest
    /\ getMultipleAccountsInfo w1 (firstn (20 * 2) largest) = Ok infos
    /\ rankHolders infos 20 <> []
    /\ trace (snd (CronBotLive.run threshold (start w)))
       = [ Read GetCreatorVaultBalance;
           Read CollectCoinCreatorFeeInstructions;
           Send (map External ixs);
           Read GetTokenLargestAccounts;
           Read (GetMultipleAccountsInfo (firstn (20 * 2) largest));
           Send [DistributeRewards (rankHolders infos 20)
                   (remainingAccounts (rankHolders infos 20))] ].
Proof.
  unfold_io. unfold start. cbn [world trace app].
  destruct (getCreatorVaultBalanceBothPrograms w) as [lamports | e] eqn:Hbal;
    cbn [world trace app fst snd]; [| discriminate].
  destruct (lt _ threshold) eqn:Hth; cbn [world trace app fst snd];
    [discriminate |].
  destruct (collectCoinCreatorFeeInstructions w) as [ixs | e] eqn:Hix;
    cbn [world trace app fst snd]; [| discriminate].
  destruct (sendAndConfirm (map External ixs) w) as [[sig | e] w1] eqn:Hclaim;
    cbn [world trace app fst snd existsb isDistribute orb];
    rewrite ?external_never_distributes; [| discriminate].
  destruct (getTokenLargestAccounts w1) as [largest | e] eqn:Hl;
    cbn [world trace app fst snd existsb isDistribute orb];
    rewrite ?external_never_distributes; [| discriminate].
  destruct (List.length largest =? 0)%nat;
    cbn [world trace app fst snd existsb isDistribute orb List.length Nat.eqb];
    rewrite ?external_never_distributes; [discriminate |].
  rewrite firstn_min_length.
  destruct (getMultipleAccountsInfo w1 (firstn (20 * 2) largest))
    as [infos | e] eqn:Hinfos;
    cbn [world trace app fst snd existsb isDistribute orb];
    rewrite ?external_never_distributes; [| discriminate].
  destruct (List.length (rankHolders infos 20) =? 0)%nat eqn:Hlen;
    cbn [world trace app fst snd existsb isDistribute orb];
    rewrite ?external_never_distributes; [discriminate |].
  intros _.
  exists lamports, ixs, sig, w1, largest, infos.
  repeat (split; [first [assumption | reflexivity] |]).
  split.
  - intros E. rewrite E in Hlen. discriminate.
  - destruct (sendAndConfirm [DistributeRewards _ _] w1) as [[? | ?] ?];
      reflexivity.
Qed.

Lemma existsb_in {A} (f : A -> bool) (l : list A) (x : A) :
  In x l -> f x = true -> existsb f l = true.
Proof. intros Hin Hf. apply existsb_exists. now exists x. Qed.

(** X4.  Every distribute request of the live bot is well formed: it is the
    only instruction of its transaction, it carries between one and twenty
    holders with distinct addresses, all on the curve and holding
    something, and its recipient accounts are the holders' addresses in the
    same order. *)
Theorem live_distribute_wellformed (threshold : Number) (w : World)
    (tx : Transaction) :
  In (Send tx) (trace (snd (CronBotLive.run threshold (start w)))) ->
  isDistribute (Send tx) = true ->
  exists hs,
    tx = [DistributeRewards hs (map address hs)]
    /\ (1 <= List.length hs <= 20)%nat
    /\ NoDup (map address hs)
    /\ Forall (fun h => isOnCurve (address h) = true /\ balance h <> 0%N) hs.
Proof.
  intros Hin Hd.
  destruct (live_trace_with_distribute threshold w
              (existsb_in _ _ _ Hin Hd))
    as (lamports & ixs & sig & w1 & largest & infos & _ & _ & _ & _ & _ & _
        & Hne & Ht).
  rewrite Ht in Hin.
  destruct (rankHolders_payable infos 20) as (Hlen & Hnd & Hall).
  exists (rankHolders infos 20).
  assert (Etx : tx = [DistributeRewards (rankHolders infos 20)
                        (remainingAccounts (rankHolders infos 20))]).
  { simpl in Hin.
    destruct Hin as [E | [E | [E | [E | [E | [E | []]]]]]]; try discriminate.
    - injection E as <-. cbn [isDistribute] in Hd.
      rewrite external_never_distributes in Hd. discriminate.
    - now injection E as <-. }
  split; [exact Etx | split; [| split; assumption]].
  split; [| assumption].
  destruct (rankHolders infos 20); [contradiction | simpl; lia].
Qed.

(** X5.  The live bot distributes only after a confirmed claim, and then
    stops: a distribute request is the last request of its run, and the fee
    claim was submitted before it and confirmed. *)
Theorem live_distribute_after_confirmed_claim (threshold : Number) (w : World)
    (pre post : list Request) (tx : Transaction) :
  trace (snd (CronBotLive.run threshold (start w))) = pre ++ Send tx :: post ->
  isDistribute (Send tx) = true ->
  post = []
  /\ exists ixs sig w1,
       collectCoinCreatorFeeInstructions w = Ok ixs
       /\ sendAndConfirm (map External ixs) w = (Ok sig, w1)
       /\ In (Send (map External ixs)) pre.
Proof.
  intros Ht Hd.
  assert (Hin : In (Send tx) (trace (snd (CronBotLive.run threshold (start w)))))
    by (rewrite Ht; apply in_or_app; right; now left).
  destruct (live_trace_with_distribute threshold w
              (existsb_in _ _ _ Hin Hd))
    as (lamports & ixs & sig & w1 & largest & infos & _ & _ & Hix & Hclaim & _
        & _ & _ & Ht').
  rewrite Ht' in Ht.
  assert (Hshape : pre = [ Read GetCreatorVaultBalance;
                           Read CollectCoinCreatorFeeInstructions;
                           Send (map External ixs);
                           Read GetTokenLargestAccounts;
                           Read (GetMultipleAccountsInfo (firstn (20 * 2) largest)) ]
                   /\ post = []).
  { destruct pre as [| r0 [| r1 [| r2 [| r3 [| r4 [| r5 pre]]]]]];
      cbn [app] in Ht; inversion Ht; subst;
      try (cbn [isDistribute] in Hd;
           rewrite external_never_distributes in Hd; discriminate).
    - split; reflexivity.
    - match goal with E : [] = _ ++ _ |- _ => destruct pre; discriminate E end. }
  destruct Hshape as [-> ->].
  split; [reflexivity |].
  exists ixs, sig, w1. repeat split; try assumption.
  simpl. tauto.
Qed.

(** X6.  [main()] of the live bot rejects only when a call fails: if every
    query and every transaction succeeds, whatever they answer, [main()]
    resolves, so the empty-holder error of [distributeRewards] cannot be
    reached from it.  (What the module does while it loads, before
    [main()] is called, is not part of this statement.) *)
Theorem live_main_rejects_only_with_a_call (threshold : Number) (s : State) :
  (forall w, exists v, getCreatorVaultBalanceBothPrograms w = Ok v) ->
  (forall w, exists v, collectCoinCreatorFeeInstructions w = Ok v) ->
  (forall w, exists v, getTokenLargestAccounts w = Ok v) ->
  (forall w keys, exists v, getMultipleAccountsInfo w keys = Ok v) ->
  (forall tx w, exists sig w', sendAndConfirm tx w = (Ok sig, w')) ->
  fst (CronBotLive.main threshold s) = Ok tt.
Proof.
  intros Hbal Hix Hl Hinfos Hsend. unfold_io.
  destruct (Hbal (world s)) as [lamports ->]. cbn [world trace app fst snd].
  destruct (lt _ threshold); cbn [world trace app fst snd]; [reflexivity |].
  destruct (Hix (world s)) as [ixs ->]. cbn [world trace app fst snd].
  destruct (Hsend (map External ixs) (world s)) as (sig & w1 & ->).
  cbn [world trace app fst snd].
  destruct (Hl w1) as [largest ->].
  destruct (List.length largest =? 0)%nat;
    cbn [world trace app fst snd List.length Nat.eqb]; [reflexivity |].
  match goal with |- context [getMultipleAccountsInfo w1 ?k] =>
    destruct (Hinfos w1 k) as [infos ->] end.
  cbn [world trace app fst snd].
  destruct (List.length (rankHolders infos 20) =? 0)%nat;
    cbn [world trace app fst snd]; [reflexivity |].
  match goal with |- context [sendAndConfirm ?tx w1] =>
    destruct (Hsend tx w1) as (sig' & w2 & ->) end.
  reflexivity.
Qed.

(** X7.  A rejected fee claim ends the cycle: the run stops with exit
    status 1 right after the claim; no holder is queried and nothing is
    distributed. *)
Theorem rejected_claim_ends_cycle (threshold : Number) (w w1 : World)
    (lamports : N) (ixs : list string) (e : Exn) :
  getCreatorVaultBalanceBothPrograms w = Ok lamports ->
  lt (div (num (Z.of_N lamports)) CronBotLive.LAMPORTS_PER_SOL) threshold = false ->
  collectCoinCreatorFeeInstructions w = Ok ixs ->
  sendAndConfirm (map External ixs) w = (Threw e, w1) ->
  CronBotLive.run threshold (start w)
  = (1, {| world := w1;
           trace := [ Read GetCreatorVaultBalance;
                      Read CollectCoinCreatorFeeInstructions;
                      Send (map External ixs) ] |}).
Proof.
  intros Hbal Hth Hix Hclaim. unfold_io. unfold start. cbn [world trace app].
  rewrite Hbal. cbn [world trace app fst snd].
  rewrite Hth. cbn [world trace app fst snd].
  rewrite Hix. cbn [world trace app fst snd].
  rewrite Hclaim. reflexivity.
Qed.

End CronMore.

Section CronExamples.
Local Open Scope string_scope.

Lemma live_distribute_wellformed_witness :
  exists hs,
    [DistributeRewards
       [ {| address := "alice"; balance := 70 |};
         {| address := "bob"; balance := 70 |} ] ["alice"; "bob"]]
    = [DistributeRewards hs (map address hs)]
    /\ (1 <= List.length hs <= 20)%nat
    /\ NoDup (map address hs)
    /\ Forall (fun h => isOnCurve (Substrate := Demo.substrate) (address h) = true
                        /\ balance h <> 0%N) hs.
Proof.
  apply (live_distribute_wellformed (H := Demo.substrate) (num 1) Demo.busy).
  - vm_compute. do 5 right. left. reflexivity.
  - reflexivity.
Defined.

Lemma live_distribute_after_confirmed_claim_witness :
  @nil Request = []
  /\ exists ixs sig w1,
       collectCoinCreatorFeeInstructions (Substrate := Demo.substrate) Demo.busy
       = Ok ixs
       /\ sendAndConfirm (Substrate := Demo.substrate) (map External ixs) Demo.busy
          = (Ok sig, w1)
       /\ In (Send (map External ixs))
             [ Read GetCreatorVaultBalance;
               Read CollectCoinCreatorFeeInstructions;
               Send [External "pump"];
               Read GetTokenLargestAccounts;
               Read (GetMultipleAccountsInfo
                       ["t1"; "t2"; "t3"; "t4"; "t5"; "t6"]) ].
Proof.
  apply (live_distribute_after_confirmed_claim (H := Demo.substrate)
           (num 1) Demo.busy _ _
           [DistributeRewards
              [ {| address := "alice"; balance := 70 |};
                {| address := "bob"; balance := 70 |} ] ["alice"; "bob"]]).
  - vm_compute. reflexivity.
  - reflexivity.
Defined.

Lemma live_main_rejects_only_with_a_call_witness :
  fst (CronBotLive.main (H := Demo.substrate) (num 1)
         (start (H := Demo.substrate) Demo.barren)) = Ok tt.
Proof.
  apply (live_main_rejects_only_with_a_call (H := Demo.substrate)).
  - intros w. eexists. reflexivity.
  - intros w. eexists. reflexivity.
  - intros w. eexists. reflexivity.
  - intros w keys. eexists. reflexivity.
  - intros tx w. do 2 eexists. reflexivity.
Defined.

Lemma rejected_claim_ends_cycle_witness :
  CronBotLive.run (H := DemoRejecting.substrate) (num 1)
    (start (H := DemoRejecting.substrate) Demo.busy)
  = (1, @Build_State DemoRejecting.substrate Demo.busy
          [ Read GetCreatorVaultBalance;
            Read CollectCoinCreatorFeeInstructions;
            Send [External "pump"] ]).
Proof.
  apply (rejected_claim_ends_cycle (H := DemoRejecting.substrate) (num 1)
           Demo.busy Demo.busy 2000000000 ["pump"]
           (Error "Transaction simulation failed")).
  - reflexivity.
  - vm_compute. reflexivity.
  - reflexivity.
  - reflexivity.
Defined.

End CronExamples.

(** ** The mock cron bot *)

Section MockMore.
Context `{Substrate}.


Lemma substitute_mock_holders (fake : list string) (n : nat) (index : N) :
  CronBotMock.substituteFakeAddresses fake
    (CronBotMock.mockHoldersFrom index (firstn n fake))
  = CronBotMock.mockHoldersFrom index (firstn n fake).
Proof.
  revert n index. induction fake as [| addr fake IH]; intros n index.
  - now rewrite firstn_nil.
  - destruct n as [| n]; [reflexivity |].
    cbn [firstn CronBotMock.mockHoldersFrom CronBotMock.substituteFakeAddresses].
    now rewrite IH.
Qed.

Lemma mockHoldersFrom_addresses (index : N) (addrs : list string) :
  map address (CronBotMock.mockHoldersFrom index addrs) = addrs.
Proof.
  revert index. induction addrs as [| a addrs IH]; intros index; simpl;
    [reflexivity | now rewrite IH].
Qed.

Lemma mockHoldersFrom_balances (index : nat) (addrs : list string) :
  map balance (CronBotMock.mockHoldersFrom (N.of_nat index) addrs)
  = map N.of_nat (seq (S index) (List.length addrs)).
Proof.
  revert index. induction addrs as [| a addrs IH]; intros index;
    [reflexivity |].
  cbn [CronBotMock.mockHoldersFrom map balance List.length seq].
  replace (N.of_nat index + 1)%N with (N.of_nat (S index)) by lia.
  now rewrite IH.
Qed.

(** X9.  The mock bot pays fake recipients only: whatever the holder query
    returned, every transaction of a run is a single distribute instruction
    whose holders are the first twenty fake addresses (all of them valid
    keys, at least one), in their order, with balances 1, 2, 3, ...; no
    fee claim and no holder update is ever sent. *)
Theorem mock_pays_fake_recipients_only (threshold : Number)
    (fake : list string) (w : World) (tx : Transaction) :
  In (Send tx) (trace (snd (CronBotMock.run threshold fake (start w)))) ->
  exists hs,
    tx = [DistributeRewards hs (firstn 20 fake)]
    /\ map address hs = firstn 20 fake
    /\ map balance hs
       = map N.of_nat (seq 1 (Nat.min 20 (List.length fake)))
    /\ fake <> []
    /\ forallb isPublicKey (firstn 20 fake) = true.
Proof.
  unfold_io. unfold start. cbn [world trace app].
  destruct (getBalance w) as [lamports | e]; cbn [world trace app fst snd];
    [| intros [E | []]; discriminate].
  destruct (lt _ threshold); cbn [world trace app fst snd];
    [intros [E | []]; discriminate |].
  destruct (getTokenLargestAccounts w) as [largest | e];
    cbn [world trace app fst snd];
    [| intros [E | [E | []]]; discriminate].
  destruct (List.length largest =? 0)%nat;
    cbn [world trace app fst snd List.length Nat.eqb].
  { intros [E | [E | []]]; discriminate. }
  destruct (getMultipleAccountsInfo w _) as [infos | e];
    cbn [world trace app fst snd].
  2: { intros [E | [E | [E | []]]]; discriminate. }
  destruct (List.length (rankHolders infos 20) =? 0)%nat;
    cbn [world trace app fst snd].
  { intros [E | [E | [E | []]]]; discriminate. }
  rewrite substitute_mock_holders.
  destruct (forallb isPublicKey (firstn 20 fake)) eqn:Hkeys;
    cbn [negb world trace app fst snd].
  2: { intros [E | [E | [E | []]]]; discriminate. }
  destruct (List.length (CronBotMock.mockHoldersFrom 0 (firstn 20 fake)) =? 0)%nat
    eqn:Hlen; cbn [world trace app fst snd].
  { intros [E | [E | [E | []]]]; discriminate. }
  assert (Hfake : fake <> []) by (intros ->; discriminate Hlen).
  destruct (sendAndConfirm _ w) as [[sig | e] w2]; cbn [world trace app fst snd];
    (intros [E | [E | [E | [E | []]]]]; try discriminate;
     injection E as <-;
     exists (CronBotMock.mockHoldersFrom 0 (firstn 20 fake));
     split; [f_equal; f_equal; apply mockHoldersFrom_addresses |];
     split; [apply mockHoldersFrom_addresses | split; [| split; first [assumption | reflexivity]]];
     rewrite (mockHoldersFrom_balances 0), length_firstn; reflexivity).
Qed.

End MockMore.

(** ** The withdraw script *)

Section WithdrawMore.
Context `{Substrate}.
Context (ToNumber : string -> Number).

Lemma amount_in_range (y : Number) (z : Z) :
  (isNaN (floor y) || le (floor y) (num 0)) = false ->
  Withdraw.BN_ofNumber (floor y) = Ok z ->
  0 < z < two53 /\ floor y = Fin (inject_Z z).
Proof.
  destruct (floor_cases y) as [-> | [[sg ->] | [k ->]]];
    [discriminate | discriminate |].
  intros Hpos Hz. cbn [isNaN orb] in Hpos. rewrite num_zero in Hpos.
  cbn [le] in Hpos.
  assert (Hk : 0 < k).
  { destruct (Z.ltb_spec 0 k); [assumption |]. exfalso.
    assert (E : Qle_bool (inject_Z k) 0 = true)
      by (apply Qle_bool_iff; unfold Qle; simpl; lia).
    rewrite E in Hpos. discriminate. }
  rewrite (BN_ofNumber_integer k Hk) in Hz.
  destruct (Z.ltb_spec k two53); [| discriminate].
  injection Hz as <-. split; [lia | reflexivity].
Qed.

(** X10.  The script reports success only for a confirmed withdrawal: a run
    that ends with status 0 had both variables set, sent exactly one
    transaction, an owner withdrawal of [Math.floor(Number(raw) * 10^9)]
    lamports (a positive integer below [2^53]), and the ledger confirmed
    it. *)
Theorem withdraw_success_is_confirmed (RPC_URL RAW : option string) (s : State) :
  fst (Withdraw.run ToNumber RPC_URL RAW s) = 0 ->
  exists raw z sig w',
    RAW = Some raw
    /\ Withdraw.falsy RPC_URL = false
    /\ Withdraw.amountLamports ToNumber raw = Fin (inject_Z z)
    /\ 0 < z < two53
    /\ sendAndConfirm [OwnerWithdraw z] (world s) = (Ok sig, w')
    /\ snd (Withdraw.run ToNumber RPC_URL RAW s)
       = {| world := w'; trace := trace s ++ [Send [OwnerWithdraw z]] |}.
Proof.
  unfold Withdraw.run, exit, Withdraw.script.
  destruct (Withdraw.falsy RPC_URL) eqn:Hrpc; [intros E; discriminate E |].
  destruct RAW as [raw |]; [| intros E; discriminate E].
  destruct (String.eqb raw "") eqn:Hraw; [intros E; discriminate E |].
  destruct (isNaN _ || le _ (num 0)) eqn:Hpos; [intros E; discriminate E |].
  unfold Withdraw.main, bind, local, lift, send, ret, throw.
  destruct (loadProgram (world s)) as [[] | e]; [| intros E; discriminate E].
  destruct (Withdraw.BN_ofNumber (Withdraw.amountLamports ToNumber raw))
    as [z | e] eqn:Hz; [| intros E; discriminate E].
  destruct (amount_in_range _ z Hpos Hz) as [Hrange Eamt].
  destruct (sendAndConfirm [OwnerWithdraw z] (world s)) as [[sig | e] w'] eqn:Hsend;
    cbn [fst snd]; [| intros E; discriminate E].
  intros _. exists raw, z, sig, w'. repeat split; try assumption; lia.
Qed.

Lemma num_two53 : num two53 = Fin (inject_Z two53).
Proof. vm_compute. reflexivity. Qed.

(** X11.  Whole-SOL amounts are converted exactly: for an input that reads
    as the integer [k], with [k * 10^9] below [2^53], the lamport amount is
    [k * 10^9] and that is the amount handed to the program. *)
Theorem withdraw_whole_sol_exact (raw : string) (k : Z) :
  ToNumber raw = num k ->
  0 < k -> k * 1000000000 < two53 ->
  Withdraw.amountLamports ToNumber raw = num (k * 1000000000)
  /\ Withdraw.BN_ofNumber (Withdraw.amountLamports ToNumber raw)
     = Ok (k * 1000000000).
Proof.
  intros Eraw Hk Hb. unfold Withdraw.amountLamports, Withdraw.LAMPORTS_PER_SOL.
  rewrite Eraw.
  rewrite (num_exact k) by (unfold two53 in *; lia).
  rewrite (num_exact 1000000000) by (unfold two53; lia).
  rewrite mul_exact by lia.
  rewrite (num_exact (k * 1000000000)) by lia.
  cbn [floor]. rewrite Qfloor_Z. split; [reflexivity |].
  rewrite BN_ofNumber_integer by lia.
  destruct (Z.ltb_spec (k * 1000000000) two53); [reflexivity | lia].
Qed.

(** X12.  Amounts from [2^53] lamports on are refused by the big-number
    constructor: the amount passes the script's own check, yet the run ends
    with status 1 and nothing is sent. *)
Theorem withdraw_beyond_safe_range_aborts (RPC_URL : option string)
    (raw : string) (s : State) :
  Withdraw.falsy RPC_URL = false ->
  raw <> ""%string ->
  le (num two53) (Withdraw.amountLamports ToNumber raw) = true ->
  (isNaN (Withdraw.amountLamports ToNumber raw)
   || le (Withdraw.amountLamports ToNumber raw) (num 0)) = false
  /\ Withdraw.run ToNumber RPC_URL (Some raw) s = (1, s).
Proof.
  intros Hrpc Hraw Hbig.
  unfold Withdraw.run, exit, Withdraw.script. rewrite Hrpc.
  apply String.eqb_neq in Hraw. rewrite Hraw.
  rewrite num_two53 in Hbig. unfold Withdraw.amountLamports in *.
  destruct (floor_cases (mul (ToNumber raw) Withdraw.LAMPORTS_PER_SOL))
    as [E | [[sg E] | [k E]]]; rewrite E in *.
  - discriminate Hbig.
  - cbn [le] in Hbig. destruct sg; [discriminate Hbig |].
    split; [reflexivity |].
    cbn [isNaN orb le]. rewrite num_zero. cbn [le].
    unfold Withdraw.main, bind, local, lift, send, ret, throw.
    destruct (loadProgram (world s)) as [[] | e]; reflexivity.
  - cbn [le] in Hbig. apply Qle_bool_iff in Hbig.
    unfold Qle in Hbig; cbn [Qnum Qden inject_Z] in Hbig.
    assert (Hk : two53 <= k) by lia.
    assert (Hpos : (isNaN (Fin (inject_Z k)) || le (Fin (inject_Z k)) (num 0))
                   = false).
    { cbn [isNaN orb]. rewrite num_zero. cbn [le].
      destruct (Qle_bool (inject_Z k) 0) eqn:E0; [| reflexivity].
      apply Qle_bool_iff in E0. unfold Qle in E0; cbn [Qnum Qden inject_Z] in E0.
      unfold two53 in Hk. lia. }
    split; [exact Hpos |]. rewrite Hpos.
    unfold Withdraw.main, bind, local, lift, send, ret, throw.
    rewrite BN_ofNumber_integer by (unfold two53 in Hk; lia).
    destruct (Z.ltb_spec k two53); [lia |].
    destruct (loadProgram (world s)) as [[] | e]; reflexivity.
Qed.

End WithdrawMore.

Section MoreExamples.
Local Open Scope string_scope.

Lemma mock_pays_fake_recipients_only_witness :
  exists hs,
    [DistributeRewards
       [ {| address := "f1"; balance := 1 |}; {| address := "f2"; balance := 2 |} ]
       ["f1"; "f2"]]
    = [DistributeRewards hs (firstn 20 ["f1"; "f2"])]
    /\ map address hs = firstn 20 ["f1"; "f2"]
    /\ map balance hs = map N.of_nat (seq 1 (Nat.min 20 2))
    /\ ["f1"; "f2"] <> []
    /\ forallb (isPublicKey (Substrate := Demo.substrate)) (firstn 20 ["f1"; "f2"])
       = true.
Proof.
  apply (mock_pays_fake_recipients_only (H := Demo.substrate) (num 0)
           ["f1"; "f2"] Demo.busy).
  vm_compute. do 3 right. left. reflexivity.
Defined.

Lemma withdraw_success_is_confirmed_witness :
  exists raw z sig w',
    Some "1.5" = Some raw
    /\ Withdraw.falsy (Some "rpc") = false
    /\ Withdraw.amountLamports Demo.toNumber raw = Fin (inject_Z z)
    /\ 0 < z < two53
    /\ sendAndConfirm (Substrate := Demo.substrate) [OwnerWithdraw z] Demo.busy
       = (Ok sig, w')
    /\ snd (Withdraw.run (H := Demo.substrate) Demo.toNumber (Some "rpc")
              (Some "1.5") (start (H := Demo.substrate) Demo.busy))
       = @Build_State Demo.substrate w' ([] ++ [Send [OwnerWithdraw z]]).
Proof.
  apply (withdraw_success_is_confirmed (H := Demo.substrate) Demo.toNumber
           (Some "rpc") (Some "1.5") (start (H := Demo.substrate) Demo.busy)).
  vm_compute. reflexivity.
Defined.

Lemma withdraw_whole_sol_exact_witness :
  Withdraw.amountLamports (fun _ => num 3) "3" = num (3 * 1000000000)
  /\ Withdraw.BN_ofNumber (Withdraw.amountLamports (fun _ => num 3) "3")
     = Ok (3 * 1000000000).
Proof.
  apply (withdraw_whole_sol_exact (fun _ => num 3) "3" 3).
  - reflexivity.
  - lia.
  - vm_compute. reflexivity.
Defined.

Lemma withdraw_beyond_safe_range_aborts_witness :
  (isNaN (Withdraw.amountLamports (fun _ => num 10000000) "10000000")
   || le (Withdraw.amountLamports (fun _ => num 10000000) "10000000") (num 0))
  = false
  /\ Withdraw.run (H := Demo.substrate) (fun _ => num 10000000) (Some "rpc")
       (Some "10000000") (start (H := Demo.substrate) Demo.busy)
     = (1, start (H := Demo.substrate) Demo.busy).
Proof.
  apply (withdraw_beyond_safe_range_aborts (H := Demo.substrate)
           (fun _ => num 10000000) (Some "rpc") "10000000"
           (start (H := Demo.substrate) Demo.busy)).
  - reflexivity.
  - discriminate.
  - vm_compute. reflexivity.
Defined.

End MoreExamples.

(** ** The holder refresh of the demo applications *)

(** The subtraction agrees with the kernel's binary64 subtraction. *)
Example kernel_sub_rounds :
  sub (ofPrim 0x1.999999999999ap-4%float) (ofPrim 0x1.3333333333333p-2%float)
  = ofPrim (0x1.999999999999ap-4 - 0x1.3333333333333p-2)%float
  /\ sub (num 9007199254740992) (ofPrim 0x1.8p-1%float)
     = ofPrim (9007199254740992 - 0x1.8p-1)%float
  /\ sub (ofPrim 0x1.fffffffffffffp1023%float)
         (ofPrim (-0x1.fffffffffffffp1023)%float)
     = ofPrim (0x1.fffffffffffffp1023 - (-0x1.fffffffffffffp1023))%float.
Proof. vm_compute. repeat split. Qed.

Lemma num_exact_neg (z : Z) : z < 0 -> - z < two53 -> num z = Fin (inject_Z z).
Proof.
  intros Hz Hb. unfold num, round. rewrite Qred_inject_Z. simpl Qnum.
  destruct z as [| p | p]; [lia | lia |].
  simpl Qden.
  rewrite (Qred_complete _ _ (round_pos_int (Zpos p) ltac:(lia) ltac:(lia))),
    Qred_inject_Z.
  rewrite overflow_below_floor by (rewrite Qfloor_Z; lia).
  f_equal. change (- inject_Z (Z.pos p))%Q with (inject_Z (Z.neg p)).
  apply Qred_inject_Z.
Qed.

(** On non-negative safe integers the comparator's sign is that of the
    exact difference. *)
Lemma comparison_sub_safe (a b : Z) :
  0 <= a < two53 -> 0 <= b < two53 ->
  comparison (sub (num b) (num a)) = Z.sgn (b - a).
Proof.
  intros Ha Hb. rewrite (num_exact a), (num_exact b) by lia.
  cbn [sub]. rewrite (round_Qeq _ (inject_Z (b - a))).
  2: { unfold Qeq, Qminus. simpl. lia. }
  change (round (inject_Z (b - a))) with (num (b - a)).
  destruct (Z_lt_le_dec (b - a) 0) as [Hn | Hn].
  - rewrite num_exact_neg by lia. reflexivity.
  - rewrite num_exact by lia. reflexivity.
Qed.

Lemma le_safe (a b : Z) :
  0 <= a < two53 -> 0 <= b < two53 ->
  le (num a) (num b) = true <-> a <= b.
Proof.
  intros Ha Hb. rewrite (num_exact a), (num_exact b) by lia. cbn [le].
  rewrite Qle_bool_iff. unfold Qle. cbn [inject_Z Qnum Qden]. lia.
Qed.

Section NumberSort.
Context {A : Type} (bal : A -> Number).

Lemma ranked_trans (x y z : A) :
  (safeBalance bal) x -> (safeBalance bal) y -> (safeBalance bal) z ->
  (ranked bal) x y -> (ranked bal) y z -> (ranked bal) x z.
Proof.
  unfold ranked. intros (a & Ha & ->) (b & Hb & ->) (c & Hc & ->).
  rewrite !le_safe by assumption. lia.
Qed.

Lemma insert_ranked (x : A) (l : list A) :
  (safeBalance bal) x -> Forall (safeBalance bal) l ->
  StronglySorted (ranked bal) l ->
  StronglySorted (ranked bal)
    (insert (fun a b => comparison (sub (bal b) (bal a))) x l).
Proof.
  intros Hx Hl Hs. induction Hs as [| y l Hs IH Hy]; cbn [insert].
  - repeat constructor.
  - inversion Hl as [| ? ? Hsy Hsl]; subst.
    destruct Hx as (a & Ha & Ea). destruct Hsy as (b & Hb & Eb).
    rewrite Ea, Eb, comparison_sub_safe by assumption.
    destruct (Z.ltb_spec 0 (Z.sgn (b - a))) as [Hc | Hc].
    + constructor.
      * apply IH. assumption.
      * apply (Permutation_Forall (Permutation_sym (insert_perm _ x l))).
        constructor; [| assumption].
        unfold ranked. rewrite Ea, Eb. apply le_safe; [assumption .. |]. lia.
    + assert (Hxy : (ranked bal) x y).
      { unfold ranked. rewrite Ea, Eb. apply le_safe; [assumption .. |]. lia. }
      constructor; [now constructor |].
      constructor; [exact Hxy |].
      rewrite Forall_forall in Hy, Hsl |- *. intros z Hz.
      apply (ranked_trans x y z); auto.
      * now exists a.
      * now exists b.
Qed.

Lemma sort_safe (l : list A) :
  Forall (safeBalance bal) l ->
  Forall (safeBalance bal) (sort (fun a b => comparison (sub (bal b) (bal a))) l).
Proof.
  intros Hl. apply (Permutation_Forall (Permutation_sym (sort_perm _ l))), Hl.
Qed.

Lemma sort_ranked (l : list A) :
  Forall (safeBalance bal) l ->
  StronglySorted (ranked bal) (sort (fun a b => comparison (sub (bal b) (bal a))) l).
Proof.
  induction 1 as [| x l Hx Hl IH]; cbn [sort fold_right]; [constructor |].
  apply insert_ranked; [assumption | now apply sort_safe | exact IH].
Qed.

(** A list that is (ranked bal) already is left as it is, ties included. *)
Lemma sort_of_ranked (l : list A) :
  Forall (safeBalance bal) l -> StronglySorted (ranked bal) l ->
  sort (fun a b => comparison (sub (bal b) (bal a))) l = l.
Proof.
  intros Hl Hs. induction Hs as [| x l Hs IH Hx]; [reflexivity |].
  inversion Hl as [| ? ? Hsx Hsl]; subst.
  cbn [sort fold_right]. fold (sort (fun a b => comparison (sub (bal b) (bal a))) l).
  rewrite (IH Hsl).
  destruct l as [| y l]; [reflexivity |].
  cbn [insert].
  inversion Hx as [| ? ? Hxy _]; subst.
  inversion Hsl as [| ? ? Hsy _]; subst.
  destruct Hsx as (a & Ha & Ea). destruct Hsy as (b & Hb & Eb).
  unfold ranked in Hxy. rewrite Ea, Eb in Hxy |- *.
  rewrite comparison_sub_safe by assumption.
  apply le_safe in Hxy; [| assumption ..].
  destruct (Z.ltb_spec 0 (Z.sgn (b - a))); [lia | reflexivity].
Qed.

(** What [sort(...).slice(0, n)] gives on safe balances. *)
Lemma top_of_sorted (n : nat) (l : list A) :
  Forall (safeBalance bal) l ->
  let after := sort (fun a b => comparison (sub (bal b) (bal a))) l in
  let top := firstn n after in
  Permutation after l
  /\ StronglySorted (ranked bal) after
  /\ List.length top = Nat.min n (List.length l)
  /\ (forall t r, In t top -> In r (skipn n after) -> (ranked bal) t r)
  /\ (StronglySorted (ranked bal) l -> after = l).
Proof.
  intros Hl after top.
  pose proof (sort_perm (fun a b => comparison (sub (bal b) (bal a))) l) as Hp.
  pose proof (sort_ranked l Hl) as Hs.
  split; [exact Hp | split; [exact Hs | split; [| split]]].
  - unfold top. rewrite length_firstn.
    unfold after. now rewrite (Permutation_length Hp).
  - intros t r Ht Hr.
    apply (StronglySorted_cross (ranked bal) (firstn n after) (skipn n after));
      [| assumption | assumption].
    rewrite firstn_skipn. exact Hs.
  - intros Hr. now apply sort_of_ranked.
Qed.

End NumberSort.

(** X13.  [updateTopHolders] of the equal-split demo, on holders whose
    balances are non-negative integers below [2^53]: the caller's array is
    reordered, never changed in content, into non-increasing balances; the
    result is its first twenty entries (all of them when there are fewer),
    so no holder left out has more than a holder returned; and an array
    that is ranked already keeps its order, ties included. *)
Theorem updateTopHolders_top20 (holders : list AppIndex.Holder) :
  Forall (fun h => exists z, 0 <= z < two53 /\ AppIndex.balance h = num z)
         holders ->
  let top := fst (AppIndexHolders.updateTopHolders holders) in
  let after := snd (AppIndexHolders.updateTopHolders holders) in
  Permutation after holders
  /\ StronglySorted
       (fun x y => le (AppIndex.balance y) (AppIndex.balance x) = true) after
  /\ top = firstn 20 after
  /\ List.length top = Nat.min 20 (List.length holders)
  /\ (forall t r, In t top -> In r (skipn 20 after) ->
                  le (AppIndex.balance r) (AppIndex.balance t) = true)
  /\ (StronglySorted
        (fun x y => le (AppIndex.balance y) (AppIndex.balance x) = true) holders ->
      after = holders).
Proof.
  intros Hsafe.
  destruct (top_of_sorted AppIndex.balance 20 holders Hsafe)
    as (Hp & Hs & Hl & Hd & Hr).
  cbv zeta. cbn [AppIndexHolders.updateTopHolders fst snd].
  repeat (split; [first [assumption | reflexivity] |]). assumption.
Qed.

(** X14.  [updateTopHolders] of the proportional demo, on holders whose
    balances are non-negative integers below [2^53]: the caller's array is
    reordered, never changed in content, into non-increasing balances; the
    result is its first ten entries (all of them when there are fewer), so
    no holder left out has more than a holder returned; and an array that
    is ranked already keeps its order, ties included. *)
Theorem updateTopHolders_top10 (holders : list DemoApp.Holder) :
  Forall (fun h => exists z, 0 <= z < two53 /\ DemoApp.balance h = num z)
         holders ->
  let top := fst (DemoAppHolders.updateTopHolders holders) in
  let after := snd (DemoAppHolders.updateTopHolders holders) in
  Permutation after holders
  /\ StronglySorted
       (fun x y => le (DemoApp.balance y) (DemoApp.balance x) = true) after
  /\ top = firstn 10 after
  /\ List.length top = Nat.min 10 (List.length holders)
  /\ (forall t r, In t top -> In r (skipn 10 after) ->
                  le (DemoApp.balance r) (DemoApp.balance t) = true)
  /\ (StronglySorted
        (fun x y => le (DemoApp.balance y) (DemoApp.balance x) = true) holders ->
      after = holders).
Proof.
  intros Hsafe.
  destruct (top_of_sorted DemoApp.balance 10 holders Hsafe)
    as (Hp & Hs & Hl & Hd & Hr).
  cbv zeta. cbn [DemoAppHolders.updateTopHolders fst snd].
  repeat (split; [first [assumption | reflexivity] |]). assumption.
Qed.

Section RefreshExamples.
Local Open Scope string_scope.

Lemma updateTopHolders_top20_witness :
  let holders := [AppIndex.holder "a" 5; AppIndex.holder "b" 9; AppIndex.holder "c" 5] in
  let top := fst (AppIndexHolders.updateTopHolders holders) in
  let after := snd (AppIndexHolders.updateTopHolders holders) in
  Permutation after holders
  /\ StronglySorted
       (fun x y => le (AppIndex.balance y) (AppIndex.balance x) = true) after
  /\ top = firstn 20 after
  /\ List.length top = Nat.min 20 (List.length holders)
  /\ (forall t r, In t top -> In r (skipn 20 after) ->
                  le (AppIndex.balance r) (AppIndex.balance t) = true)
  /\ (StronglySorted
        (fun x y => le (AppIndex.balance y) (AppIndex.balance x) = true) holders ->
      after = holders).
Proof.
  apply (updateTopHolders_top20
           [AppIndex.holder "a" 5; AppIndex.holder "b" 9; AppIndex.holder "c" 5]).
  repeat constructor.
  - exists 5. split; [unfold two53; lia | reflexivity].
  - exists 9. split; [unfold two53; lia | reflexivity].
  - exists 5. split; [unfold two53; lia | reflexivity].
Defined.

Lemma updateTopHolders_top10_witness :
  let holders := DemoApp.holders [("a", 5); ("b", 9); ("c", 5)] in
  let top := fst (DemoAppHolders.updateTopHolders holders) in
  let after := snd (DemoAppHolders.updateTopHolders holders) in
  Permutation after holders
  /\ StronglySorted
       (fun x y => le (DemoApp.balance y) (DemoApp.balance x) = true) after
  /\ top = firstn 10 after
  /\ List.length top = Nat.min 10 (List.length holders)
  /\ (forall t r, In t top -> In r (skipn 10 after) ->
                  le (DemoApp.balance r) (DemoApp.balance t) = true)
  /\ (StronglySorted
        (fun x y => le (DemoApp.balance y) (DemoApp.balance x) = true) holders ->
      after = holders).
Proof.
  apply (updateTopHolders_top10 (DemoApp.holders [("a", 5); ("b", 9); ("c", 5)])).
  repeat constructor.
  - exists 5. split; [unfold two53; lia | reflexivity].
  - exists 9. split; [unfold two53; lia | reflexivity].
  - exists 5. split; [unfold two53; lia | reflexivity].
Defined.

(** The tie between ["a"] and ["c"] keeps its order behind ["b"]. *)
Example updateTopHolders_tie :
  map AppIndex.address
    (fst (AppIndexHolders.updateTopHolders
            [AppIndex.holder "a" 5; AppIndex.holder "b" 9; AppIndex.holder "c" 5]))
  = ["b"; "a"; "c"].
Proof. vm_compute. reflexivity. Qed.

End RefreshExamples.

(** ** Sweeping the holder wallets (src/unnamed/part_003) *)

Ltac unfold_script :=
  unfold Script.bind, Script.tryCatch, Script.local, Script.query,
    Script.submit, Script.log, Script.ret, Script.throw;
  cbn [Script.chain Script.events fst snd].

Section SweepClaims.
Import HolderSweep.
Context `{Cluster}.

Lemma sentAmounts_app (l1 l2 : list Event) :
  sentAmounts (l1 ++ l2) = sentAmounts l1 ++ sentAmounts l2.
Proof.
  induction l1 as [| e l1 IH]; [reflexivity |].
  destruct e; cbn [app sentAmounts]; rewrite IH; reflexivity.
Qed.

Lemma BigInt_integer (x : Number) :
  (exists z, BigInt x = Ok z) <-> isInteger x = true.
Proof.
  destruct x as [| sg | q]; cbn [BigInt isInteger].
  - split; [intros [z E]; discriminate | discriminate].
  - split; [intros [z E]; discriminate | discriminate].
  - destruct (Qeq_bool q (inject_Z (Qfloor q))).
    + split; [reflexivity | intros _; now eexists].
    + split; [intros [z E]; discriminate | discriminate].
Qed.

(** A transfer instruction is built exactly for the amounts that are
    integers, and it carries what it was given. *)
Lemma transfer_built (sender recipient : PublicKey) (amount : Number)
    (t : Transfer) :
  transfer sender recipient amount = Ok t
  <-> (isInteger amount = true
       /\ t = {| fromPubkey := sender; toPubkey := recipient;
                 lamports := amount |}).
Proof.
  unfold transfer. destruct (BigInt amount) as [z | e] eqn:E.
  - assert (Hi : isInteger amount = true) by (apply BigInt_integer; now exists z).
    split; [intros [= <-]; now split | intros [_ ->]; reflexivity].
  - split; [discriminate |]. intros [Hi _].
    apply BigInt_integer in Hi. destruct Hi as [z Hz]. congruence.
Qed.

(** One turn of the loop, whatever the cluster answers: either the turn
    goes all the way and the amount is reported and counted, or it does
    not and nothing is reported or counted. *)
Lemma turn_exact (vault : PublicKey) (fee total : Number) (file : string)
    (s : Script.State) :
  (exists t signature w',
      confirmedTransfer vault fee (Script.chain s) file t signature w'
      /\ turn vault fee total file s
         = (Ok (add total (lamports t)),
            {| Script.chain := w';
               Script.events :=
                 Script.events s
                   ++ [ GetBalance (fromPubkey t); GetLatestBlockhash;
                        SendTransaction t; ConfirmTransaction signature;
                        Sent (lamports t) signature ] |}))
  \/ ((forall t signature w',
          ~ confirmedTransfer vault fee (Script.chain s) file t signature w')
      /\ exists new w',
           turn vault fee total file s
           = (Ok total,
              {| Script.chain := w'; Script.events := Script.events s ++ new |})
           /\ sentAmounts new = []
           /\ (forall t, In (SendTransaction t) new ->
                 exists keypair balance,
                   loadKeypair (Script.chain s) file = Ok keypair
                   /\ getBalance (Script.chain s) keypair = Ok balance
                   /\ le (num (Z.of_N balance)) fee = false
                   /\ transfer keypair vault (sub (num (Z.of_N balance)) fee)
                      = Ok t)).
Proof.
  unfold turn, sweep. unfold_script. unfold Script.lift.
  destruct (loadKeypair (Script.chain s) file) as [key | e] eqn:Hk;
    cbn [Script.chain Script.events fst snd].
  2: { right. split.
       - intros t g w' (k & b & h & w1 & r & E & _). congruence.
       - exists [TransferFailed e], (Script.chain s).
         split; [reflexivity | split; [reflexivity |]].
         intros t [E | []]; discriminate. }
  destruct (getBalance (Script.chain s) key) as [b | e] eqn:Hb;
    cbn [Script.chain Script.events fst snd].
  2: { right. split.
       - intros t g w' (k & b & h & w1 & r & E1 & E2 & _). congruence.
       - exists [GetBalance key; TransferFailed e], (Script.chain s).
         rewrite <- app_assoc.
         split; [reflexivity | split; [reflexivity |]].
         intros t [E | [E | []]]; discriminate. }
  destruct (le (num (Z.of_N b)) fee) eqn:Hle;
    cbn [Script.chain Script.events fst snd].
  { right. split.
    - intros t g w' (k & b' & h & w1 & r & E1 & E2 & E3 & _). congruence.
    - exists [GetBalance key; Skipping], (Script.chain s).
      rewrite <- app_assoc.
      split; [reflexivity | split; [reflexivity |]].
      intros t [E | [E | []]]; discriminate. }
  destruct (getLatestBlockhash (Script.chain s)) as [blockhash | e] eqn:Hh;
    cbn [Script.chain Script.events fst snd].
  2: { right. split.
       - intros t g w' (k & b' & h & w1 & r & E1 & E2 & E3 & E4 & _). congruence.
       - exists [GetBalance key; GetLatestBlockhash; TransferFailed e],
           (Script.chain s).
         rewrite <- !app_assoc.
         split; [reflexivity | split; [reflexivity |]].
         intros t [E | [E | [E | []]]]; discriminate. }
  destruct (transfer key vault (sub (num (Z.of_N b)) fee)) as [tx | e] eqn:Htx;
    cbn [Script.chain Script.events fst snd].
  2: { right. split.
       - intros t g w' (k & b' & h & w1 & r & E1 & E2 & E3 & E4 & E5 & _).
         congruence.
       - exists [GetBalance key; GetLatestBlockhash; TransferFailed e],
           (Script.chain s).
         rewrite <- !app_assoc.
         split; [reflexivity | split; [reflexivity |]].
         intros t [E | [E | [E | []]]]; discriminate. }
  assert (Hsent : forall t, SendTransaction tx = SendTransaction t ->
             exists keypair balance,
               Ok key = Ok keypair
               /\ getBalance (Script.chain s) keypair = Ok balance
               /\ le (num (Z.of_N balance)) fee = false
               /\ transfer keypair vault (sub (num (Z.of_N balance)) fee) = Ok t).
  { intros t [= <-]. exists key, b. repeat split; assumption. }
  pose proof (proj1 (transfer_built _ _ _ _) Htx) as [_ Etx].
  destruct (sendTransaction tx (Script.chain s)) as [[sig | e] w1] eqn:Hs;
    cbn [Script.chain Script.events fst snd].
  2: { right. split.
       - intros t g w' (k & b' & h & w1' & r & E1 & E2 & E3 & E4 & E5 & E6 & _).
         congruence.
       - exists [GetBalance key; GetLatestBlockhash; SendTransaction tx;
                 TransferFailed e], w1.
         rewrite <- !app_assoc.
         split; [reflexivity | split; [reflexivity |]].
         intros t [E | [E | [E | [E | []]]]]; try discriminate.
         now apply Hsent. }
  destruct (confirmTransaction sig w1) as [[r | e] w2] eqn:Hc;
    cbn [Script.chain Script.events fst snd].
  - left. exists tx, sig, w2. split.
    + exists key, b, blockhash, w1, r. repeat split; assumption.
    + rewrite <- !app_assoc. rewrite Etx. reflexivity.
  - right. split.
    + intros t g w' (k & b' & h & w1' & r & E1 & E2 & E3 & E4 & E5 & E6 & E7).
      congruence.
    + exists [GetBalance key; GetLatestBlockhash; SendTransaction tx;
              ConfirmTransaction sig; TransferFailed e], w2.
      rewrite <- !app_assoc.
      split; [reflexivity | split; [reflexivity |]].
      intros t [E | [E | [E | [E | [E | []]]]]]; try discriminate.
      now apply Hsent.
Qed.

(** What one turn of the loop leaves behind. *)
Lemma turn_outcome (vault : PublicKey) (fee total : Number) (file : string)
    (s : Script.State) :
  exists new w',
    turn vault fee total file s
    = (Ok (fold_left add (sentAmounts new) total),
       {| Script.chain := w'; Script.events := Script.events s ++ new |})
    /\ (forall t, In (SendTransaction t) new ->
          toPubkey t = vault
          /\ isInteger (lamports t) = true
          /\ exists balance,
               loadKeypair (Script.chain s) file = Ok (fromPubkey t)
               /\ getBalance (Script.chain s) (fromPubkey t) = Ok balance
               /\ le (num (Z.of_N balance)) fee = false
               /\ lamports t = sub (num (Z.of_N balance)) fee)
    /\ (forall amount signature, In (Sent amount signature) new ->
          exists t,
            new = [ GetBalance (fromPubkey t); GetLatestBlockhash;
                    SendTransaction t; ConfirmTransaction signature;
                    Sent amount signature ]
            /\ lamports t = amount).
Proof.
  assert (Hbuilt : forall key b t,
             loadKeypair (Script.chain s) file = Ok key ->
             getBalance (Script.chain s) key = Ok b ->
             le (num (Z.of_N b)) fee = false ->
             transfer key vault (sub (num (Z.of_N b)) fee) = Ok t ->
             toPubkey t = vault
             /\ isInteger (lamports t) = true
             /\ exists balance,
                  loadKeypair (Script.chain s) file = Ok (fromPubkey t)
                  /\ getBalance (Script.chain s) (fromPubkey t) = Ok balance
                  /\ le (num (Z.of_N balance)) fee = false
                  /\ lamports t = sub (num (Z.of_N balance)) fee).
  { intros key b t Hk Hb Hle Ht.
    apply transfer_built in Ht. destruct Ht as [Hi ->].
    cbn [toPubkey fromPubkey lamports].
    split; [reflexivity | split; [exact Hi |]].
    exists b. repeat split; assumption. }
  destruct (turn_exact vault fee total file s)
    as [(t & sig & w' & Hconf & E) | (_ & new & w' & E & Hnone & Hsend)].
  - destruct Hconf as (key & b & hash & w1 & r & Hk & Hb & Hle & _ & Ht & _).
    pose proof (proj1 (transfer_built _ _ _ _) Ht) as [_ Et].
    assert (Ekey : fromPubkey t = key) by now rewrite Et.
    exists [ GetBalance (fromPubkey t); GetLatestBlockhash; SendTransaction t;
             ConfirmTransaction sig; Sent (lamports t) sig ], w'.
    split; [exact E | split].
    + intros t' [E' | [E' | [E' | [E' | [E' | []]]]]]; try discriminate.
      injection E' as <-. now apply (Hbuilt key b).
    + intros a g [E' | [E' | [E' | [E' | [E' | []]]]]]; try discriminate.
      injection E' as <- <-. exists t. split; reflexivity.
  - exists new, w'. rewrite Hnone. cbn [fold_left].
    split; [exact E | split].
    + intros t Hin. destruct (Hsend t Hin) as (key & b & Hk & Hb & Hle & Ht).
      now apply (Hbuilt key b).
    + intros a g Hin. exfalso.
      assert (Hin' : In a (sentAmounts new)).
      { clear - Hin. induction new as [| e new IH]; [destruct Hin |].
        destruct Hin as [-> | Hin]; [now left |].
        destruct e; cbn [sentAmounts]; try (now apply IH); right; now apply IH. }
      rewrite Hnone in Hin'. destruct Hin'.
Qed.

(** The whole loop. *)
Lemma turns_outcome (vault : PublicKey) (fee : Number) (files : list string) :
  forall (total : Number) (s : Script.State),
  exists body w',
    turns vault fee total files s
    = (Ok (fold_left add (sentAmounts body) total),
       {| Script.chain := w'; Script.events := Script.events s ++ body |})
    /\ (forall t, In (SendTransaction t) body ->
          toPubkey t = vault
          /\ isInteger (lamports t) = true
          /\ exists file w balance,
               In file files
               /\ loadKeypair w file = Ok (fromPubkey t)
               /\ getBalance w (fromPubkey t) = Ok balance
               /\ le (num (Z.of_N balance)) fee = false
               /\ lamports t = sub (num (Z.of_N balance)) fee)
    /\ (forall amount signature, In (Sent amount signature) body ->
          exists before t after,
            body = before
                     ++ [ GetBalance (fromPubkey t); GetLatestBlockhash;
                          SendTransaction t; ConfirmTransaction signature;
                          Sent amount signature ]
                     ++ after
            /\ lamports t = amount).
Proof.
  induction files as [| file files IH]; intros total s.
  - exists [], (Script.chain s). cbn [turns]. unfold Script.ret.
    rewrite app_nil_r. destruct s. split; [reflexivity | split].
    + intros t [].
    + intros a g [].
  - destruct (turn_outcome vault fee total file s) as (new & w1 & E1 & Hsend1 & Hsent1).
    destruct (IH (fold_left add (sentAmounts new) total)
                 {| Script.chain := w1; Script.events := Script.events s ++ new |})
      as (body & w2 & E2 & Hsend2 & Hsent2).
    exists (new ++ body), w2.
    cbn [turns]. unfold Script.bind at 1. rewrite E1, E2.
    cbn [Script.events]. rewrite sentAmounts_app, fold_left_app, app_assoc.
    split; [reflexivity | split].
    + intros t Hin. apply in_app_or in Hin. destruct Hin as [Hin | Hin].
      * destruct (Hsend1 t Hin) as (Hto & Hi & b & Hk & Hb & Hle & Hamt).
        split; [exact Hto | split; [exact Hi |]].
        exists file, (Script.chain s), b. repeat split; try assumption.
        now left.
      * destruct (Hsend2 t Hin) as (Hto & Hi & f & w & b & Hf & Hrest).
        split; [exact Hto | split; [exact Hi |]].
        exists f, w, b. split; [now right | exact Hrest].
    + intros a g Hin. apply in_app_or in Hin. destruct Hin as [Hin | Hin].
      * destruct (Hsent1 a g Hin) as (t & -> & Hamt).
        exists [], t, body. split; [| exact Hamt].
        cbn [app]. reflexivity.
      * destruct (Hsent2 a g Hin) as (before & t & after & -> & Hamt).
        exists (new ++ before), t, after. split; [| exact Hamt].
        now rewrite <- app_assoc.
Qed.

Lemma turns_app (vault : PublicKey) (fee : Number) (l1 l2 : list string) :
  forall (total : Number) (s : Script.State),
    turns vault fee total (l1 ++ l2) s
    = match turns vault fee total l1 s with
      | (Ok t, s1) => turns vault fee t l2 s1
      | (Threw e, s1) => (Threw e, s1)
      end.
Proof.
  induction l1 as [| file l1 IH]; intros total s; [reflexivity |].
  cbn [app turns]. unfold Script.bind.
  destruct (turn vault fee total file s) as [[t | e] s1]; [apply IH | reflexivity].
Qed.

Lemma falsy_false (v : option string) :
  Withdraw.falsy v = false <-> exists u, v = Some u /\ u <> ""%string.
Proof.
  destruct v as [u |]; cbn [Withdraw.falsy].
  - split.
    + intros E. exists u. split; [reflexivity |]. now apply String.eqb_neq.
    + intros (u' & [= <-] & Hne). now apply String.eqb_neq.
  - split; [discriminate | intros (u & E & _); discriminate].
Qed.

(** X15.  Once the script has its inputs and its connection, nothing the
    cluster or a keypair file does makes it fail: given the holder files
    the directory listing found, the exit status is 0 exactly when the RPC
    URL is set, starts with [http:] or [https:] and is accepted by
    [new Connection], there is a holder file, the fee buffer is a finite
    non-negative number and the vault address can be derived. *)
Theorem sweep_exit_status (url : option string) (files : list string)
    (fee : Number) (s : Script.State) :
  fst (run url files fee s) = 0
  <-> ((exists endpoint,
           url = Some endpoint
           /\ endpoint <> ""%string
           /\ (String.prefix "http:" endpoint || String.prefix "https:" endpoint)
              = true
           /\ connect endpoint = Ok tt)
       /\ files <> []
       /\ isFinite fee = true
       /\ lt fee (num 0) = false
       /\ exists vault, deriveVaultAddress (Script.chain s) = Ok vault).
Proof.
  unfold run, Script.exit, script.
  destruct (Withdraw.falsy url) eqn:Hurl.
  { unfold Script.throw. cbn [fst]. split; [discriminate |].
    intros ((u & E & Hne & _) & _).
    assert (Hf : Withdraw.falsy url = false) by (apply falsy_false; now exists u).
    congruence. }
  apply falsy_false in Hurl. destruct Hurl as (endpoint & -> & Hne).
  destruct files as [| file files].
  { cbn [List.length Nat.eqb]. unfold Script.throw. cbn [fst].
    split; [discriminate | intros (_ & E & _); contradiction]. }
  cbn [List.length Nat.eqb].
  destruct (isFinite fee).
  2: { cbn [negb orb]. unfold Script.throw. cbn [fst].
       split; [discriminate | intros (_ & _ & E & _); discriminate]. }
  destruct (lt fee (num 0)).
  { cbn [negb orb]. unfold Script.throw. cbn [fst].
    split; [discriminate | intros (_ & _ & _ & E & _); discriminate]. }
  cbn [negb orb]. unfold main, Script.bind, Script.local, Script.lift,
    Connection, assertEndpointUrl.
  destruct (deriveVaultAddress (Script.chain s)) as [vault | e]; cbv beta iota.
  2: { cbn [fst]. split; [discriminate |].
       intros (_ & _ & _ & _ & vault & E). discriminate. }
  destruct (String.prefix "http:" endpoint || String.prefix "https:" endpoint)
    eqn:Hscheme; cbv beta iota.
  2: { cbn [fst]. split; [discriminate |].
       intros ((u & [= <-] & _ & E & _) & _). congruence. }
  destruct (connect endpoint) as [[] | e] eqn:Hconnect; cbv beta iota.
  2: { cbn [fst]. split; [discriminate |].
       intros ((u & [= <-] & _ & _ & E) & _). congruence. }
  destruct (turns_outcome vault fee (file :: files) (num 0) s)
    as (body & w' & E & _).
  rewrite E. unfold Script.log. cbn [fst].
  split; [| reflexivity].
  intros _. split; [exists endpoint; repeat split; assumption |].
  repeat split; try discriminate. now exists vault.
Qed.

(** X16.  Every transfer the sweep sends goes to the vault, comes from the
    wallet of one of the holder files, and is that wallet's balance, as
    just read and found above the fee buffer, less the buffer, a whole
    number of lamports.  When the buffer and the balance are integers below
    [2^53] the amount is exactly [balance - buffer], a positive number: the
    wallet keeps the buffer. *)
Theorem sweep_transfers_leave_the_buffer (url : option string)
    (files : list string) (fee : Number) (s : Script.State) (t : Transfer) :
  In (SendTransaction t) (Script.events (snd (run url files fee s))) ->
  In (SendTransaction t) (Script.events s)
  \/ (deriveVaultAddress (Script.chain s) = Ok (toPubkey t)
      /\ isInteger (HolderSweep.lamports t) = true
      /\ exists file w lamports,
           In file files
           /\ loadKeypair w file = Ok (fromPubkey t)
           /\ getBalance w (fromPubkey t) = Ok lamports
           /\ le (num (Z.of_N lamports)) fee = false
           /\ HolderSweep.lamports t = sub (num (Z.of_N lamports)) fee
           /\ forall f, fee = num f -> 0 <= f < two53 ->
                        Z.of_N lamports < two53 ->
                        f < Z.of_N lamports
                        /\ HolderSweep.lamports t = num (Z.of_N lamports - f)).
Proof.
  unfold run, Script.exit, script.
  destruct (Withdraw.falsy url); [now left |].
  destruct (List.length files =? 0)%nat; [now left |].
  destruct (negb (isFinite fee) || lt fee (num 0)); [now left |].
  destruct url as [endpoint |]; [| now left].
  unfold main, Script.bind, Script.local, Script.lift.
  destruct (deriveVaultAddress (Script.chain s)) as [vault | e]; [| now left].
  destruct (Connection endpoint) as [[] | e]; [| now left].
  destruct (turns_outcome vault fee files (num 0) s)
    as (body & w' & E & Hsend & _).
  rewrite E. unfold Script.log.
  cbn [fst snd Script.events Script.chain].
  intros Hin. apply in_app_or in Hin. destruct Hin as [Hin | [Hin | []]];
    [| discriminate].
  apply in_app_or in Hin. destruct Hin as [Hin | Hin]; [now left | right].
  destruct (Hsend t Hin) as (Hto & Hi & file & w & b & Hf & Hk & Hb & Hle & Hamt).
  split; [now rewrite Hto | split; [exact Hi |]].
  exists file, w, b. repeat split; try assumption.
  - subst fee. destruct (Z.lt_ge_cases f (Z.of_N b)) as [Hlt | Hge]; [exact Hlt |].
    exfalso. assert (Hle' : le (num (Z.of_N b)) (num f) = true)
      by (apply le_safe; lia).
    rewrite Hle' in Hle. discriminate.
  - subst fee. rewrite Hamt.
    assert (Hlt : f < Z.of_N b).
    { destruct (Z.lt_ge_cases f (Z.of_N b)) as [Hlt | Hge]; [exact Hlt |].
      exfalso. assert (Hle' : le (num (Z.of_N b)) (num f) = true)
        by (apply le_safe; lia).
      rewrite Hle' in Hle. discriminate. }
    rewrite (num_exact (Z.of_N b)), (num_exact f) by lia.
    cbn [sub]. rewrite (round_Qeq _ (inject_Z (Z.of_N b - f))).
    + reflexivity.
    + unfold Qeq, Qminus. simpl. lia.
Qed.

(** X17.  The total the sweep prints counts the confirmed transfers and
    nothing else.  The run goes through the holder files in order; the
    total printed at the end is the sum, in order, of the amounts reported
    as sent, each report standing right behind its transfer and its
    confirmation request.  At each file, from the state the run has
    reached: when the turn goes all the way (keypair, balance above the
    buffer, blockhash, a whole amount, a transfer sent and its confirmation
    request answered), the amount is reported and added to the total; when
    it does not, in particular when the transfer could not be sent or the
    confirmation request failed, nothing is reported and the total stays
    as it was. *)
Theorem sweep_total_counts_confirmed_transfers (url : string)
    (files : list string) (fee : Number) (s : Script.State)
    (vault : PublicKey) :
  deriveVaultAddress (Script.chain s) = Ok vault ->
  Connection url = Ok tt ->
  exists totalSent final body,
    turns vault fee (num 0) files s = (Ok totalSent, final)
    /\ main url files fee s
       = (Ok tt,
          {| Script.chain := Script.chain final;
             Script.events := Script.events final ++ [TotalSent totalSent] |})
    /\ Script.events final = Script.events s ++ body
    /\ totalSent = fold_left add (sentAmounts body) (num 0)
    /\ (forall amount signature, In (Sent amount signature) body ->
          exists before t after,
            body = before
                     ++ [ GetBalance (fromPubkey t); GetLatestBlockhash;
                          SendTransaction t; ConfirmTransaction signature;
                          Sent amount signature ]
                     ++ after
            /\ HolderSweep.lamports t = amount)
    /\ (forall pre file post, files = pre ++ file :: post ->
          exists total st total' st',
            turns vault fee (num 0) pre s = (Ok total, st)
            /\ turns vault fee (num 0) (pre ++ [file]) s = (Ok total', st')
            /\ turns vault fee (num 0) files s = turns vault fee total' post st'
            /\ ((exists t signature,
                    confirmedTransfer vault fee (Script.chain st) file t
                                      signature (Script.chain st')
                    /\ total' = add total (HolderSweep.lamports t)
                    /\ Script.events st'
                       = Script.events st
                           ++ [ GetBalance (fromPubkey t); GetLatestBlockhash;
                                SendTransaction t; ConfirmTransaction signature;
                                Sent (HolderSweep.lamports t) signature ])
                \/ ((forall t signature w',
                        ~ confirmedTransfer vault fee (Script.chain st) file t
                                            signature w')
                    /\ total' = total
                    /\ exists new,
                         Script.events st' = Script.events st ++ new
                         /\ sentAmounts new = []))).
Proof.
  intros Hvault Hconn.
  destruct (turns_outcome vault fee files (num 0) s)
    as (body & w' & E & _ & Hsent).
  exists (fold_left add (sentAmounts body) (num 0)),
         {| Script.chain := w'; Script.events := Script.events s ++ body |}, body.
  split; [exact E | split; [| split; [reflexivity | split; [reflexivity |]]]].
  { unfold main, Script.bind, Script.local, Script.lift.
    rewrite Hvault, Hconn, E. reflexivity. }
  split; [exact Hsent |].
  intros pre file post ->.
  destruct (turns_outcome vault fee pre (num 0) s) as (body1 & w1 & E1 & _).
  set (total := fold_left add (sentAmounts body1) (num 0)) in *.
  set (st := {| Script.chain := w1; Script.events := Script.events s ++ body1 |})
    in *.
  assert (Estep : turns vault fee (num 0) (pre ++ [file]) s
                  = match turn vault fee total file st with
                    | (Ok t, s1) => (Ok t, s1)
                    | (Threw e, s1) => (Threw e, s1)
                    end).
  { rewrite turns_app, E1. cbn [turns]. unfold Script.bind, Script.ret.
    destruct (turn vault fee total file st) as [[t | e] s1]; reflexivity. }
  assert (Erest : forall total' st',
             turn vault fee total file st = (Ok total', st') ->
             turns vault fee (num 0) (pre ++ file :: post) s
             = turns vault fee total' post st').
  { intros total' st' Et. rewrite turns_app, E1. cbn [turns].
    unfold Script.bind at 1. now rewrite Et. }
  destruct (turn_exact vault fee total file st)
    as [(t & sig & w2 & Hconf & Et) | (Hnone & new & w2 & Et & Hquiet & _)].
  - exists total, st, (add total (lamports t)),
      {| Script.chain := w2;
         Script.events :=
           Script.events st
             ++ [ GetBalance (fromPubkey t); GetLatestBlockhash;
                  SendTransaction t; ConfirmTransaction sig;
                  Sent (lamports t) sig ] |}.
    split; [exact E1 | split; [now rewrite Estep, Et | split]].
    + now apply Erest.
    + left. exists t, sig. repeat split. exact Hconf.
  - exists total, st, total,
      {| Script.chain := w2; Script.events := Script.events st ++ new |}.
    split; [exact E1 | split; [now rewrite Estep, Et | split]].
    + now apply Erest.
    + right. split; [exact Hnone | split; [reflexivity |]].
      now exists new.
Qed.

(** X18.  A transfer counts as soon as its confirmation request returns,
    whatever it returns: the result of [confirmTransaction] is not looked
    at, so a transaction that failed on the ledger is reported as sent and
    added to the total like one that went through. *)
Theorem sweep_counts_whatever_is_confirmed (vault : PublicKey)
    (fee total : Number) (file : string) (s : Script.State)
    (key : PublicKey) (balance : N) (blockhash : string)
    (signature : Signature) (w1 w2 : World) (result : SignatureResult) :
  let amount := sub (num (Z.of_N balance)) fee in
  let transaction :=
    {| fromPubkey := key; toPubkey := vault; lamports := amount |} in
  loadKeypair (Script.chain s) file = Ok key ->
  getBalance (Script.chain s) key = Ok balance ->
  le (num (Z.of_N balance)) fee = false ->
  getLatestBlockhash (Script.chain s) = Ok blockhash ->
  isInteger amount = true ->
  sendTransaction transaction (Script.chain s) = (Ok signature, w1) ->
  confirmTransaction signature w1 = (Ok result, w2) ->
  turn vault fee total file s
  = (Ok (add total amount),
     {| Script.chain := w2;
        Script.events :=
          Script.events s
            ++ [ GetBalance key; GetLatestBlockhash; SendTransaction transaction;
                 ConfirmTransaction signature; Sent amount signature ] |}).
Proof.
  intros amount transaction Hk Hb Hle Hh Hi Hs Hc.
  assert (Ht : transfer key vault amount = Ok transaction)
    by (apply transfer_built; now split).
  unfold turn, sweep. unfold_script. unfold Script.lift.
  rewrite Hk. cbn [Script.chain Script.events fst snd].
  rewrite Hb. cbn [Script.chain Script.events fst snd].
  rewrite Hle. cbn [Script.chain Script.events fst snd].
  rewrite Hh. cbn [Script.chain Script.events fst snd].
  fold amount. rewrite Ht. cbn [Script.chain Script.events fst snd].
  rewrite Hs. cbn [Script.chain Script.events fst snd].
  rewrite Hc. cbn [Script.chain Script.events fst snd].
  now rewrite <- !app_assoc.
Qed.

End SweepClaims.

Section SweepExamples.
Import HolderSweep.
Local Open Scope string_scope.

Lemma sweep_transfers_leave_the_buffer_witness :
  let t := {| fromPubkey := "holder1.json"; toPubkey := "vault";
              lamports := num 75000 |} in
  deriveVaultAddress (Cluster := SweepDemo.cluster) SweepDemo.wallets
  = Ok (toPubkey t)
  /\ isInteger (HolderSweep.lamports t) = true
  /\ exists file w lamports,
       In file ["holder1.json"; "holder2.json"; "broken.json"; "holder3.json"]
       /\ loadKeypair (Cluster := SweepDemo.cluster) w file = Ok (fromPubkey t)
       /\ getBalance (Cluster := SweepDemo.cluster) w (fromPubkey t) = Ok lamports
       /\ le (num (Z.of_N lamports)) (num 5000) = false
       /\ HolderSweep.lamports t = sub (num (Z.of_N lamports)) (num 5000)
       /\ forall f, num 5000 = num f -> 0 <= f < two53 ->
                    Z.of_N lamports < two53 ->
                    f < Z.of_N lamports
                    /\ HolderSweep.lamports t = num (Z.of_N lamports - f).
Proof.
  intros t.
  destruct (sweep_transfers_leave_the_buffer (H := SweepDemo.cluster)
              (Some "https://api.devnet.solana.com")
              ["holder1.json"; "holder2.json"; "broken.json"; "holder3.json"]
              (num 5000) (Script.begin SweepDemo.wallets) t) as [Hin | Hr].
  - vm_compute. do 2 right. left. reflexivity.
  - destruct Hin.
  - exact Hr.
Defined.

Lemma sweep_total_counts_confirmed_transfers_witness :
  exists totalSent final,
    turns (H := SweepDemo.cluster) "vault" (num 5000) (num 0)
          ["holder1.json"; "holder2.json"; "broken.json"; "holder3.json"]
          (Script.begin SweepDemo.wallets)
    = (Ok totalSent, final)
    /\ main (H := SweepDemo.cluster) "https://api.devnet.solana.com"
            ["holder1.json"; "holder2.json"; "broken.json"; "holder3.json"]
            (num 5000) (Script.begin SweepDemo.wallets)
       = (Ok tt,
          {| Script.chain := Script.chain final;
             Script.events := (Script.events final ++ [TotalSent totalSent])%list |}).
Proof.
  destruct (sweep_total_counts_confirmed_transfers (H := SweepDemo.cluster)
              "https://api.devnet.solana.com"
              ["holder1.json"; "holder2.json"; "broken.json"; "holder3.json"]
              (num 5000) (Script.begin SweepDemo.wallets) "vault"
              eq_refl eq_refl)
    as (totalSent & final & body & E1 & E2 & _).
  exists totalSent, final. split; [exact E1 | exact E2].
Defined.

Lemma sweep_counts_whatever_is_confirmed_witness :
  turn (H := SweepDemo.cluster) "vault" (num 5000) (num 0) "holder1.json"
       (Script.begin SweepDemo.failing)
  = (Ok (add (num 0) (sub (num 80000) (num 5000))),
     {| Script.chain := SweepDemo.failing;
        Script.events :=
          ([] ++ [ GetBalance "holder1.json"; GetLatestBlockhash;
                   SendTransaction
                     {| fromPubkey := "holder1.json"; toPubkey := "vault";
                        lamports := sub (num 80000) (num 5000) |};
                   ConfirmTransaction "signature";
                   Sent (sub (num 80000) (num 5000)) "signature" ])%list |}).
Proof.
  apply (sweep_counts_whatever_is_confirmed (H := SweepDemo.cluster)
           "vault" (num 5000) (num 0) "holder1.json"
           (Script.begin SweepDemo.failing) "holder1.json" 80000 "blockhash"
           "signature" SweepDemo.failing SweepDemo.failing
           {| err := Some "custom program error" |}).
  - reflexivity.
  - reflexivity.
  - vm_compute. reflexivity.
  - reflexivity.
  - vm_compute. reflexivity.
  - reflexivity.
  - reflexivity.
Defined.

(** A whole run: one wallet swept, one at the buffer skipped, one unreadable
    keypair reported, one more wallet swept; the total is their sum. *)
Example sweep_run :
  run (H := SweepDemo.cluster) (Some "https://api.devnet.solana.com")
      ["holder1.json"; "holder2.json"; "broken.json"; "holder3.json"]
      (num 5000) (Script.begin SweepDemo.wallets)
  = (0,
     {| Script.chain :=
          {| SweepDemo.balances :=
               [ ("holder3.json", 0%N); ("vault", 82000%N);
                 ("holder1.json", 0%N); ("vault", 75000%N);
                 ("holder1.json", 80000%N); ("holder2.json", 5000%N);
                 ("holder3.json", 12000%N) ];
             SweepDemo.rejecting := false |};
        Script.events :=
          [ GetBalance "holder1.json"; GetLatestBlockhash;
            SendTransaction {| fromPubkey := "holder1.json"; toPubkey := "vault";
                               lamports := num 75000 |};
            ConfirmTransaction "signature"; Sent (num 75000) "signature";
            GetBalance "holder2.json"; Skipping;
            TransferFailed (Error "Unexpected end of JSON input");
            GetBalance "holder3.json"; GetLatestBlockhash;
            SendTransaction {| fromPubkey := "holder3.json"; toPubkey := "vault";
                               lamports := num 7000 |};
            ConfirmTransaction "signature"; Sent (num 7000) "signature";
            TotalSent (num 82000) ] |}).
Proof. vm_compute. reflexivity. Qed.

(** An endpoint without a scheme is refused when the connection is made,
    outside the loop: the run ends with status 1 and no request. *)
Example sweep_refuses_an_endpoint_without_scheme :
  run (H := SweepDemo.cluster) (Some "localhost:8899")
      ["holder1.json"] (num 5000) (Script.begin SweepDemo.wallets)
  = (1, Script.begin SweepDemo.wallets).
Proof. vm_compute. reflexivity. Qed.

(** A fee buffer of half a lamport leaves an amount that is not a whole
    number: the transfer is not built, nothing is sent, and the failure is
    reported. *)
Example sweep_does_not_send_a_fraction :
  run (H := SweepDemo.cluster) (Some "https://api.devnet.solana.com")
      ["holder1.json"] (div (num 1) (num 2)) (Script.begin SweepDemo.wallets)
  = (0,
     {| Script.chain := SweepDemo.wallets;
        Script.events :=
          [ GetBalance "holder1.json"; GetLatestBlockhash;
            TransferFailed
              (Error "The number cannot be converted to a BigInt because it is not an integer");
            TotalSent (num 0) ] |}).
Proof. vm_compute. reflexivity. Qed.

(** [??] passes over unset variables only: an empty [SOLANA_RPC_URL] is
    kept, and the script stops although a devnet URL is set. *)
Example empty_rpc_url_is_not_replaced :
  run (H := SweepDemo.cluster)
      (rpcUrl (Some "") (Some "https://api.devnet.solana.com") None)
      ["holder1.json"] (num 5000) (Script.begin SweepDemo.wallets)
  = (1, Script.begin SweepDemo.wallets).
Proof. reflexivity. Qed.

End SweepExamples.

(** ** The distribution demo script (src/unnamed/part_001) *)

(** The comparisons agree with the kernel's binary64 comparisons. *)
Example kernel_comparisons :
  map (fun xy => strictEq (ofPrim (fst xy)) (ofPrim (snd xy)))
      [(0, 0); (1, 0x1.8p-1); (infinity, infinity); (nan, nan);
       (neg_infinity, infinity)]%float
  = map (fun xy => PrimFloat.eqb (fst xy) (snd xy))
        [(0, 0); (1, 0x1.8p-1); (infinity, infinity); (nan, nan);
         (neg_infinity, infinity)]%float
  /\ map (fun xy => ge (ofPrim (fst xy)) (ofPrim (snd xy)))
         [(0, 0); (1, 0x1.8p-1); (0x1.8p-1, 1); (nan, 1); (1, nan);
          (infinity, 1); (neg_infinity, 1)]%float
     = map (fun xy => PrimFloat.leb (snd xy) (fst xy))
           [(0, 0); (1, 0x1.8p-1); (0x1.8p-1, 1); (nan, 1); (1, nan);
            (infinity, 1); (neg_infinity, 1)]%float.
Proof. vm_compute. split; reflexivity. Qed.

Example includes_substring :
  includes "Account does not exist or has no data 5XdQ" "Account does not exist"
  = true
  /\ includes "Error: Account does not exist" "Account does not exist" = true
  /\ includes "failed to get info about account" "Account does not exist" = false
  /\ includes "" "Account does not exist" = false.
Proof. vm_compute. repeat split. Qed.

Lemma num_exact_abs (z : Z) : - two53 < z < two53 -> num z = Fin (inject_Z z).
Proof.
  intros Hz. destruct (Z_lt_le_dec z 0).
  - apply num_exact_neg; lia.
  - apply num_exact; lia.
Qed.

Lemma lt_safe (a b : Z) :
  - two53 < a < two53 -> - two53 < b < two53 ->
  lt (num a) (num b) = true <-> a < b.
Proof.
  intros Ha Hb. rewrite (num_exact_abs a), (num_exact_abs b) by lia. cbn [lt].
  rewrite negb_true_iff.
  destruct (Qle_bool (inject_Z b) (inject_Z a)) eqn:E.
  - apply Qle_bool_iff in E. unfold Qle in E. cbn [inject_Z Qnum Qden] in E.
    split; [discriminate | lia].
  - split; [intros _ | reflexivity].
    destruct (Z_lt_le_dec a b) as [Hlt | Hge]; [exact Hlt |]. exfalso.
    assert (E' : Qle_bool (inject_Z b) (inject_Z a) = true)
      by (apply Qle_bool_iff; unfold Qle; cbn [inject_Z Qnum Qden]; lia).
    rewrite E' in E. discriminate.
Qed.

Lemma sub_exact (a b : Z) :
  - two53 < a - b < two53 ->
  sub (Fin (inject_Z a)) (Fin (inject_Z b)) = Fin (inject_Z (a - b)).
Proof.
  intros Hab. cbn [sub].
  rewrite (round_Qeq _ (inject_Z (a - b))) by (unfold Qeq, Qminus; simpl; lia).
  now apply num_exact_abs.
Qed.

(** [new BN(z)] for an integer below [2^53] in magnitude. *)
Lemma BN_ofNumber_exact (z : Z) :
  - two53 < z < two53 -> Withdraw.BN_ofNumber (Fin (inject_Z z)) = Ok z.
Proof.
  intros Hz. unfold Withdraw.BN_ofNumber.
  assert (E : Qfloor (Qabs (inject_Z z)) = Z.abs z).
  { unfold Qabs, inject_Z. cbn [Qnum Qden]. unfold Qfloor. apply Z.div_1_r. }
  rewrite E. unfold sign, inject_Z. cbn [Qnum].
  destruct (Z.ltb_spec (Z.abs z) two53); [| lia].
  destruct (Z.ltb_spec z 0); f_equal; lia.
Qed.

Section DemoScript.
Import DistributionDemo.
Context `{Devnet}.

Lemma buildHolderInfosFrom_spec (fakeHolders : list PublicKey) :
  forall index : nat,
    Z.of_nat (index + List.length fakeHolders) <= 2 ^ 32 ->
    exists infos,
      buildHolderInfosFrom index fakeHolders = Ok infos
      /\ map address infos = fakeHolders
      /\ map balance infos
         = map (fun i => 1000 - 50 * Z.of_nat i)
               (seq index (List.length fakeHolders)).
Proof.
  induction fakeHolders as [| kp rest IH]; intros index Hb.
  - exists []. repeat split.
  - cbn [List.length] in Hb.
    destruct (IH (S index)) as (infos & E & Ha & Hbal); [lia |].
    exists ({| address := kp; balance := 1000 - 50 * Z.of_nat index |} :: infos).
    cbn [buildHolderInfosFrom].
    assert (Hi : 0 <= Z.of_nat index < 2 ^ 32) by lia.
    assert (H53 : two53 = 2 ^ 32 * 2 ^ 21) by (unfold two53; reflexivity).
    assert (Hp : 0 < 2 ^ 32) by reflexivity.
    rewrite (num_exact (Z.of_nat index)), (num_exact 50), (num_exact 1000)
      by (try (unfold two53); lia).
    rewrite mul_exact by nia.
    rewrite sub_exact by nia.
    rewrite BN_ofNumber_exact by nia.
    rewrite E. split; [| split].
    + replace (Z.of_nat index * 50) with (50 * Z.of_nat index) by lia.
      reflexivity.
    + cbn [map address]. now rewrite Ha.
    + cbn [map balance List.length seq]. now rewrite Hbal.
Qed.

(** X19.  [buildHolderInfos] keeps the holders in order and gives the
    holder at index [i] the balance [1000 - 50 * i]: the balances fall
    strictly, and they are all positive exactly when there are at most
    twenty holders; the twenty-first gets 0 and later ones a negative
    balance. *)
Theorem buildHolderInfos_balances (fakeHolders : list PublicKey) :
  Z.of_nat (List.length fakeHolders) <= 2 ^ 32 ->
  exists infos,
    buildHolderInfos fakeHolders = Ok infos
    /\ map address infos = fakeHolders
    /\ map balance infos
       = map (fun i => 1000 - 50 * Z.of_nat i)
             (seq 0 (List.length fakeHolders))
    /\ (Forall (fun h => 0 < balance h) infos
        <-> (List.length fakeHolders <= 20)%nat).
Proof.
  intros Hb.
  destruct (buildHolderInfosFrom_spec fakeHolders 0 Hb) as (infos & E & Ha & Hbal).
  exists infos. repeat split; try assumption.
  - intros Hpos.
    destruct (Nat.le_gt_cases (List.length fakeHolders) 20) as [Hle | Hgt];
      [exact Hle | exfalso].
    assert (Hin : In (1000 - 50 * Z.of_nat 20) (map balance infos)).
    { rewrite Hbal. apply in_map with (f := fun i => 1000 - 50 * Z.of_nat i).
      apply in_seq. lia. }
    apply in_map_iff in Hin. destruct Hin as (h & Eh & Hh).
    rewrite Forall_forall in Hpos. specialize (Hpos h Hh). lia.
  - intros Hle. rewrite Forall_forall. intros h Hh.
    assert (Hin : In (balance h) (map balance infos)) by now apply in_map.
    rewrite Hbal in Hin. apply in_map_iff in Hin.
    destruct Hin as (i & <- & Hi). apply in_seq in Hi. lia.
Qed.

Lemma sent_app (l1 l2 : list Event) : sent (l1 ++ l2) = sent l1 ++ sent l2.
Proof.
  induction l1 as [| e l1 IH]; [reflexivity |].
  destruct e; cbn [app sent]; rewrite IH; reflexivity.
Qed.

Lemma buildHolderInfosFrom_addresses (fakeHolders : list PublicKey) :
  forall index infos,
    buildHolderInfosFrom index fakeHolders = Ok infos ->
    map address infos = fakeHolders.
Proof.
  induction fakeHolders as [| kp rest IH]; intros index infos.
  - intros [= <-]. reflexivity.
  - cbn [buildHolderInfosFrom].
    destruct (Withdraw.BN_ofNumber _) as [b | e]; [| discriminate].
    destruct (buildHolderInfosFrom (S index) rest) as [infos' | e] eqn:E;
      [| discriminate].
    intros [= <-]. cbn [map address]. now rewrite (IH _ _ E).
Qed.

(** X20.  [ensurePool] creates the pool only when it is missing: it sends
    at most one transaction, an [initializePool] for the given owner, and
    only after the fetch failed with a message that contains "Account does
    not exist"; any other failure of the fetch is passed on with nothing
    sent, and an account it returns is one a fetch returned. *)
Theorem ensurePool_initializes_only_a_missing_pool
    (poolPDA vaultPDA ownerPubkey : PublicKey) (s : Script.State) :
  exists new,
    Script.events (snd (ensurePool poolPDA vaultPDA ownerPubkey s))
    = Script.events s ++ new
    /\ (sent new = [] \/ sent new = [InitializePool ownerPubkey])
    /\ (sent new <> [] ->
        exists m, fetchPool (Script.chain s) poolPDA = Threw (Error m)
                  /\ includes m "Account does not exist" = true)
    /\ (forall e, fetchPool (Script.chain s) poolPDA = Threw e ->
                  includes (message e) "Account does not exist" = false ->
                  ensurePool poolPDA vaultPDA ownerPubkey s
                  = (Threw e,
                     {| Script.chain := Script.chain s;
                        Script.events := Script.events s ++ [FetchPool poolPDA] |}))
    /\ (forall account,
          fst (ensurePool poolPDA vaultPDA ownerPubkey s) = Ok account ->
          exists w, fetchPool w poolPDA = Ok account).
Proof.
  unfold ensurePool, fetch, send. unfold_script.
  destruct (fetchPool (Script.chain s) poolPDA) as [account | e] eqn:Hf;
    cbn [Script.chain Script.events fst snd].
  { exists [FetchPool poolPDA].
    split; [reflexivity | split; [now left | split; [| split]]].
    - intros Hne. now contradiction Hne.
    - discriminate.
    - intros a [= <-]. now exists (Script.chain s). }
  destruct e as [m]. cbn [message].
  destruct (includes m "Account does not exist") eqn:Hm;
    cbn [negb Script.chain Script.events fst snd].
  2: { exists [FetchPool poolPDA].
       split; [reflexivity | split; [now left | split; [| split]]].
       - intros Hne. now contradiction Hne.
       - intros e [= <-]. reflexivity.
       - discriminate. }
  destruct (rpc (InitializePool ownerPubkey) (Script.chain s)) as [[sig | e] w1];
    cbn [Script.chain Script.events fst snd].
  - exists [FetchPool poolPDA; Send (InitializePool ownerPubkey); FetchPool poolPDA].
    rewrite <- !app_assoc.
    split; [reflexivity | split; [now right | split; [| split]]].
    + intros _. now exists m.
    + intros e [= <-]. cbn [message]. rewrite Hm. discriminate.
    + intros a Ha. now exists w1.
  - exists [FetchPool poolPDA; Send (InitializePool ownerPubkey)].
    rewrite <- !app_assoc.
    split; [reflexivity | split; [now right | split; [| split]]].
    + intros _. now exists m.
    + intros e' [= <-]. cbn [message]. rewrite Hm. discriminate.
    + discriminate.
Qed.

Lemma top_up_amount (required : Number) (target : Z) (current : N) :
  required = num target -> 0 <= target < two53 -> Z.of_N current < two53 ->
  strictEq required (num 0) = false ->
  ge (num (Z.of_N current)) required = false ->
  (target =? 0) || (target <=? Z.of_N current) = false
  /\ sub required (num (Z.of_N current)) = num (target - Z.of_N current).
Proof.
  intros -> Ht Hc Hz Hge.
  assert (Hne : target <> 0).
  { intros ->. rewrite num_zero in Hz. cbn [strictEq] in Hz. discriminate Hz. }
  assert (Hlt : Z.of_N current < target).
  { destruct (Z_lt_le_dec (Z.of_N current) target) as [Hlt | Hle];
      [exact Hlt | exfalso].
    unfold ge in Hge.
    assert (E : le (num target) (num (Z.of_N current)) = true)
      by (apply le_safe; lia).
    rewrite E in Hge. discriminate. }
  split.
  - apply orb_false_iff. split; [apply Z.eqb_neq | apply Z.leb_gt]; lia.
  - rewrite (num_exact target), (num_exact (Z.of_N current)) by lia.
    rewrite sub_exact by lia.
    rewrite (num_exact (target - Z.of_N current)) by lia. reflexivity.
Qed.

Lemma isInteger_whole (z : Z) : isInteger (Fin (inject_Z z)) = true.
Proof.
  cbn [isInteger]. rewrite Qfloor_Z. apply Qeq_bool_iff. reflexivity.
Qed.

(** A difference that is an integer is a difference of two finite numbers;
    when the subtrahend is not at least the minuend, it is below it. *)
Lemma integer_difference (x y : Number) :
  isInteger (sub x y) = true ->
  isFinite x = true
  /\ isFinite y = true
  /\ (ge y x = false -> lt y x = true).
Proof.
  destruct x as [| sx | a], y as [| sy | b]; cbn [sub isInteger];
    try discriminate.
  - destruct (Bool.eqb sx sy); discriminate.
  - intros _. split; [reflexivity | split; [reflexivity |]].
    unfold ge. cbn [le lt]. now intros ->.
Qed.

(** An instruction is built exactly for the amounts that are integers. *)
Lemma instruction_built (sender recipient : PublicKey) (amount : Number)
    (instruction : Instruction) :
  transfer sender recipient amount = Ok instruction
  <-> (isInteger amount = true
       /\ instruction = Transfer sender recipient amount).
Proof.
  unfold transfer. destruct (BigInt amount) as [z | e] eqn:E.
  - assert (Hi : isInteger amount = true) by (apply BigInt_integer; now exists z).
    split; [intros [= <-]; now split | intros [_ ->]; reflexivity].
  - split; [discriminate |]. intros [Hi _].
    apply BigInt_integer in Hi. destruct Hi as [z Hz]. congruence.
Qed.

Section Environment.
Context (SOLANA_RPC_URL PROGRAM_ID ANCHOR_WALLET : option string).
Context (HOLDER_COUNT HOLDER_FUND_SOL VAULT_TOP_UP_SOL : Number).

(** X21.  [seedVaultIfNeeded] sends at most one transaction, a transfer
    from the wallet to the vault of the target less the balance just read,
    a whole number of lamports, and only when the target is a number other
    than zero and the balance is below it; for a target that is not a
    finite number nothing is sent.  For a whole target and a balance below
    [2^53] the amount is exactly what is missing: nothing is sent to a
    vault that already holds the target. *)
Theorem seedVault_sends_what_is_missing (wallet vaultPDA : PublicKey)
    (s : Script.State) :
  let required := floor (mul VAULT_TOP_UP_SOL LAMPORTS_PER_SOL) in
  exists new,
    Script.events (snd (seedVaultIfNeeded VAULT_TOP_UP_SOL wallet vaultPDA s))
    = Script.events s ++ new
    /\ (sent new = []
        \/ exists current,
             getBalance (Script.chain s) vaultPDA = Ok current
             /\ sent new
                = [Transfer wallet vaultPDA (sub required (num (Z.of_N current)))]
             /\ strictEq required (num 0) = false
             /\ lt (num (Z.of_N current)) required = true
             /\ isInteger (sub required (num (Z.of_N current))) = true)
    /\ (isFinite required = false -> sent new = [])
    /\ (forall target current,
          required = num target -> 0 <= target < two53 ->
          getBalance (Script.chain s) vaultPDA = Ok current ->
          Z.of_N current < two53 ->
          sent new
          = if (target =? 0) || (target <=? Z.of_N current) then []
            else [Transfer wallet vaultPDA (num (target - Z.of_N current))]).
Proof.
  intros required. unfold seedVaultIfNeeded, send. unfold_script.
  unfold Script.lift. fold required.
  destruct (getBalance (Script.chain s) vaultPDA) as [current | e] eqn:Hb;
    cbn [Script.chain Script.events fst snd].
  2: { exists [GetBalance vaultPDA].
       split; [reflexivity | split; [now left | split; [reflexivity | discriminate]]]. }
  destruct (strictEq required (num 0)) eqn:Hz; cbn [orb].
  { cbn [Script.chain Script.events fst snd].
    exists [GetBalance vaultPDA].
    split; [reflexivity | split; [now left | split; [reflexivity |]]].
    intros target c Er Ht [= <-] Hc. cbn [sent].
    rewrite Er, num_zero, (num_exact target) in Hz by lia.
    cbn [strictEq] in Hz. apply Qeq_bool_iff in Hz.
    unfold Qeq in Hz. cbn [inject_Z Qnum Qden] in Hz.
    replace (target =? 0) with true by (symmetry; apply Z.eqb_eq; lia).
    reflexivity. }
  destruct (ge (num (Z.of_N current)) required) eqn:Hge;
    cbn [Script.chain Script.events fst snd].
  { exists [GetBalance vaultPDA].
    split; [reflexivity | split; [now left | split; [reflexivity |]]].
    intros target c Er Ht [= <-] Hc. cbn [sent].
    rewrite Er in Hge. unfold ge in Hge. apply le_safe in Hge; [| lia | lia].
    replace (target <=? Z.of_N current) with true
      by (symmetry; apply Z.leb_le; lia).
    now rewrite orb_true_r. }
  destruct (transfer wallet vaultPDA (sub required (num (Z.of_N current))))
    as [instruction | e] eqn:Hbuilt; cbn [Script.chain Script.events fst snd].
  2: { exists [GetBalance vaultPDA].
       split; [reflexivity | split; [now left | split; [reflexivity |]]].
       intros target c Er Ht [= <-] Hc. exfalso.
       destruct (top_up_amount required target current Er Ht Hc Hz Hge)
         as [_ Eamount].
       rewrite Eamount, (num_exact_abs (target - Z.of_N current)) in Hbuilt
         by lia.
       assert (Hok : transfer wallet vaultPDA
                       (Fin (inject_Z (target - Z.of_N current)))
                     = Ok (Transfer wallet vaultPDA
                             (Fin (inject_Z (target - Z.of_N current)))))
         by (apply instruction_built; split;
             [apply isInteger_whole | reflexivity]).
       congruence. }
  apply instruction_built in Hbuilt. destruct Hbuilt as [Hwhole ->].
  destruct (integer_difference _ _ Hwhole) as (Hfinite & _ & Hbelow).
  specialize (Hbelow Hge).
  destruct (rpc _ (Script.chain s)) as [[sig | e] w1];
    cbn [Script.chain Script.events fst snd];
    (exists [GetBalance vaultPDA;
             Send (Transfer wallet vaultPDA (sub required (num (Z.of_N current))))];
     rewrite <- app_assoc;
     split; [reflexivity | split; [| split]];
     [ right; exists current; repeat split; assumption
     | intros Hnot; rewrite Hfinite in Hnot; discriminate Hnot
     | intros target c Er Ht [= <-] Hc; cbn [sent];
       destruct (top_up_amount required target current Er Ht Hc Hz Hge)
         as [-> ->]; reflexivity ]).
Qed.

Lemma fundHolders_sent (wallet : PublicKey) (lamportsPerHolder : Number)
    (turns : nat) :
  forall (i : Number) (holders : list PublicKey) (s : Script.State)
         (r : outcome (list PublicKey)) (s' : Script.State),
    fundHolders HOLDER_COUNT turns wallet lamportsPerHolder i holders s
    = Some (r, s') ->
    exists new keys,
      Script.events s' = Script.events s ++ new
      /\ sent new = map (fun kp => Transfer wallet kp lamportsPerHolder) keys
      /\ (keys <> [] ->
          le lamportsPerHolder (num 0) = false
          /\ exists i', lt i' HOLDER_COUNT = true)
      /\ (forall hs, r = Ok hs -> hs = holders ++ keys).
Proof.
  induction turns as [| turns IH]; intros i holders s r s'.
  - cbn [fundHolders]. destruct (lt i HOLDER_COUNT); [discriminate |].
    unfold ended, Script.ret. intros [= <- <-].
    exists [], []. rewrite !app_nil_r.
    split; [reflexivity | split; [reflexivity | split]].
    + intros Hne. now contradiction Hne.
    + now intros hs [= <-].
  - cbn [fundHolders]. destruct (lt i HOLDER_COUNT) eqn:Hturn.
    2: { unfold ended, Script.ret. intros [= <- <-].
         exists [], []. rewrite !app_nil_r.
         split; [reflexivity | split; [reflexivity | split]].
         - intros Hne. now contradiction Hne.
         - now intros hs [= <-]. }
    assert (Hi : exists i', lt i' HOLDER_COUNT = true) by now exists i.
    unfold andThen, ended, fundAccount, send, Script.submit', Script.lift.
    unfold_script.
    destruct (generate (Script.chain s)) as [kp w1].
    cbn [Script.chain Script.events fst snd].
    destruct (le lamportsPerHolder (num 0)) eqn:Hle;
      cbn [Script.chain Script.events fst snd].
    { intros [= <- <-]. exists [], []. cbn [Script.events]. rewrite !app_nil_r.
      split; [reflexivity | split; [reflexivity | split]].
      - intros Hne. now contradiction Hne.
      - discriminate. }
    destruct (transfer wallet kp lamportsPerHolder) as [instruction | e]
      eqn:Hbuilt; cbn [Script.chain Script.events fst snd].
    2: { intros [= <- <-]. exists [], []. cbn [Script.events]. rewrite !app_nil_r.
         split; [reflexivity | split; [reflexivity | split]].
         - intros Hne. now contradiction Hne.
         - discriminate. }
    apply instruction_built in Hbuilt. destruct Hbuilt as [_ ->].
    destruct (rpc (Transfer wallet kp lamportsPerHolder) w1) as [[sig | e] w2];
      cbn [Script.chain Script.events fst snd].
    2: { intros [= <- <-].
         exists [Send (Transfer wallet kp lamportsPerHolder)], [kp].
         cbn [Script.events].
         split; [reflexivity | split; [reflexivity | split]].
         - intros _. split; [reflexivity | exact Hi].
         - discriminate. }
    destruct (getBalance w2 kp) as [b | e];
      cbn [Script.chain Script.events fst snd].
    2: { intros [= <- <-].
         exists [Send (Transfer wallet kp lamportsPerHolder); GetBalance kp], [kp].
         cbn [Script.events]. rewrite <- app_assoc.
         split; [reflexivity | split; [reflexivity | split]].
         - intros _. split; [reflexivity | exact Hi].
         - discriminate. }
    intros Hrun. apply IH in Hrun.
    destruct Hrun as (new & keys & Hev & Hsent & _ & Hres).
    cbn [Script.events] in Hev.
    exists ([Send (Transfer wallet kp lamportsPerHolder); GetBalance kp] ++ new),
           (kp :: keys).
    split; [| split; [| split]].
    + rewrite Hev, <- !app_assoc. reflexivity.
    + rewrite sent_app, Hsent. reflexivity.
    + intros _. split; [reflexivity | exact Hi].
    + intros hs Hr. rewrite (Hres hs Hr), <- app_assoc. reflexivity.
Qed.

(** What the funding loop leaves behind: the keys it paid, each generated
    in the world the one before left, paid by a confirmed transfer and its
    balance read; and, when the loop broke off after sending, the one more
    key it sent a transfer to. *)
Lemma fundHolders_funded (wallet : PublicKey) (lamportsPerHolder : Number)
    (turns : nat) :
  forall (i : Number) (holders : list PublicKey) (s : Script.State)
         (r : outcome (list PublicKey)) (s' : Script.State),
    fundHolders HOLDER_COUNT turns wallet lamportsPerHolder i holders s
    = Some (r, s') ->
    exists new paid w,
      Script.events s' = Script.events s ++ new
      /\ fundedFrom wallet lamportsPerHolder (Script.chain s) paid w
      /\ (sent new = map (fun kp => Transfer wallet kp lamportsPerHolder) paid
          \/ exists last w1,
               generate w = (last, w1)
               /\ sent new
                  = map (fun kp => Transfer wallet kp lamportsPerHolder)
                        (paid ++ [last]))
      /\ (sent new <> [] ->
          le lamportsPerHolder (num 0) = false
          /\ isInteger lamportsPerHolder = true)
      /\ (forall hs, r = Ok hs ->
            hs = holders ++ paid
            /\ w = Script.chain s'
            /\ new = flat_map
                       (fun kp => [Send (Transfer wallet kp lamportsPerHolder);
                                   GetBalance kp]) paid).
Proof.
  induction turns as [| turns IH]; intros i holders s r s'.
  - cbn [fundHolders]. destruct (lt i HOLDER_COUNT); [discriminate |].
    unfold ended, Script.ret. intros [= <- <-].
    exists [], [], (Script.chain s). rewrite !app_nil_r. cbn [fundedFrom sent map].
    split; [reflexivity | split; [reflexivity | split; [now left | split]]].
    + intros Hne. now contradiction Hne.
    + intros hs [= <-]. now repeat split.
  - cbn [fundHolders]. destruct (lt i HOLDER_COUNT) eqn:Hturn.
    2: { unfold ended, Script.ret. intros [= <- <-].
         exists [], [], (Script.chain s). rewrite !app_nil_r.
         cbn [fundedFrom sent map].
         split; [reflexivity | split; [reflexivity | split; [now left | split]]].
         - intros Hne. now contradiction Hne.
         - intros hs [= <-]. now repeat split. }
    unfold andThen, ended, fundAccount, send, Script.submit', Script.lift.
    unfold_script.
    destruct (generate (Script.chain s)) as [kp w1] eqn:Hkey.
    cbn [Script.chain Script.events fst snd].
    destruct (le lamportsPerHolder (num 0)) eqn:Hle;
      cbn [Script.chain Script.events fst snd].
    { intros [= <- <-]. exists [], [], (Script.chain s).
      cbn [Script.events fundedFrom sent map]. rewrite !app_nil_r.
      split; [reflexivity | split; [reflexivity | split; [now left | split]]].
      - intros Hne. now contradiction Hne.
      - discriminate. }
    destruct (transfer wallet kp lamportsPerHolder) as [instruction | e]
      eqn:Hbuilt; cbn [Script.chain Script.events fst snd].
    2: { intros [= <- <-]. exists [], [], (Script.chain s).
         cbn [Script.events fundedFrom sent map]. rewrite !app_nil_r.
         split; [reflexivity | split; [reflexivity | split; [now left | split]]].
         - intros Hne. now contradiction Hne.
         - discriminate. }
    apply instruction_built in Hbuilt. destruct Hbuilt as [Hwhole ->].
    destruct (rpc (Transfer wallet kp lamportsPerHolder) w1) as [[sig | e] w2]
      eqn:Hrpc; cbn [Script.chain Script.events fst snd].
    2: { intros [= <- <-].
         exists [Send (Transfer wallet kp lamportsPerHolder)], [], (Script.chain s).
         cbn [Script.events fundedFrom].
         split; [reflexivity | split; [reflexivity | split; [| split]]].
         - right. exists kp, w1. split; [exact Hkey | reflexivity].
         - intros _. now split.
         - discriminate. }
    destruct (getBalance w2 kp) as [b | e] eqn:Hread;
      cbn [Script.chain Script.events fst snd].
    2: { intros [= <- <-].
         exists [Send (Transfer wallet kp lamportsPerHolder); GetBalance kp], [],
                (Script.chain s).
         cbn [Script.events fundedFrom]. rewrite <- app_assoc.
         split; [reflexivity | split; [reflexivity | split; [| split]]].
         - right. exists kp, w1. split; [exact Hkey | reflexivity].
         - intros _. now split.
         - discriminate. }
    intros Hrun. apply IH in Hrun.
    destruct Hrun as (new & paid & w & Hev & Hpaid & Hsent & _ & Hres).
    cbn [Script.events Script.chain] in Hev, Hpaid.
    exists ([Send (Transfer wallet kp lamportsPerHolder); GetBalance kp] ++ new),
           (kp :: paid), w.
    split; [| split; [| split; [| split]]].
    + rewrite Hev, <- !app_assoc. reflexivity.
    + cbn [fundedFrom]. exists w1, sig, w2, b. now repeat split.
    + rewrite sent_app. cbn [sent app].
      destruct Hsent as [-> | (last & w3 & Hlast & ->)].
      * now left.
      * right. exists last, w3. split; [exact Hlast | reflexivity].
    + intros _. now split.
    + intros hs Hr. destruct (Hres hs Hr) as (-> & -> & ->).
      rewrite <- app_assoc. now repeat split.
Qed.

Lemma fundHolders_ends (wallet : PublicKey) (lamportsPerHolder : Number)
    (n : Z) :
  HOLDER_COUNT = num n -> - two53 < n < two53 ->
  forall (turns : nat) (k : Z) (holders : list PublicKey) (s : Script.State),
    0 <= k < two53 ->
    (Z.to_nat (n - k) <= turns)%nat ->
    exists r s',
      fundHolders HOLDER_COUNT turns wallet lamportsPerHolder (num k) holders s
      = Some (r, s')
      /\ (forall hs, r = Ok hs ->
                     List.length hs
                     = (List.length holders + Z.to_nat (n - k))%nat).
Proof.
  intros -> Hn. induction turns as [| turns IH]; intros k holders s Hk Hturns.
  - cbn [fundHolders].
    destruct (lt (num k) (num n)) eqn:Hlt.
    { apply lt_safe in Hlt; [| lia | lia]. lia. }
    unfold ended, Script.ret. do 2 eexists. split; [reflexivity |].
    intros hs [= <-]. lia.
  - cbn [fundHolders].
    destruct (lt (num k) (num n)) eqn:Hlt.
    2: { unfold ended, Script.ret. do 2 eexists. split; [reflexivity |].
         intros hs [= <-].
         assert (~ k < n).
         { intros Hc. apply (lt_safe k n) in Hc; [| lia | lia].
           rewrite Hc in Hlt. discriminate. }
         lia. }
    apply lt_safe in Hlt; [| lia | lia].
    unfold andThen, ended, fundAccount, send, Script.submit', Script.lift.
    unfold_script.
    destruct (generate (Script.chain s)) as [kp w1].
    cbn [Script.chain Script.events fst snd].
    destruct (le lamportsPerHolder (num 0));
      cbn [Script.chain Script.events fst snd].
    { do 2 eexists. split; [reflexivity | discriminate]. }
    destruct (transfer wallet kp lamportsPerHolder) as [instruction | e];
      cbn [Script.chain Script.events fst snd].
    2: { do 2 eexists. split; [reflexivity | discriminate]. }
    destruct (rpc instruction w1) as [[sig | e] w2];
      cbn [Script.chain Script.events fst snd].
    2: { do 2 eexists. split; [reflexivity | discriminate]. }
    destruct (getBalance w2 kp) as [b | e];
      cbn [Script.chain Script.events fst snd].
    2: { do 2 eexists. split; [reflexivity | discriminate]. }
    assert (Enext : add (num k) (num 1) = num (k + 1)).
    { assert (E53 : two53 = 9007199254740992) by reflexivity.
      rewrite (num_exact k), (num_exact 1), (num_exact (k + 1)) by lia.
      apply add_exact; lia. }
    rewrite Enext.
    match goal with
    | |- context [fundHolders _ turns _ _ _ ?hs ?st] =>
        destruct (IH (k + 1) hs st) as (r & s' & E & Hlen); [lia | lia |]
    end.
    exists r, s'. split; [exact E |].
    intros hs Hr. rewrite (Hlen hs Hr), length_app. cbn [List.length]. lia.
Qed.

(** X22.  [createFakeHolders] pays every new holder the same amount from
    the wallet.  Whenever it comes to an end, after reading the wallet's
    balance it has gone through a list of keys, one after the other: each
    was generated in the world the one before left, paid by a confirmed
    transfer of [Math.floor(HOLDER_FUND_SOL * 10^9)] lamports from the
    wallet, and its balance read.  The transactions sent are these
    transfers, one each and in order, and, when the script broke off after
    sending, one more to the key generated next.  A transfer is sent only
    for an amount that is a whole number above zero and that the balance
    read covers, by the script's own estimate.  The holders returned are
    exactly the keys paid, and then nothing else happened. *)
Theorem createFakeHolders_pays_each_holder (turns : nat) (wallet : PublicKey)
    (s : Script.State) (r : outcome (list PublicKey)) (s' : Script.State) :
  let lamportsPerHolder := floor (mul HOLDER_FUND_SOL LAMPORTS_PER_SOL) in
  let totalLamportsNeeded :=
    add (mul lamportsPerHolder HOLDER_COUNT) (mul HOLDER_COUNT (num 5000)) in
  createFakeHolders HOLDER_COUNT HOLDER_FUND_SOL turns wallet s = Some (r, s') ->
  exists new paid w,
    Script.events s' = Script.events s ++ GetBalance wallet :: new
    /\ fundedFrom wallet lamportsPerHolder (Script.chain s) paid w
    /\ (sent new = map (fun kp => Transfer wallet kp lamportsPerHolder) paid
        \/ exists last w1,
             generate w = (last, w1)
             /\ sent new
                = map (fun kp => Transfer wallet kp lamportsPerHolder)
                      (paid ++ [last]))
    /\ (sent new <> [] ->
        (exists z, lamportsPerHolder = Fin (inject_Z z) /\ 0 < z)
        /\ exists lamports,
             getBalance (Script.chain s) wallet = Ok lamports
             /\ lt (num (Z.of_N lamports)) totalLamportsNeeded = false)
    /\ (forall holders, r = Ok holders ->
          holders = paid
          /\ w = Script.chain s'
          /\ new = flat_map
                     (fun kp => [Send (Transfer wallet kp lamportsPerHolder);
                                 GetBalance kp]) holders).
Proof.
  intros lamportsPerHolder totalLamportsNeeded.
  unfold createFakeHolders, andThen, ended. unfold_script.
  fold lamportsPerHolder. fold totalLamportsNeeded.
  destruct (getBalance (Script.chain s) wallet) as [lamports | e].
  2: { intros [= <- <-]. exists [], [], (Script.chain s).
       cbn [Script.events fundedFrom sent map].
       split; [reflexivity | split; [reflexivity | split; [now left | split]]].
       - intros Hne. now contradiction Hne.
       - discriminate. }
  destruct (strictEq lamportsPerHolder (num 0)).
  { intros [= <- <-]. exists [], [], (Script.chain s).
    cbn [Script.events fundedFrom sent map].
    split; [reflexivity | split; [reflexivity | split; [now left | split]]].
    - intros Hne. now contradiction Hne.
    - discriminate. }
  destruct (lt (num (Z.of_N lamports)) totalLamportsNeeded) eqn:Hlt.
  { intros [= <- <-]. exists [], [], (Script.chain s).
    cbn [Script.events fundedFrom sent map].
    split; [reflexivity | split; [reflexivity | split; [now left | split]]].
    - intros Hne. now contradiction Hne.
    - discriminate. }
  intros Hrun. apply fundHolders_funded in Hrun.
  destruct Hrun as (new & paid & w & Hev & Hpaid & Hsent & Hpos & Hres).
  cbn [Script.events Script.chain] in Hev, Hpaid.
  exists new, paid, w.
  split; [| split; [exact Hpaid | split; [exact Hsent | split]]].
  - rewrite Hev, <- app_assoc. reflexivity.
  - intros Hne. destruct (Hpos Hne) as [Hle Hwhole]. split; [| now exists lamports].
    destruct (floor_cases (mul HOLDER_FUND_SOL LAMPORTS_PER_SOL))
      as [Hf | [[sg Hf] | [z Hf]]]; fold lamportsPerHolder in Hf;
      rewrite Hf in Hle, Hwhole; try discriminate Hwhole.
    exists z. split; [exact Hf |].
    rewrite num_zero in Hle. cbn [le] in Hle.
    destruct (Z_lt_le_dec 0 z) as [Hz | Hz]; [exact Hz | exfalso].
    assert (Hq : Qle_bool (inject_Z z) 0 = true)
      by (apply Qle_bool_iff; unfold Qle; cbn [inject_Z Qnum Qden]; lia).
    congruence.
  - intros holders Hr. destruct (Hres holders Hr) as (-> & -> & ->).
    now repeat split.
Qed.

Lemma createFakeHolders_enough_turns (turns : nat) (wallet : PublicKey)
    (s : Script.State) (n : Z) :
  HOLDER_COUNT = num n -> - two53 < n < two53 ->
  (Z.to_nat n <= turns)%nat ->
  exists r s',
    createFakeHolders HOLDER_COUNT HOLDER_FUND_SOL turns wallet s = Some (r, s')
    /\ (forall holders, r = Ok holders -> List.length holders = Z.to_nat n).
Proof.
  intros Hcount Hn Hturns.
  unfold createFakeHolders, andThen, ended. unfold_script.
  destruct (getBalance (Script.chain s) wallet) as [lamports | e].
  2: { do 2 eexists. split; [reflexivity | discriminate]. }
  destruct (strictEq _ (num 0)).
  { do 2 eexists. split; [reflexivity | discriminate]. }
  destruct (lt (num (Z.of_N lamports)) _).
  { do 2 eexists. split; [reflexivity | discriminate]. }
  match goal with
  | |- context [fundHolders _ turns wallet ?lph (num 0) [] ?st] =>
      destruct (fundHolders_ends wallet lph n Hcount Hn turns 0 [] st)
        as (r & s' & E & Hlen)
  end.
  - unfold two53. lia.
  - now rewrite Z.sub_0_r.
  - exists r, s'. split; [exact E |].
    intros holders Hr. rewrite (Hlen holders Hr), Z.sub_0_r. reflexivity.
Qed.

Lemma createFakeHolders_sent (turns : nat) (wallet : PublicKey)
    (s : Script.State) (r : outcome (list PublicKey)) (s' : Script.State) :
  createFakeHolders HOLDER_COUNT HOLDER_FUND_SOL turns wallet s = Some (r, s') ->
  exists new keys,
    Script.events s' = Script.events s ++ new
    /\ sent new
       = map (fun kp => Transfer wallet kp
                          (floor (mul HOLDER_FUND_SOL LAMPORTS_PER_SOL))) keys
    /\ (keys <> [] -> exists i, lt i HOLDER_COUNT = true)
    /\ (forall holders, r = Ok holders -> holders = keys).
Proof.
  unfold createFakeHolders, andThen, ended. unfold_script.
  destruct (getBalance (Script.chain s) wallet) as [lamports | e].
  2: { intros [= <- <-]. exists [GetBalance wallet], []. cbn [Script.events].
       split; [reflexivity | split; [reflexivity | split]].
       - intros Hne. now contradiction Hne.
       - discriminate. }
  destruct (strictEq _ (num 0)).
  { intros [= <- <-]. exists [GetBalance wallet], []. cbn [Script.events].
    split; [reflexivity | split; [reflexivity | split]].
    - intros Hne. now contradiction Hne.
    - discriminate. }
  destruct (lt (num (Z.of_N lamports)) _).
  { intros [= <- <-]. exists [GetBalance wallet], []. cbn [Script.events].
    split; [reflexivity | split; [reflexivity | split]].
    - intros Hne. now contradiction Hne.
    - discriminate. }
  intros Hrun. apply fundHolders_sent in Hrun.
  destruct Hrun as (new & keys & Hev & Hsent & Hpos & Hres).
  cbn [Script.events] in Hev.
  exists (GetBalance wallet :: new), keys.
  split; [| split; [exact Hsent | split]].
  - rewrite Hev, <- app_assoc. reflexivity.
  - intros Hne. now apply Hpos.
  - intros holders Hr. now rewrite (Hres holders Hr).
Qed.

Lemma loadIdl_pure (s : Script.State) : snd (loadIdl PROGRAM_ID s) = s.
Proof.
  unfold loadIdl. unfold_script.
  destruct (readIdl (Script.chain s)) as [parsed | e]; [| reflexivity].
  destruct (match PROGRAM_ID_OVERRIDE PROGRAM_ID with
            | Some id => Some id
            | None => parsed
            end) as [id |]; [| reflexivity].
  destruct (String.eqb id ""); reflexivity.
Qed.

Lemma resolveWalletPath_pure (s : Script.State) :
  snd (resolveWalletPath ANCHOR_WALLET s) = s.
Proof.
  unfold resolveWalletPath, Script.ret, Script.throw.
  destruct (Withdraw.falsy ANCHOR_WALLET); cbn [negb].
  - destruct (existsSync _ _); [reflexivity |].
    destruct (existsSync _ _); reflexivity.
  - destruct ANCHOR_WALLET; reflexivity.
Qed.

Lemma ensurePool_sent (poolPDA vaultPDA ownerPubkey : PublicKey)
    (s : Script.State) :
  exists new,
    Script.events (snd (ensurePool poolPDA vaultPDA ownerPubkey s))
    = Script.events s ++ new
    /\ (sent new = [] \/ sent new = [InitializePool ownerPubkey])
    /\ (forall account,
          fst (ensurePool poolPDA vaultPDA ownerPubkey s) = Ok account ->
          exists w, fetchPool w poolPDA = Ok account).
Proof.
  unfold ensurePool, fetch, send. unfold_script.
  destruct (fetchPool (Script.chain s) poolPDA) as [account | e] eqn:Hf;
    cbn [Script.chain Script.events fst snd].
  { exists [FetchPool poolPDA].
    split; [reflexivity | split; [now left |]].
    intros a [= <-]. now exists (Script.chain s). }
  destruct (includes (message e) "Account does not exist");
    cbn [negb Script.chain Script.events fst snd].
  2: { exists [FetchPool poolPDA].
       split; [reflexivity | split; [now left | discriminate]]. }
  destruct (rpc (InitializePool ownerPubkey) (Script.chain s)) as [[sig | e'] w1];
    cbn [Script.chain Script.events fst snd].
  - exists [FetchPool poolPDA; Send (InitializePool ownerPubkey); FetchPool poolPDA].
    rewrite <- !app_assoc.
    split; [reflexivity | split; [now right |]].
    intros a Ha. now exists w1.
  - exists [FetchPool poolPDA; Send (InitializePool ownerPubkey)].
    rewrite <- !app_assoc.
    split; [reflexivity | split; [now right | discriminate]].
Qed.

Lemma openPool_sent (s : Script.State) :
  exists new wallet,
    Script.events (snd (openPool SOLANA_RPC_URL PROGRAM_ID ANCHOR_WALLET s))
    = Script.events s ++ new
    /\ (sent new = [] \/ sent new = [InitializePool wallet])
    /\ (forall w p v,
          fst (openPool SOLANA_RPC_URL PROGRAM_ID ANCHOR_WALLET s) = Ok (w, p, v) ->
          w = wallet
          /\ exists account cluster,
               fetchPool cluster p = Ok account /\ owner account = wallet).
Proof.
  unfold openPool, Script.bind, Script.local, Script.lift, Script.throw,
    Script.ret.
  pose proof (loadIdl_pure s) as P1.
  destruct (loadIdl PROGRAM_ID s) as [[idl | e] s1]; cbn [snd] in P1; subst s1;
    cbv beta iota.
  2: { exists [], ""%string. cbn [fst snd]. rewrite app_nil_r.
       split; [reflexivity | split; [now left | discriminate]]. }
  destruct (Connection (DEFAULT_RPC SOLANA_RPC_URL)) as [[] | e]; cbv beta iota.
  2: { exists [], ""%string. cbn [fst snd]. rewrite app_nil_r.
       split; [reflexivity | split; [now left | discriminate]]. }
  pose proof (resolveWalletPath_pure s) as P2.
  destruct (resolveWalletPath ANCHOR_WALLET s) as [[walletPath | e] s1];
    cbn [snd] in P2; subst s1; cbv beta iota.
  2: { exists [], ""%string. cbn [fst snd]. rewrite app_nil_r.
       split; [reflexivity | split; [now left | discriminate]]. }
  destruct (loadKeypairFromFile (Script.chain s) walletPath) as [wallet | e];
    cbv beta iota.
  2: { exists [], ""%string. cbn [fst snd]. rewrite app_nil_r.
       split; [reflexivity | split; [now left | discriminate]]. }
  destruct (isPublicKey idl); cbn [negb]; cbv beta iota.
  2: { exists [], ""%string. cbn [fst snd]. rewrite app_nil_r.
       split; [reflexivity | split; [now left | discriminate]]. }
  destruct (newProgram (Script.chain s)) as [[] | e]; cbv beta iota.
  2: { exists [], ""%string. cbn [fst snd]. rewrite app_nil_r.
       split; [reflexivity | split; [now left | discriminate]]. }
  destruct (ensurePool_sent (findProgramAddress "pool" idl)
              (findProgramAddress "vault" idl) wallet s)
    as (new & Hev & Hsent & Hacc).
  destruct (ensurePool (findProgramAddress "pool" idl)
              (findProgramAddress "vault" idl) wallet s)
    as [[account | e] s1]; cbn [fst snd] in *; cbv beta iota.
  2: { exists new, wallet. cbn [fst snd].
       split; [exact Hev | split; [exact Hsent | discriminate]]. }
  destruct (String.eqb (owner account) wallet) eqn:Howner; cbn [negb];
    cbv beta iota; cbn [fst snd].
  - exists new, wallet.
    split; [exact Hev | split; [exact Hsent |]].
    intros w p v [= <- <- <-]. split; [reflexivity |].
    destruct (Hacc account eq_refl) as [cluster Hc].
    exists account, cluster. split; [exact Hc |].
    now apply String.eqb_eq.
  - exists new, wallet.
    split; [exact Hev | split; [exact Hsent | discriminate]].
Qed.

Lemma showBalances_sent (fakeHolders : list PublicKey) :
  forall s : Script.State,
  exists new,
    Script.events (snd (showBalances fakeHolders s)) = Script.events s ++ new
    /\ sent new = [].
Proof.
  induction fakeHolders as [| kp rest IH]; intros s.
  - exists []. cbn [showBalances]. unfold Script.ret. cbn [snd].
    now rewrite app_nil_r.
  - cbn [showBalances]. unfold_script.
    destruct (getBalance (Script.chain s) kp) as [b | e].
    + destruct (IH {| Script.chain := Script.chain s;
                      Script.events := Script.events s ++ [GetBalance kp] |})
        as (new & Hev & Hsent).
      exists (GetBalance kp :: new). rewrite Hev. cbn [Script.events].
      rewrite <- app_assoc. split; [reflexivity | exact Hsent].
    + exists [GetBalance kp]. cbn [snd Script.events]. now split.
Qed.

Lemma seedVault_sent (wallet vaultPDA : PublicKey) (s : Script.State) :
  exists new,
    Script.events (snd (seedVaultIfNeeded VAULT_TOP_UP_SOL wallet vaultPDA s))
    = Script.events s ++ new
    /\ (sent new = [] \/ exists amount, sent new = [Transfer wallet vaultPDA amount]).
Proof.
  unfold seedVaultIfNeeded, send. unfold_script.
  destruct (getBalance (Script.chain s) vaultPDA) as [current | e];
    cbn [Script.chain Script.events fst snd].
  2: { exists [GetBalance vaultPDA]. split; [reflexivity | now left]. }
  destruct (strictEq _ (num 0) || ge _ _);
    cbn [Script.chain Script.events fst snd].
  { exists [GetBalance vaultPDA]. split; [reflexivity | now left]. }
  unfold Script.lift.
  destruct (transfer wallet vaultPDA _) as [instruction | e] eqn:Hbuilt;
    cbn [Script.chain Script.events fst snd].
  2: { exists [GetBalance vaultPDA]. split; [reflexivity | now left]. }
  apply instruction_built in Hbuilt. destruct Hbuilt as [_ ->].
  destruct (rpc _ (Script.chain s)) as [[sig | e] w1];
    cbn [Script.chain Script.events fst snd];
    (eexists [GetBalance vaultPDA; Send (Transfer wallet vaultPDA _)];
     rewrite <- app_assoc; split; [reflexivity | right; eexists; reflexivity]).
Qed.

(** What the script has sent once the fake holders exist. *)
Lemma updateAndDistribute_sent (wallet poolPDA vaultPDA : PublicKey)
    (fakeHolders : list PublicKey) (s : Script.State) :
  exists new,
    Script.events
      (snd (updateAndDistribute VAULT_TOP_UP_SOL wallet poolPDA vaultPDA
              fakeHolders s))
    = Script.events s ++ new
    /\ (sent new = []
        \/ exists infos,
             buildHolderInfos fakeHolders = Ok infos
             /\ map address infos = fakeHolders
             /\ (sent new = [UpdateTopHolders infos]
                 \/ exists signature w' seed,
                      rpc (UpdateTopHolders infos) (Script.chain s)
                      = (Ok signature, w')
                      /\ (seed = []
                          \/ exists amount,
                               seed = [Transfer wallet vaultPDA amount])
                      /\ (sent new = UpdateTopHolders infos :: seed
                          \/ sent new
                             = UpdateTopHolders infos
                                 :: seed ++ [DistributeRewards fakeHolders]))).
Proof.
  unfold updateAndDistribute, Script.bind, Script.local, send, fetch,
    Script.submit, Script.query, Script.ret.
  cbn [Script.chain Script.events].
  destruct (buildHolderInfos fakeHolders) as [infos | e] eqn:Hinfos;
    cbv beta iota.
  2: { exists []. cbn [snd]. rewrite app_nil_r. split; [reflexivity | now left]. }
  assert (Haddr : map address infos = fakeHolders)
    by (apply (buildHolderInfosFrom_addresses _ 0), Hinfos).
  rewrite Haddr.
  destruct (rpc (UpdateTopHolders infos) (Script.chain s)) as [[sig | e] w1]
    eqn:Hupdate; cbv beta iota; cbn [Script.chain Script.events].
  2: { exists [Send (UpdateTopHolders infos)]. cbn [snd Script.events].
       split; [reflexivity | right].
       exists infos. split; [reflexivity | split; [exact Haddr | now left]]. }
  set (s1 := {| Script.chain := w1;
                Script.events := Script.events s ++ [Send (UpdateTopHolders infos)] |}).
  destruct (seedVault_sent wallet vaultPDA s1) as (seedEvents & Hev2 & Hseed).
  destruct (seedVaultIfNeeded VAULT_TOP_UP_SOL wallet vaultPDA s1)
    as [[[] | e] s2]; cbn [snd] in Hev2; cbv beta iota;
    cbn [Script.chain Script.events].
  2: { exists (Send (UpdateTopHolders infos) :: seedEvents).
       cbn [snd]. rewrite Hev2. unfold s1. cbn [Script.events].
       rewrite <- app_assoc.
       split; [reflexivity | right].
       exists infos. split; [reflexivity | split; [exact Haddr | right]].
       exists sig, w1, (sent seedEvents).
       split; [exact Hupdate | split; [exact Hseed |]].
       left. reflexivity. }
  match goal with
  | |- exists new, _ = _ /\ @?Q new =>
      assert (Hfinal : forall tail : list Event,
                 sent tail = [] ->
                 exists new,
                   (Script.events s2 ++ [Send (DistributeRewards fakeHolders)])
                     ++ tail
                   = Script.events s ++ new
                   /\ Q new)
  end.
  { intros tail Htail.
    exists (Send (UpdateTopHolders infos)
              :: seedEvents ++ Send (DistributeRewards fakeHolders) :: tail).
    rewrite Hev2. unfold s1. cbn [Script.events].
    split; [now rewrite <- !app_assoc |].
    right. exists infos. split; [reflexivity | split; [exact Haddr | right]].
    exists sig, w1, (sent seedEvents).
    split; [exact Hupdate | split; [exact Hseed |]].
    right. cbn [sent]. rewrite sent_app. cbn [sent]. now rewrite Htail. }
  destruct (rpc (DistributeRewards fakeHolders) (Script.chain s2))
    as [[sig2 | e] w3]; cbv beta iota; cbn [Script.chain Script.events].
  2: { cbn [snd Script.events].
       destruct (Hfinal [] eq_refl) as (new & E & Hnew).
       rewrite app_nil_r in E. exists new. split; assumption. }
  destruct (fetchPool w3 poolPDA) as [updatedPool | e]; cbv beta iota.
  2: { cbn [snd Script.events].
       destruct (Hfinal [FetchPool poolPDA] eq_refl) as (new & E & Hnew).
       exists new. split; assumption. }
  match goal with
  | |- context [showBalances fakeHolders ?st] =>
      destruct (showBalances_sent fakeHolders st) as (shown & Hev4 & Hshown)
  end.
  rewrite Hev4. cbn [Script.events].
  destruct (Hfinal (FetchPool poolPDA :: shown) Hshown) as (new & E & Hnew).
  exists new. split; [| exact Hnew].
  rewrite <- E, <- !app_assoc. reflexivity.
Qed.

Lemma sent_in (instruction : Instruction) (l : list Event) :
  In (Send instruction) l <-> In instruction (sent l).
Proof.
  induction l as [| e l IH]; [reflexivity |].
  destruct e as [pool | key | sentInstruction]; cbn [sent In].
  - split; [intros [E | Hin]; [discriminate | now apply IH]
           | intros Hin; right; now apply IH].
  - split; [intros [E | Hin]; [discriminate | now apply IH]
           | intros Hin; right; now apply IH].
  - split.
    + intros [E | Hin]; [left; now injection E | right; now apply IH].
    + intros [<- | Hin]; [now left | right; now apply IH].
Qed.

Lemma lt_NaN (i : Number) : lt i NaN = false.
Proof. destruct i; reflexivity. Qed.

(** What a run of the script has sent, phase by phase. *)
Lemma main_sent (turns : nat) (s : Script.State) (r : outcome unit)
    (s' : Script.State) :
  main SOLANA_RPC_URL PROGRAM_ID ANCHOR_WALLET HOLDER_COUNT HOLDER_FUND_SOL VAULT_TOP_UP_SOL
       turns s = Some (r, s') ->
  exists new wallet vaultPDA init keys rest,
    Script.events s' = Script.events s ++ new
    /\ sent new
       = init
           ++ map (fun kp => Transfer wallet kp
                               (floor (mul HOLDER_FUND_SOL LAMPORTS_PER_SOL)))
                  keys
           ++ rest
    /\ (init = [] \/ init = [InitializePool wallet])
    /\ (keys <> [] -> exists i, lt i HOLDER_COUNT = true)
    /\ (keys <> [] \/ rest <> [] ->
        exists poolPDA account cluster,
          fetchPool cluster poolPDA = Ok account /\ owner account = wallet)
    /\ (rest = []
        \/ exists infos,
             buildHolderInfos keys = Ok infos
             /\ map address infos = keys
             /\ (rest = [UpdateTopHolders infos]
                 \/ exists signature w w' seed,
                      rpc (UpdateTopHolders infos) w = (Ok signature, w')
                      /\ (seed = []
                          \/ exists amount,
                               seed = [Transfer wallet vaultPDA amount])
                      /\ (rest = UpdateTopHolders infos :: seed
                          \/ rest
                             = UpdateTopHolders infos
                                 :: seed ++ [DistributeRewards keys]))).
Proof.
  unfold main, andThen, ended.
  destruct (openPool_sent s) as (new1 & wallet & Hev1 & Hinit & Hok).
  destruct (openPool SOLANA_RPC_URL PROGRAM_ID ANCHOR_WALLET s) as [[[[w p] v] | e] s1];
    cbn [fst snd] in *.
  2: { intros [= <- <-].
       exists new1, wallet, ""%string, (sent new1), [], [].
       cbn [map app]. rewrite app_nil_r.
       split; [exact Hev1 | split; [reflexivity | split; [exact Hinit |]]].
       split; [intros Hne; now contradiction Hne |].
       split; [intros [Hne | Hne]; now contradiction Hne | now left]. }
  destruct (Hok w p v eq_refl) as (-> & account & cluster & Hfetch & Howner).
  destruct (createFakeHolders HOLDER_COUNT HOLDER_FUND_SOL turns wallet s1)
    as [[[fakeHolders | e] s2] |] eqn:Hcreate; [| | discriminate].
  2: { intros [= <- <-].
       apply createFakeHolders_sent in Hcreate.
       destruct Hcreate as (new2 & keys & Hev2 & Hsent2 & Hturn & _).
       exists (new1 ++ new2), wallet, v, (sent new1), keys, [].
       rewrite app_nil_r, sent_app, Hsent2, Hev2, Hev1, app_assoc.
       split; [reflexivity | split; [reflexivity | split; [exact Hinit |]]].
       split; [exact Hturn |].
       split; [| now left].
       intros _. now exists p, account, cluster. }
  apply createFakeHolders_sent in Hcreate.
  destruct Hcreate as (new2 & keys & Hev2 & Hsent2 & Hturn & Hres).
  rewrite (Hres fakeHolders eq_refl).
  destruct (updateAndDistribute_sent wallet p v keys s2) as (new3 & Hev3 & Hrest).
  intros Hrun. injection Hrun as Hrun.
  assert (Es' : s' = snd (updateAndDistribute VAULT_TOP_UP_SOL wallet p v keys s2))
    by now rewrite Hrun.
  exists (new1 ++ new2 ++ new3), wallet, v, (sent new1), keys, (sent new3).
  rewrite !sent_app, Hsent2, Es', Hev3, Hev2, Hev1, !app_assoc.
  split; [reflexivity | split; [reflexivity | split; [exact Hinit |]]].
  split; [exact Hturn |].
  split; [intros _; now exists p, account, cluster |].
  destruct Hrest as [Hnone | (infos & Hinfos & Haddr & Hrest)]; [now left | right].
  exists infos. split; [exact Hinfos | split; [exact Haddr |]].
  destruct Hrest as [Hone | (sig & w' & seed & Hrpc & Hseed & Hrest)];
    [now left | right].
  exists sig, (Script.chain s2), w', seed. repeat split; assumption.
Qed.

Lemma main_ends (turns : nat) (s : Script.State) :
  (forall wallet s1, exists r s2,
      createFakeHolders HOLDER_COUNT HOLDER_FUND_SOL turns wallet s1
      = Some (r, s2)) ->
  exists status s',
    run SOLANA_RPC_URL PROGRAM_ID ANCHOR_WALLET HOLDER_COUNT HOLDER_FUND_SOL VAULT_TOP_UP_SOL
        turns s = Some (status, s')
    /\ (status = 0 \/ status = 1).
Proof.
  intros Hcreate. unfold run, main, andThen, ended.
  destruct (openPool SOLANA_RPC_URL PROGRAM_ID ANCHOR_WALLET s) as [[[[w p] v] | e] s1].
  2: { do 2 eexists. split; [reflexivity | now right]. }
  destruct (Hcreate w s1) as (r & s2 & ->).
  destruct r as [fakeHolders | e].
  2: { do 2 eexists. split; [reflexivity | now right]. }
  destruct (updateAndDistribute VAULT_TOP_UP_SOL w p v fakeHolders s2)
    as [[[] | e] s3]; do 2 eexists; (split; [reflexivity | auto]).
Qed.

(** X23.  The script ends: for a holder count [n] that is a whole number
    below [2^53] in magnitude, [n] turns of the funding loop are enough for
    the run to come to an end with status 0 or 1, whatever the cluster
    does, and a funding that succeeds returns exactly [n] holders (none
    for a count of zero or below). *)
Theorem demo_script_ends (turns : nat) (s : Script.State) (n : Z) :
  HOLDER_COUNT = num n -> - two53 < n < two53 ->
  (Z.to_nat n <= turns)%nat ->
  (exists status s',
      run SOLANA_RPC_URL PROGRAM_ID ANCHOR_WALLET HOLDER_COUNT HOLDER_FUND_SOL VAULT_TOP_UP_SOL
          turns s = Some (status, s')
      /\ (status = 0 \/ status = 1))
  /\ (forall wallet s1,
        exists r s2,
          createFakeHolders HOLDER_COUNT HOLDER_FUND_SOL turns wallet s1
          = Some (r, s2)
          /\ (forall holders, r = Ok holders ->
                              List.length holders = Z.to_nat n)).
Proof.
  intros Hcount Hn Hturns. split.
  - apply main_ends. intros wallet s1.
    destruct (createFakeHolders_enough_turns turns wallet s1 n Hcount Hn Hturns)
      as (r & s2 & E & _).
    now exists r, s2.
  - intros wallet s1.
    apply (createFakeHolders_enough_turns turns wallet s1 n Hcount Hn Hturns).
Qed.

(** X24.  The script distributes only to holders it has registered: a
    distribute instruction of a run stands last among the instructions
    sent; before it, in this order, come at most one pool initialisation,
    one funding transfer to each of its recipient accounts, the holder
    update that registers exactly these accounts, which was confirmed, and
    at most one vault top-up; and the wallet is the owner of the pool that
    was fetched. *)
Theorem demo_distributes_to_registered_holders (turns : nat) (s : Script.State)
    (r : outcome unit) (s' : Script.State) (accounts : list PublicKey) :
  main SOLANA_RPC_URL PROGRAM_ID ANCHOR_WALLET HOLDER_COUNT HOLDER_FUND_SOL VAULT_TOP_UP_SOL
       turns s = Some (r, s') ->
  In (Send (DistributeRewards accounts)) (Script.events s') ->
  In (Send (DistributeRewards accounts)) (Script.events s)
  \/ exists new wallet vaultPDA init infos seed,
       Script.events s' = Script.events s ++ new
       /\ sent new
          = init
              ++ map (fun kp => Transfer wallet kp
                                  (floor (mul HOLDER_FUND_SOL LAMPORTS_PER_SOL)))
                     accounts
              ++ UpdateTopHolders infos :: seed ++ [DistributeRewards accounts]
       /\ buildHolderInfos accounts = Ok infos
       /\ map address infos = accounts
       /\ (init = [] \/ init = [InitializePool wallet])
       /\ (seed = [] \/ exists amount, seed = [Transfer wallet vaultPDA amount])
       /\ (exists signature w w',
             rpc (UpdateTopHolders infos) w = (Ok signature, w'))
       /\ (exists poolPDA account cluster,
             fetchPool cluster poolPDA = Ok account /\ owner account = wallet).
Proof.
  intros Hrun Hin.
  destruct (main_sent turns s r s' Hrun)
    as (new & wallet & vault & init & keys & rest & Hev & Hsent & Hinit & _
        & Howner & Hrest).
  rewrite Hev in Hin. apply in_app_or in Hin.
  destruct Hin as [Hin | Hin]; [now left | right].
  apply sent_in in Hin. rewrite Hsent in Hin.
  assert (Hin' : In (DistributeRewards accounts) rest).
  { apply in_app_or in Hin. destruct Hin as [Hin | Hin].
    - destruct Hinit as [-> | ->]; [destruct Hin |].
      destruct Hin as [E | []]. discriminate.
    - apply in_app_or in Hin. destruct Hin as [Hin | Hin]; [| exact Hin].
      apply in_map_iff in Hin. destruct Hin as (kp & E & _). discriminate. }
  assert (Hne : rest <> []) by (intros ->; destruct Hin').
  destruct Hrest as [-> | (infos & Hinfos & Haddr & Hrest)]; [destruct Hin' |].
  destruct Hrest as [-> | (sig & w & w' & seed & Hrpc & Hseed & Hrest)].
  { destruct Hin' as [E | []]. discriminate. }
  assert (Hnot : ~ In (DistributeRewards accounts) (UpdateTopHolders infos :: seed)).
  { intros [E | Hs]; [discriminate |].
    destruct Hseed as [-> | (amount & ->)]; [destruct Hs |].
    destruct Hs as [E | []]. discriminate. }
  destruct Hrest as [-> | ->]; [contradiction |].
  assert (Eacc : accounts = keys).
  { change (UpdateTopHolders infos :: seed ++ [DistributeRewards keys])
      with ((UpdateTopHolders infos :: seed) ++ [DistributeRewards keys]) in Hin'.
    apply in_app_or in Hin'. destruct Hin' as [Hc | [E | []]]; [contradiction |].
    now injection E. }
  subst accounts.
  exists new, wallet, vault, init, infos, seed.
  split; [exact Hev | split; [exact Hsent |]].
  split; [exact Hinfos | split; [exact Haddr |]].
  split; [exact Hinit | split; [exact Hseed |]].
  split; [now exists sig, w, w' |].
  apply Howner. now right.
Qed.

(** X25.  A holder count that does not parse switches the funding off, and
    the balance check with it: with [HOLDER_COUNT] not a number the run
    ends without a single turn of the loop, no holder is funded whatever
    the wallet holds, and what it registers and distributes to is the
    empty list. *)
Theorem unparsable_holder_count_registers_nobody (s : Script.State) :
  HOLDER_COUNT = NaN ->
  exists r s' new wallet vaultPDA,
    main SOLANA_RPC_URL PROGRAM_ID ANCHOR_WALLET HOLDER_COUNT HOLDER_FUND_SOL VAULT_TOP_UP_SOL
         0 s = Some (r, s')
    /\ Script.events s' = Script.events s ++ new
    /\ forall instruction, In instruction (sent new) ->
         instruction = InitializePool wallet
         \/ instruction = UpdateTopHolders []
         \/ (exists amount, instruction = Transfer wallet vaultPDA amount)
         \/ instruction = DistributeRewards [].
Proof.
  intros Hcount.
  assert (Hends : exists status s',
             run SOLANA_RPC_URL PROGRAM_ID ANCHOR_WALLET HOLDER_COUNT HOLDER_FUND_SOL
                 VAULT_TOP_UP_SOL 0 s = Some (status, s')
             /\ (status = 0 \/ status = 1)).
  { apply main_ends. intros wallet s1.
    unfold createFakeHolders, andThen, ended. unfold_script.
    destruct (getBalance (Script.chain s1) wallet) as [lamports | e];
      [| now do 2 eexists].
    destruct (strictEq _ (num 0)); [now do 2 eexists |].
    destruct (lt (num (Z.of_N lamports)) _); [now do 2 eexists |].
    cbn [fundHolders]. rewrite Hcount, lt_NaN. unfold ended. now do 2 eexists. }
  destruct Hends as (status & s' & Hrun & _). unfold run in Hrun.
  destruct (main SOLANA_RPC_URL PROGRAM_ID ANCHOR_WALLET HOLDER_COUNT HOLDER_FUND_SOL
                 VAULT_TOP_UP_SOL 0 s) as [[r s''] |] eqn:Hmain;
    [| discriminate].
  destruct (main_sent 0 s r s'' Hmain)
    as (new & wallet & vault & init & keys & rest & Hev & Hsent & Hinit & Hturn
        & _ & Hrest).
  assert (Hkeys : keys = []).
  { destruct keys as [| kp keys]; [reflexivity | exfalso].
    destruct Hturn as (i & Hi); [discriminate |].
    rewrite Hcount, lt_NaN in Hi. discriminate. }
  subst keys. cbn [map app] in Hsent.
  exists r, s'', new, wallet, vault.
  split; [reflexivity | split; [exact Hev |]].
  intros instruction Hin. rewrite Hsent in Hin. apply in_app_or in Hin.
  destruct Hin as [Hin | Hin].
  { destruct Hinit as [-> | ->]; [destruct Hin |].
    destruct Hin as [<- | []]. now left. }
  destruct Hrest as [-> | (infos & Hinfos & Haddr & Hrest)]; [destruct Hin |].
  assert (infos = []) by (injection Hinfos as <-; reflexivity). subst infos.
  destruct Hrest as [-> | (sig & w & w' & seed & _ & Hseed & Hrest)].
  { destruct Hin as [<- | []]. right. now left. }
  assert (Hcases : In instruction (UpdateTopHolders [] :: seed)
                   \/ instruction = DistributeRewards []).
  { destruct Hrest as [-> | ->]; [now left |].
    change (UpdateTopHolders [] :: seed ++ [DistributeRewards []])
      with ((UpdateTopHolders [] :: seed) ++ [DistributeRewards []]) in Hin.
    apply in_app_or in Hin. destruct Hin as [Hin | [<- | []]]; [now left | now right]. }
  destruct Hcases as [[<- | Hs] | ->]; [right; now left | | now do 3 right].
  destruct Hseed as [-> | (amount & ->)]; [destruct Hs |].
  destruct Hs as [<- | []]. right. right. left. now exists amount.
Qed.

End Environment.

End DemoScript.

Section DemoScriptExamples.
Import DistributionDemo.
Local Open Scope string_scope.

Lemma buildHolderInfos_balances_witness :
  exists infos,
    buildHolderInfos ["A"; "B"; "C"] = Ok infos
    /\ map address infos = ["A"; "B"; "C"]
    /\ map balance infos
       = map (fun i => 1000 - 50 * Z.of_nat i) (seq 0 (List.length ["A"; "B"; "C"]))
    /\ (Forall (fun h => 0 < balance h) infos
        <-> (List.length ["A"; "B"; "C"] <= 20)%nat).
Proof.
  apply (buildHolderInfos_balances ["A"; "B"; "C"]).
  vm_compute. discriminate.
Defined.

Lemma createFakeHolders_pays_each_holder_witness :
  exists new paid w,
    Script.events DemoDevnet.afterFunding
    = (Script.events (Script.begin DemoDevnet.fresh) ++ GetBalance "wallet" :: new)%list
    /\ fundedFrom (H := DemoDevnet.devnet) "wallet"
         (floor (mul DemoDevnet.holderFundSol LAMPORTS_PER_SOL))
         DemoDevnet.fresh paid w
    /\ (sent new
        = map (fun kp => Transfer "wallet" kp
                           (floor (mul DemoDevnet.holderFundSol LAMPORTS_PER_SOL)))
              paid
        \/ exists last w1,
             generate (Devnet := DemoDevnet.devnet) w = (last, w1)
             /\ sent new
                = map (fun kp => Transfer "wallet" kp
                                   (floor (mul DemoDevnet.holderFundSol
                                               LAMPORTS_PER_SOL)))
                      (paid ++ [last])%list)
    /\ (sent new <> [] ->
        (exists z, floor (mul DemoDevnet.holderFundSol LAMPORTS_PER_SOL)
                   = Fin (inject_Z z) /\ 0 < z)
        /\ exists lamports,
             getBalance (Devnet := DemoDevnet.devnet) DemoDevnet.fresh "wallet"
             = Ok lamports
             /\ lt (num (Z.of_N lamports))
                   (add (mul (floor (mul DemoDevnet.holderFundSol LAMPORTS_PER_SOL))
                             (num 2))
                        (mul (num 2) (num 5000))) = false)
    /\ (forall holders, Ok ["A"; "B"] = Ok holders ->
          holders = paid
          /\ w = Script.chain DemoDevnet.afterFunding
          /\ new = flat_map
                     (fun kp =>
                        [Send (Transfer "wallet" kp
                                 (floor (mul DemoDevnet.holderFundSol
                                             LAMPORTS_PER_SOL)));
                         GetBalance kp]) holders).
Proof.
  apply (createFakeHolders_pays_each_holder (H := DemoDevnet.devnet)
           (num 2) DemoDevnet.holderFundSol 2 "wallet"
           (Script.begin DemoDevnet.fresh) (Ok ["A"; "B"]) DemoDevnet.afterFunding).
  vm_compute. reflexivity.
Defined.

Lemma demo_script_ends_witness :
  (exists status s',
      run (H := DemoDevnet.devnet) None None None (num 2) DemoDevnet.holderFundSol
          DemoDevnet.vaultTopUpSol 2 (Script.begin DemoDevnet.fresh)
      = Some (status, s')
      /\ (status = 0 \/ status = 1))
  /\ (forall wallet s1,
        exists r s2,
          createFakeHolders (H := DemoDevnet.devnet) (num 2)
            DemoDevnet.holderFundSol 2 wallet s1 = Some (r, s2)
          /\ (forall holders, r = Ok holders ->
                              List.length holders = Z.to_nat 2)).
Proof.
  apply (demo_script_ends (H := DemoDevnet.devnet) None None None (num 2)
           DemoDevnet.holderFundSol DemoDevnet.vaultTopUpSol 2
           (Script.begin DemoDevnet.fresh) 2).
  - reflexivity.
  - vm_compute. split; reflexivity.
  - apply le_n.
Defined.

Lemma demo_distributes_to_registered_holders_witness :
  exists new wallet vaultPDA init infos seed,
    Script.events DemoDevnet.afterRun
    = (Script.events (Script.begin DemoDevnet.fresh) ++ new)%list
    /\ sent new
       = (init
            ++ map (fun kp => Transfer wallet kp
                                (floor (mul DemoDevnet.holderFundSol LAMPORTS_PER_SOL)))
                   ["A"; "B"]
            ++ UpdateTopHolders infos :: seed ++ [DistributeRewards ["A"; "B"]])%list
    /\ buildHolderInfos ["A"; "B"] = Ok infos
    /\ map address infos = ["A"; "B"]
    /\ (init = [] \/ init = [InitializePool wallet])
    /\ (seed = [] \/ exists amount, seed = [Transfer wallet vaultPDA amount])
    /\ (exists signature w w',
          rpc (Devnet := DemoDevnet.devnet) (UpdateTopHolders infos) w
          = (Ok signature, w'))
    /\ (exists poolPDA account cluster,
          fetchPool (Devnet := DemoDevnet.devnet) cluster poolPDA = Ok account
          /\ owner account = wallet).
Proof.
  destruct (demo_distributes_to_registered_holders (H := DemoDevnet.devnet)
              None None None (num 2) DemoDevnet.holderFundSol DemoDevnet.vaultTopUpSol
              2 (Script.begin DemoDevnet.fresh) (Ok tt) DemoDevnet.afterRun
              ["A"; "B"]) as [Hin | Hr].
  - vm_compute. reflexivity.
  - vm_compute. do 11 right. left. reflexivity.
  - destruct Hin.
  - exact Hr.
Defined.

Lemma unparsable_holder_count_registers_nobody_witness :
  exists r s' new wallet vaultPDA,
    main (H := DemoDevnet.devnet) None None None NaN DemoDevnet.holderFundSol
         DemoDevnet.vaultTopUpSol 0 (Script.begin DemoDevnet.fresh)
    = Some (r, s')
    /\ Script.events s'
       = (Script.events (Script.begin DemoDevnet.fresh) ++ new)%list
    /\ forall instruction, In instruction (sent new) ->
         instruction = InitializePool wallet
         \/ instruction = UpdateTopHolders []
         \/ (exists amount, instruction = Transfer wallet vaultPDA amount)
         \/ instruction = DistributeRewards [].
Proof.
  apply (unparsable_holder_count_registers_nobody (H := DemoDevnet.devnet)
           None None None NaN DemoDevnet.holderFundSol DemoDevnet.vaultTopUpSol
           (Script.begin DemoDevnet.fresh)).
  reflexivity.
Defined.

(** A whole run on the small devnet: the pool is created, two holders are
    funded and registered, the vault is topped up and the rewards are
    distributed to the two holders. *)
Example demo_run_sent :
  sent (Script.events DemoDevnet.afterRun)
  = [ InitializePool "wallet";
      Transfer "wallet" "A" (num 10000000);
      Transfer "wallet" "B" (num 10000000);
      UpdateTopHolders [ {| address := "A"; balance := 1000 |};
                         {| address := "B"; balance := 950 |} ];
      Transfer "wallet" "vault:program" (num 200000000);
      DistributeRewards ["A"; "B"] ].
Proof. vm_compute. reflexivity. Qed.

(** An amount that does not parse is never sent: the instruction is not
    built, and the script stops there. *)
Example unparsable_top_up_sends_nothing :
  exists e s',
    seedVaultIfNeeded (H := DemoDevnet.devnet) NaN "wallet" "vault:program"
      (Script.begin DemoDevnet.fresh) = (Threw e, s')
    /\ sent (Script.events s') = [].
Proof. vm_compute. do 2 eexists. split; reflexivity. Qed.

Example unparsable_fund_sends_nothing :
  exists e s',
    createFakeHolders (H := DemoDevnet.devnet) (num 2) NaN 2 "wallet"
      (Script.begin DemoDevnet.fresh) = Some (Threw e, s')
    /\ sent (Script.events s') = [].
Proof. vm_compute. do 2 eexists. split; reflexivity. Qed.

End DemoScriptExamples.
